(** * Kijiji-Repost-Headless: a shallow embedding of [kijiji_api.py]

    The module under study is a scraping HTTP client.  Its functions thread
    mutable state: the requests sent through the [requests.Session], the
    dump files written by the exception class, the lines printed, and, in
    [post_ad_using_data], the dictionary the caller passes.  All of it is
    modelled by explicit state passing in a state-and-exception monad in
    which the state survives an exception, as it does in Python.

    The collaborators the module imports (the HTML parser of bs4, the JSON
    and YAML loaders, the clock and the remote server) are parameters of
    the development, gathered in the record [Collaborators]; the regular
    expressions, which are part of the source text, are run by a small
    backtracking matcher on the patterns as the source spells them.

    Strings are sequences of one-byte characters (Latin-1 code points), and
    the numbers of JSON are integers. *)

From Stdlib Require Import String Ascii List ZArith Bool Arith Lia.
Import ListNotations.
Open Scope list_scope.
Open Scope string_scope.

(** ** Python strings *)

Module Py.

Definition newline : ascii := ascii_of_nat 10.
Definition dquote : ascii := ascii_of_nat 34.
Definition nl : string := String newline EmptyString.
Definition dq : string := String dquote EmptyString.

(** [str.isspace] on one character (also the class [\s] of [re]). *)
Definition isspace (c : ascii) : bool :=
  let n := nat_of_ascii c in
  (((9 <=? n) && (n <=? 13)) || ((28 <=? n) && (n <=? 32))
   || (n =? 133) || (n =? 160))%nat.

Definition isdigit (c : ascii) : bool :=
  let n := nat_of_ascii c in ((48 <=? n) && (n <=? 57))%nat.

(** [sub in s] *)
Fixpoint contains (sub s : string) : bool :=
  prefix sub s ||
  match s with
  | EmptyString => false
  | String _ s' => contains sub s'
  end.

Fixpoint lstrip (s : string) : string :=
  match s with
  | EmptyString => EmptyString
  | String c s' => if isspace c then lstrip s' else s
  end.

Fixpoint rstrip (s : string) : string :=
  match s with
  | EmptyString => EmptyString
  | String c s' =>
      match rstrip s' with
      | EmptyString => if isspace c then EmptyString else String c EmptyString
      | r => String c r
      end
  end.

(** [s.strip()] *)
Definition strip (s : string) : string := rstrip (lstrip s).

(** [s.replace(old, new)] for a non-empty [old]: occurrences are replaced
    from left to right and do not overlap; [skip] counts the characters of
    an occurrence still to be passed over. *)
Fixpoint replace_from (old new : string) (skip : nat) (s : string) : string :=
  match s with
  | EmptyString => EmptyString
  | String c s' =>
      match skip with
      | S k => replace_from old new k s'
      | O =>
          if prefix old s
          then new ++ replace_from old new (String.length old - 1) s'
          else String c (replace_from old new 0 s')
      end
  end.

Definition replace (old new s : string) : string := replace_from old new 0 s.

Fixpoint lower (s : string) : string :=
  match s with
  | EmptyString => EmptyString
  | String c s' =>
      let n := nat_of_ascii c in
      String (if ((65 <=? n) && (n <=? 90))%nat then ascii_of_nat (n + 32) else c)
             (lower s')
  end.

(** [str(n)] for an integer. *)
Fixpoint digits_of (fuel n : nat) (acc : string) : string :=
  match fuel with
  | O => acc
  | S fuel' =>
      let acc' := String (ascii_of_nat (48 + n mod 10)) acc in
      if (n / 10 =? 0)%nat then acc' else digits_of fuel' (n / 10) acc'
  end.

Definition str_of_nat (n : nat) : string := digits_of (S n) n EmptyString.

Definition str_of_Z (z : Z) : string :=
  match z with
  | Z0 => "0"
  | Zpos p => str_of_nat (Pos.to_nat p)
  | Zneg p => "-" ++ str_of_nat (Pos.to_nat p)
  end.

(** *** Dictionaries

    A [dict] keeps its keys in insertion order and holds each key once:
    assigning to a key that is present replaces its value in place. *)

Definition dict (V : Type) : Type := list (string * V).

Fixpoint dict_get {V} (d : dict V) (k : string) : option V :=
  match d with
  | [] => None
  | (k', v) :: d' => if String.eqb k k' then Some v else dict_get d' k
  end.

Fixpoint dict_set {V} (d : dict V) (k : string) (v : V) : dict V :=
  match d with
  | [] => [(k, v)]
  | (k', v') :: d' =>
      if String.eqb k k' then (k', v) :: d' else (k', v') :: dict_set d' k v
  end.

Definition dict_keys {V} (d : dict V) : list string := map fst d.
Definition dict_values {V} (d : dict V) : list V := map snd d.
Definition dict_has {V} (d : dict V) (k : string) : bool :=
  match dict_get d k with Some _ => true | None => false end.

(** *** Values

    What [json.loads] and [yaml.load] return, and what a form payload
    carries. *)

#[warnings="-register-all"]
Inductive value : Type :=
| VNone
| VBool (b : bool)
| VInt (n : Z)
| VStr (s : string)
| VList (l : list value)
| VDict (d : list (string * value)).

Definition is_None (v : value) : bool :=
  match v with VNone => true | _ => false end.

(** Truth value, as tested by [if v:]. *)
Definition truthy (v : value) : bool :=
  match v with
  | VNone => false
  | VBool b => b
  | VInt n => negb (Z.eqb n 0)
  | VStr s => negb (String.eqb s EmptyString)
  | VList l => match l with [] => false | _ => true end
  | VDict d => match d with [] => false | _ => true end
  end.

(** *** Exceptions and results *)

Inductive exn : Type :=
| KijijiApiException (msg dumpfilepath : string)
| KeyError (key : string)
| ValueError
| TypeError
| AttributeError
| YAMLError
| HTTPError (status : nat).

Inductive result (A : Type) : Type :=
| Ok (a : A)
| Raise (e : exn).
Arguments Ok {A} a.
Arguments Raise {A} e.

(** [v[k]] on a value of any type *)
Definition getitem (v : value) (k : string) : result value :=
  match v with
  | VDict d =>
      match dict_get d k with
      | Some x => Ok x
      | None => Raise (KeyError k)
      end
  | _ => Raise TypeError
  end.

(** [v[k] = x]; the updated container is returned *)
Definition setitem (v : value) (k : string) (x : value) : result value :=
  match v with
  | VDict d => Ok (VDict (dict_set d k x))
  | _ => Raise TypeError
  end.

(** [v.values()] and [v.items()] *)
Definition values_of (v : value) : result (list value) :=
  match v with
  | VDict d => Ok (dict_values d)
  | _ => Raise AttributeError
  end.

Definition items_of (v : value) : result (list (string * value)) :=
  match v with
  | VDict d => Ok d
  | _ => Raise AttributeError
  end.

(** [v.strip()] *)
Definition strip_of (v : value) : result string :=
  match v with
  | VStr s => Ok (strip s)
  | _ => Raise AttributeError
  end.

(** [sep.join(l)]: every item has to be a [str] *)
Fixpoint join (sep : string) (l : list value) : result string :=
  match l with
  | [] => Ok EmptyString
  | [VStr s] => Ok s
  | VStr s :: l' =>
      match join sep l' with
      | Ok r => Ok (s ++ sep ++ r)
      | Raise e => Raise e
      end
  | _ :: _ => Raise TypeError
  end.

(** *** [repr] and [str] *)

Definition hex_digit (n : nat) : ascii :=
  if (n <? 10)%nat then ascii_of_nat (48 + n) else ascii_of_nat (87 + n).

Definition printable (c : ascii) : bool :=
  let n := nat_of_ascii c in
  negb ((n <? 32) || ((127 <=? n) && (n <=? 160)) || (n =? 173))%nat.

Fixpoint repr_chars (quote : ascii) (s : string) : string :=
  match s with
  | EmptyString => EmptyString
  | String c s' =>
      let n := nat_of_ascii c in
      (if Ascii.eqb c "\" then "\\"
       else if Ascii.eqb c quote then String "\" (String c EmptyString)
       else if (n =? 9)%nat then "\t"
       else if (n =? 10)%nat then "\n"
       else if (n =? 13)%nat then "\r"
       else if printable c then String c EmptyString
       else "\x" ++ String (hex_digit (n / 16)) (String (hex_digit (n mod 16)) EmptyString))
      ++ repr_chars quote s'
  end.

Definition repr_str (s : string) : string :=
  let q : ascii :=
    if contains "'" s && negb (contains dq s) then dquote else "'"%char in
  String q (repr_chars q s ++ String q EmptyString).

Fixpoint repr (v : value) : string :=
  match v with
  | VNone => "None"
  | VBool true => "True"
  | VBool false => "False"
  | VInt n => str_of_Z n
  | VStr s => repr_str s
  | VList l =>
      "[" ++ (fix items (l : list value) : string :=
                match l with
                | [] => EmptyString
                | [x] => repr x
                | x :: l' => repr x ++ ", " ++ items l'
                end) l ++ "]"
  | VDict d =>
      "{" ++ (fix items (d : list (string * value)) : string :=
                match d with
                | [] => EmptyString
                | [(k, x)] => repr_str k ++ ": " ++ repr x
                | (k, x) :: d' => repr_str k ++ ": " ++ repr x ++ ", " ++ items d'
                end) d ++ "}"
  end.

(** [str(v)], which [str.format] applies to its argument *)
Definition str (v : value) : string :=
  match v with
  | VStr s => s
  | _ => repr v
  end.

End Py.
Export Py.

(** ** Regular expressions

    The four patterns of the source use literals, the classes [.], [\S] and
    [\d], one capturing group, and the quantifiers [*], [+] and [+?] on a
    single character class.  [compile] reads that fragment of the syntax of
    [re]; [search] is the leftmost backtracking search of [re.search] and
    returns the text of group 1. *)

Module Re.

Inductive atom : Type :=
| One (p : ascii -> bool)
| Star (greedy : bool) (p : ascii -> bool)
| Plus (greedy : bool) (p : ascii -> bool)
| GroupOpen
| GroupClose.

Definition regex : Type := list atom.

Inductive token : Type :=
| TClass (p : ascii -> bool)
| TStar
| TPlus
| TQuestion
| TOpen
| TClose.

(** [.] matches any character but a newline (no DOTALL flag is used). *)
Definition dot (c : ascii) : bool := negb (Ascii.eqb c newline).
Definition nonspace (c : ascii) : bool := negb (isspace c).

Fixpoint tokenize (escaped : bool) (s : string) : list token :=
  match s with
  | EmptyString => []
  | String c s' =>
      if escaped then
        (if Ascii.eqb c "S" then TClass nonspace
         else if Ascii.eqb c "d" then TClass isdigit
         else TClass (Ascii.eqb c)) :: tokenize false s'
      else if Ascii.eqb c "\" then tokenize true s'
      else
        (if Ascii.eqb c "." then TClass dot
         else if Ascii.eqb c "*" then TStar
         else if Ascii.eqb c "+" then TPlus
         else if Ascii.eqb c "?" then TQuestion
         else if Ascii.eqb c "(" then TOpen
         else if Ascii.eqb c ")" then TClose
         else TClass (Ascii.eqb c)) :: tokenize false s'
  end.

Fixpoint atoms (ts : list token) : regex :=
  match ts with
  | [] => []
  | TClass p :: TStar :: TQuestion :: ts' => Star false p :: atoms ts'
  | TClass p :: TPlus :: TQuestion :: ts' => Plus false p :: atoms ts'
  | TClass p :: TStar :: ts' => Star true p :: atoms ts'
  | TClass p :: TPlus :: ts' => Plus true p :: atoms ts'
  | TClass p :: ts' => One p :: atoms ts'
  | TOpen :: ts' => GroupOpen :: atoms ts'
  | TClose :: ts' => GroupClose :: atoms ts'
  | _ :: ts' => atoms ts'
  end.

(** [re.compile(pattern)] *)
Definition compile (pattern : string) : regex := atoms (tokenize false pattern).

(** Where group 1 opened and closed: the text still to be read at each. *)
Record groups : Type := mkGroups { g_open : string; g_close : string }.

Fixpoint take (n : nat) (s : string) : string :=
  match n, s with
  | S n', String c s' => String c (take n' s')
  | _, _ => EmptyString
  end.

Definition group1 (g : groups) : string :=
  take (String.length (g_open g) - String.length (g_close g)) (g_open g).

Section Quantifiers.
Context {R : Type} (p : ascii -> bool) (k : string -> option R).

(** the longest run first, then shorter ones *)
Fixpoint star_greedy (s : string) : option R :=
  match s with
  | String c s' =>
      if p c then
        match star_greedy s' with
        | Some r => Some r
        | None => k s
        end
      else k s
  | EmptyString => k s
  end.

(** the shortest run first, then longer ones *)
Fixpoint star_lazy (s : string) : option R :=
  match k s with
  | Some r => Some r
  | None =>
      match s with
      | String c s' => if p c then star_lazy s' else None
      | EmptyString => None
      end
  end.
End Quantifiers.

Fixpoint match_here (r : regex) (s : string) (g : groups) : option groups :=
  match r with
  | [] => Some g
  | One p :: r' =>
      match s with
      | String c s' => if p c then match_here r' s' g else None
      | EmptyString => None
      end
  | Star greedy p :: r' =>
      (if greedy then star_greedy else star_lazy) p (fun s' => match_here r' s' g) s
  | Plus greedy p :: r' =>
      match s with
      | String c s' =>
          if p c
          then (if greedy then star_greedy else star_lazy) p
                 (fun s'' => match_here r' s'' g) s'
          else None
      | EmptyString => None
      end
  | GroupOpen :: r' => match_here r' s (mkGroups s (g_close g))
  | GroupClose :: r' => match_here r' s (mkGroups (g_open g) s)
  end.

(** [r.search(s)], giving [m.group(1)] of the match, [None] for no match. *)
Fixpoint search (r : regex) (s : string) : option string :=
  match match_here r s (mkGroups EmptyString EmptyString) with
  | Some g => Some (group1 g)
  | None =>
      match s with
      | String _ s' => search r s'
      | EmptyString => None
      end
  end.

End Re.

(** ** The world the client runs in *)

Inductive method : Type := GET | POST.

Record Request : Type := mkRequest {
  req_method : method;
  url : string;
  params : list (string * value);
  data : dict value;
  files : list (string * string);
  headers : list (string * string)
}.

Record Response : Type := mkResponse {
  status_code : nat;
  text : string;
  resp_headers : list (string * string)
}.

(** An element of a parsed document: its tag name, its attributes and
    [.string], which is [None] unless the element has a single text child. *)
Record Tag : Type := mkTag {
  tag_name : string;
  attrs : dict string;
  tag_string : option string
}.

(** [sent] lists the requests made through the session, latest first;
    [dumps] maps the path of each dump file to its content; [stdout] lists
    the lines printed, latest first. *)
Record World : Type := mkWorld {
  sent : list Request;
  dumps : dict string;
  stdout : list string
}.

(** What the module imports and talks to.  A server answers a request
    knowing all the requests made so far ([history], latest first), which
    covers cookies and any scripted transport. *)
Record Collaborators : Type := mkCollaborators {
  BeautifulSoup : string -> list Tag;
  json_loads : string -> option value;
  yaml_load : string -> option value;
  strftime : string;
  server : list Request -> Response;
  select : list Tag -> string -> result (list Tag)
}.

(** ** The monad: state that survives exceptions *)

Definition M (S A : Type) : Type := S -> result A * S.

Definition ret {S A} (a : A) : M S A := fun s => (Ok a, s).
Definition raise {S A} (e : exn) : M S A := fun s => (Raise e, s).
Definition bind {S A B} (m : M S A) (k : A -> M S B) : M S B :=
  fun s =>
    match m s with
    | (Ok a, s') => k a s'
    | (Raise e, s') => (Raise e, s')
    end.
Definition of_result {S A} (r : result A) : M S A := fun s => (r, s).

Notation "x <- m ;; k" := (bind m (fun x => k))
  (at level 61, m at next level, right associativity).
Notation "m ;; k" := (bind m (fun _ => k))
  (at level 61, right associativity).

(** a computation on the world, run beside the caller's dictionary *)
Definition lift {D A} (m : M World A) : M (D * World) A :=
  fun s => let (r, w) := m (snd s) in (r, (fst s, w)).

Section Client.

Variable C : Collaborators.

(** [open(path, 'a').write(content)] *)
Definition append_file (fs : dict string) (path content : string) : dict string :=
  match dict_get fs path with
  | Some old => dict_set fs path (old ++ content)
  | None => dict_set fs path content
  end.

(** [KijijiApiException.__init__]: the dump file is written when the
    exception is built, and only for a dump that is true ([if dump:]). *)
Definition KijijiApiException_init (msg : string) (dump : option string)
  : M World exn :=
  fun w =>
    match dump with
    | Some d =>
        if negb (String.eqb d EmptyString) then
          let dumpfilepath := "kijijiapi_dump_" ++ strftime C ++ ".txt" in
          (Ok (KijijiApiException msg dumpfilepath),
           mkWorld (sent w) (append_file (dumps w) dumpfilepath d) (stdout w))
        else (Ok (KijijiApiException msg EmptyString), w)
    | None => (Ok (KijijiApiException msg EmptyString), w)
    end.

Definition raise_KijijiApiException {A} (msg : string) (dump : option string)
  : M World A :=
  e <- KijijiApiException_init msg dump ;; raise e.

Definition print (line : string) : M World unit :=
  fun w => (Ok tt, mkWorld (sent w) (dumps w) (line :: stdout w)).

(** *** The session *)

Definition send (r : Request) : M World Response :=
  fun w =>
    let history := r :: sent w in
    (Ok (server C history), mkWorld history (dumps w) (stdout w)).

Definition session_get (u : string) (ps : list (string * value)) : M World Response :=
  send (mkRequest GET u ps [] [] []).

Definition session_post (u : string) (d : dict value)
  (fs : list (string * string)) (hs : list (string * string)) : M World Response :=
  send (mkRequest POST u [] d fs hs).

Definition raise_for_status (r : Response) : M World unit :=
  if ((400 <=? status_code r) && (status_code r <? 600))%nat
  then raise (HTTPError (status_code r))
  else ret tt.

(** [resp.headers[name]]: header names compare without case, and a missing
    header is a [KeyError] on the lowered name *)
Fixpoint header (hs : list (string * string)) (name : string) : result string :=
  match hs with
  | [] => Raise (KeyError (lower name))
  | (k, v) :: hs' =>
      if String.eqb (lower k) (lower name) then Ok v else header hs' name
  end.

(** *** Scraping *)

(** ["[name={}]".format(attrib_name)] *)
Definition name_selector (attrib_name : string) : string :=
  "[name=" ++ attrib_name ++ "]".

(** a character that a selector keeps as it is in the value of an attribute:
    a letter, a digit, a dot, a hyphen or an underscore *)
Definition plain_char (c : ascii) : bool :=
  let n := nat_of_ascii c in
  (((65 <=? n) && (n <=? 90)) || ((97 <=? n) && (n <=? 122))
   || ((48 <=? n) && (n <=? 57)) || (n =? 46) || (n =? 45) || (n =? 95))%nat.

Fixpoint plain_chars (s : string) : bool :=
  match s with
  | EmptyString => true
  | String c s' => plain_char c && plain_chars s'
  end.

(** a name that is not empty and has plain characters only *)
Definition plain_name (s : string) : bool :=
  match s with
  | EmptyString => false
  | String _ _ => plain_chars s
  end.

(** the test of the selector [[name=v]] on one element *)
Definition name_is (v : string) (t : Tag) : bool :=
  match dict_get (attrs t) "name" with
  | Some v' => String.eqb v' v
  | None => false
  end.

(** [soup.select("[name={}]".format(attrib_name))].  The name is formatted
    into the selector, so it is the selector grammar that reads it.  A plain
    name is read as the value of the attribute by the bs4 the module was
    written for (everything up to the closing bracket, dots included), and
    the elements whose [name] attribute is that value are selected, in
    document order.  Any other name (with a blank, a quote, a comma, a
    bracket, ...) makes a selector of another shape, which is left to the
    library: [select C] may select other elements or raise. *)
Definition select_name (soup : list Tag) (attrib_name : string)
  : result (list Tag) :=
  if plain_name attrib_name
  then Ok (filter (name_is attrib_name) soup)
  else select C soup (name_selector attrib_name).

(** [soup.find_all("script", {"src": False})] *)
Definition find_inline_scripts (soup : list Tag) : list Tag :=
  filter (fun t => String.eqb (tag_name t) "script"
                   && negb (dict_has (attrs t) "src")) soup.

(** the truth value of a [Tag], which bs4 defines as always true *)
Definition Tag_bool (t : Tag) : bool := true.

Definition get_token (html attrib_name : string) : M World string :=
  let soup := BeautifulSoup C html in
  res <- of_result (select_name soup attrib_name) ;;
  match res with
  | [] =>
      raise_KijijiApiException
        ("Element with name attribute '" ++ attrib_name ++ "' not found in html text.")
        (Some html)
  | t :: _ =>
      match dict_get (attrs t) "value" with
      | Some v => ret v
      | None => raise (KeyError "value")
      end
  end.

Definition kj_data_pattern : string := "window.__data=(.*);".

Fixpoint get_kj_data_loop (html : string) (script_list : list Tag) : M World value :=
  match script_list with
  | [] =>
      raise_KijijiApiException "'__data' JSON object not found in html text." (Some html)
  | script :: rest =>
      if Tag_bool script then
        match tag_string script with
        | None => raise TypeError
        | Some s =>
            match Re.search (Re.compile kj_data_pattern) s with
            | Some g =>
                match json_loads C g with
                | Some v => ret v
                | None => raise ValueError
                end
            | None => get_kj_data_loop html rest
            end
        end
      else get_kj_data_loop html rest
  end.

Definition get_kj_data (html : string) : M World value :=
  let soup := BeautifulSoup C html in
  get_kj_data_loop html (find_inline_scripts soup).

Definition xsrf_pattern : string := "Zoop\.init\(.*config: ({.+?}).*\);".

Fixpoint get_xsrf_token_loop (html : string) (script_list : list Tag) : M World value :=
  match script_list with
  | [] => raise_KijijiApiException "XSRF token not found in html text." (Some html)
  | script :: rest =>
      if Tag_bool script then
        match tag_string script with
        | None => raise AttributeError
        | Some s =>
            match Re.search (Re.compile xsrf_pattern) (replace nl EmptyString s) with
            | Some g =>
                match yaml_load C g with
                | Some v => of_result (getitem v "token")
                | None => raise YAMLError
                end
            | None => get_xsrf_token_loop html rest
            end
        end
      else get_xsrf_token_loop html rest
  end.

Definition get_xsrf_token (html : string) : M World value :=
  let soup := BeautifulSoup C html in
  get_xsrf_token_loop html (find_inline_scripts soup).

(** *** class KijijiApi *)

Definition login_url : string := "https://www.kijiji.ca/t-login.html".
Definition my_ads_probe_url : string := "https://www.kijiji.ca/m-my-ads.html/".
Definition logout_url : string := "https://www.kijiji.ca/m-logout.html".
Definition my_ads_url : string := "https://www.kijiji.ca/m-my-ads.html".
Definition delete_ad_url : string := "https://www.kijiji.ca/j-delete-ad.json".
Definition image_upload_url : string := "https://www.kijiji.ca/p-upload-image.html".
Definition post_ad_page_url : string :=
  "https://www.kijiji.ca/p-admarkt-post-ad.html?categoryId=15".
Definition new_ad_url : string := "https://www.kijiji.ca/p-submit-ad.html".
Definition ads_json_url : string := "https://www.kijiji.ca/my/ads.json".
Definition ranks_url : string := "https://www.kijiji.ca/my/ranks".

Definition is_logged_in : M World bool :=
  resp <- session_get my_ads_probe_url [] ;;
  ret (contains "Sign Out" (text resp)).

Definition login_payload (username password : string) (token : string)
  (targetUrl : value) : dict value :=
  [ ("emailOrNickname", VStr username);
    ("password", VStr password);
    ("rememberMe", VStr "true");
    ("_rememberMe", VStr "on");
    ("ca.kijiji.xsrf.token", VStr token);
    ("targetUrl", targetUrl) ].

Definition login (username password : string) : M World unit :=
  resp <- session_get login_url [] ;;
  token <- get_token (text resp) "ca.kijiji.xsrf.token" ;;
  kj <- get_kj_data (text resp) ;;
  config <- of_result (getitem kj "config") ;;
  targetUrl <- of_result (getitem config "targetUrl") ;;
  resp <- session_post login_url (login_payload username password token targetUrl) [] [] ;;
  ok <- is_logged_in ;;
  if negb ok then raise_KijijiApiException "Could not log in." (Some (text resp))
  else ret tt.

Definition logout : M World unit :=
  _ <- session_get logout_url [] ;; ret tt.

(** the [ads] form field of a delete request *)
Definition delete_ads_field (ad_id : value) : string :=
  "[{" ++ dq ++ "adId" ++ dq ++ ":" ++ dq ++ str ad_id ++ dq ++ ","
  ++ dq ++ "reason" ++ dq ++ ":" ++ dq ++ "PREFER_NOT_TO_SAY" ++ dq ++ ","
  ++ dq ++ "otherReason" ++ dq ++ ":" ++ dq ++ dq ++ "}]".

Definition delete_params (ad_id : value) (token : value) : dict value :=
  [ ("Action", VStr "DELETE_ADS");
    ("Mode", VStr "ACTIVE");
    ("needsRedirect", VStr "false");
    ("ads", VStr (delete_ads_field ad_id));
    ("ca.kijiji.xsrf.token", token) ].

Definition delete_ad (ad_id : value) : M World unit :=
  my_ads_page <- session_get my_ads_url [] ;;
  token <- get_xsrf_token (text my_ads_page) ;;
  resp <- session_post delete_ad_url (delete_params ad_id token) [] [] ;;
  if negb (contains "OK" (text resp))
  then raise_KijijiApiException "Could not delete ad." (Some (text resp))
  else ret tt.

(** [ranks] and [ads] requests of [get_all_ads] *)
Fixpoint ids_params (ads : list value) : result (list (string * value)) :=
  match ads with
  | [] => Ok []
  | ad :: ads' =>
      match getitem ad "id" with
      | Ok i =>
          match ids_params ads' with
          | Ok ps => Ok (("ids", i) :: ps)
          | Raise e => Raise e
          end
      | Raise e => Raise e
      end
  end.

(** [for ad_id, rank in ...items(): ads_info[ad_id]['rank'] = rank] *)
Fixpoint add_ranks (ranks : list (string * value)) (ads_info : value) : result value :=
  match ranks with
  | [] => Ok ads_info
  | (ad_id, rank) :: ranks' =>
      match getitem ads_info ad_id with
      | Ok ad =>
          match setitem ad "rank" rank with
          | Ok ad' =>
              match setitem ads_info ad_id ad' with
              | Ok ads_info' => add_ranks ranks' ads_info'
              | Raise e => Raise e
              end
          | Raise e => Raise e
          end
      | Raise e => Raise e
      end
  end.

Definition get_all_ads : M World (list value) :=
  resp <- session_get ads_json_url [] ;;
  raise_for_status resp ;;
  ads_json <- match json_loads C (text resp) with
              | Some v => ret v
              | None => raise ValueError
              end ;;
  ads_info <- of_result (getitem ads_json "ads") ;;
  ads_info <- (if truthy ads_info then
                 ads <- of_result (values_of ads_info) ;;
                 ps <- of_result (ids_params ads) ;;
                 resp <- session_get ranks_url ps ;;
                 raise_for_status resp ;;
                 ranks_json <- match json_loads C (text resp) with
                               | Some v => ret v
                               | None => raise ValueError
                               end ;;
                 ranks <- of_result (getitem ranks_json "ranks") ;;
                 items <- of_result (items_of ranks) ;;
                 of_result (add_ranks items ads_info)
               else ret ads_info) ;;
  of_result (values_of ads_info).

(** the comprehension of [delete_ad_using_title] *)
Fixpoint delete_matching (title : string) (all_ads : list value) : M World unit :=
  match all_ads with
  | [] => ret tt
  | ad :: rest =>
      t <- of_result (getitem ad "title") ;;
      t <- of_result (strip_of t) ;;
      (if String.eqb t (strip title)
       then (i <- of_result (getitem ad "id") ;; delete_ad i)
       else ret tt) ;;
      delete_matching title rest
  end.

Definition delete_ad_using_title (title : string) : M World unit :=
  all_ads <- get_all_ads ;;
  delete_matching title all_ads.

(** the three tries of [upload_image] for one file: [tries] are the values
    of [i] still to run *)
Fixpoint upload_tries (token img_file : string) (tries : list nat)
  (image_urls : list value) : M World (list value) :=
  match tries with
  | [] => ret image_urls
  | i :: tries' =>
      r <- session_post image_upload_url [] [("file", img_file)]
             [("X-Ebay-Box-Token", token)] ;;
      raise_for_status r ;;
      match json_loads C (text r) with
      | None =>
          print ("Image upload failed on try #" ++ str_of_nat (i + 1)) ;;
          upload_tries token img_file tries' image_urls
      | Some image_tree =>
          match getitem image_tree "thumbnailUrl" with
          | Ok img_url =>
              print ("Image upload success on try #" ++ str_of_nat (i + 1)) ;;
              ret (image_urls ++ [img_url])%list
          | Raise (KeyError _) =>
              print ("Image upload failed on try #" ++ str_of_nat (i + 1)) ;;
              upload_tries token img_file tries' image_urls
          | Raise e => raise e
          end
      end
  end.

Fixpoint upload_files (token : string) (image_files : list string)
  (image_urls : list value) : M World (list value) :=
  match image_files with
  | [] => ret image_urls
  | img_file :: rest =>
      image_urls <- upload_tries token img_file (seq 0 3) image_urls ;;
      upload_files token rest image_urls
  end.

Definition upload_image (token : string) (image_files : list string)
  : M World (list value) :=
  image_urls <- upload_files token image_files [] ;;
  ret (filter (fun image => negb (is_None image)) image_urls).

(** *** post_ad_using_data

    [data] is the caller's dictionary: the function assigns to it, so it is
    part of the state and is still there when an exception leaves the
    function. *)

Definition PostState : Type := (dict string * World)%type.

Definition read_data : M PostState (dict string) := fun s => (Ok (fst s), s).
Definition data_set (k v : string) : M PostState unit :=
  fun s => (Ok tt, (dict_set (fst s) k v, snd s)).
Definition data_item (k : string) : M PostState string :=
  fun s => match dict_get (fst s) k with
           | Some v => (Ok v, s)
           | None => (Raise (KeyError k), s)
           end.
Definition data_get (k default : string) : M PostState string :=
  fun s => match dict_get (fst s) k with
           | Some v => (Ok v, s)
           | None => (Ok default, s)
           end.

Definition upload_token_pattern : string := "initialXsrfToken: '(\S+)'".
Definition ad_id_pattern : string := "kjrva=(\d+)".
Definition title_too_short : string := "Your ad title is too short! (min 10 chars)".
Definition title_too_long : string := "Your ad title is too long! (max 64 chars)".
Definition banned_marker : string :=
  "There was an issue posting your ad, please contact Customer Service.".

(** the form page is loaded, the images are uploaded, and the image list,
    the two tokens and the description are written into [data] *)
Definition post_ad_prepare (image_files : list string) : M PostState unit :=
  resp <- lift (session_get post_ad_page_url []) ;;
  image_upload_token <-
    match Re.search (Re.compile upload_token_pattern) (text resp) with
    | Some g => ret g
    | None =>
        lift (raise_KijijiApiException "'initialXsrfToken' not found in html text."
                (Some (text resp)))
    end ;;
  image_list <- lift (upload_image image_upload_token image_files) ;;
  images <- of_result (join "," image_list) ;;
  data_set "images" images ;;
  token <- lift (get_token (text resp) "ca.kijiji.xsrf.token") ;;
  data_set "ca.kijiji.xsrf.token" token ;;
  token <- lift (get_token (text resp) "postAdForm.fraudToken") ;;
  data_set "postAdForm.fraudToken" token ;;
  description <- data_item "postAdForm.description" ;;
  data_set "postAdForm.description" (replace "\n" nl description).

(** the constraints on the title *)
Definition post_ad_check_title : M PostState unit :=
  title <- data_get "postAdForm.title" EmptyString ;;
  let title_len := String.length title in
  (if negb (10 <=? title_len)%nat
   then lift (raise_KijijiApiException title_too_short None)
   else ret tt) ;;
  (if (64 <? title_len)%nat
   then lift (raise_KijijiApiException title_too_long None)
   else ret tt).

Definition form_data (d : dict string) : dict value :=
  map (fun kv => (fst kv, VStr (snd kv))) d.

(** the ad is submitted and its id is read from the cookie of the answer *)
Definition post_ad_submit : M PostState string :=
  d <- read_data ;;
  resp <- lift (session_post new_ad_url (form_data d) [] []) ;;
  lift (raise_for_status resp) ;;
  (if negb (contains "Delete Ad?" (text resp)) then
     if contains banned_marker (text resp)
     then lift (raise_KijijiApiException "Could not post ad; this user is banned."
                  (Some (text resp)))
     else lift (raise_KijijiApiException "Could not post ad." (Some (text resp)))
   else ret tt) ;;
  cookie <- of_result (header (resp_headers resp) "Set-Cookie") ;;
  match Re.search (Re.compile ad_id_pattern) cookie with
  | Some ad_id => ret ad_id
  | None => raise AttributeError
  end.

Definition post_ad_body (image_files : list string) : M PostState string :=
  post_ad_prepare image_files ;;
  post_ad_check_title ;;
  post_ad_submit.

(** the result, the caller's dictionary after the call, and the world *)
Definition post_ad_using_data (data : dict string) (image_files : list string)
  : World -> result string * (dict string * World) :=
  fun w => post_ad_body image_files (data, w).

End Client.

(** ** Reference collaborators

    Executable stand-ins for the imported libraries, on the fragment of
    HTML, JSON and YAML that the pages of the examples use.  The theorems
    below hold for every collaborator; these instances run the client on
    concrete pages. *)

Module Mock.

Fixpoint span (p : ascii -> bool) (s : string) : string * string :=
  match s with
  | String c s' =>
      if p c then let (a, b) := span p s' in (String c a, b)
      else (EmptyString, s)
  | EmptyString => (EmptyString, EmptyString)
  end.

Fixpoint drop (n : nat) (s : string) : string :=
  match n, s with
  | S n', String _ s' => drop n' s'
  | _, _ => s
  end.

(** the text before the first occurrence of [stop], and the text from there *)
Fixpoint until (stop s : string) : string * string :=
  if prefix stop s then (EmptyString, s)
  else match s with
       | String c s' => let (a, b) := until stop s' in (String c a, b)
       | EmptyString => (EmptyString, EmptyString)
       end.

Definition is_char (c d : ascii) : bool := Ascii.eqb c d.

(** *** HTML: start tags with their attributes, text, raw script content *)

Definition name_char (c : ascii) : bool :=
  negb (isspace c || is_char c "=" || is_char c ">" || is_char c "/"
        || is_char c "<").

Fixpoint parse_attrs (fuel : nat) (s : string) (acc : dict string)
  : dict string * string :=
  match fuel with
  | O => (acc, s)
  | S fuel' =>
      match lstrip s with
      | EmptyString => (acc, EmptyString)
      | String c s' =>
          if is_char c ">" then (acc, s')
          else if is_char c "/" then parse_attrs fuel' s' acc
          else
            let (k, r) := span name_char (String c s') in
            match k, r with
            | EmptyString, _ => parse_attrs fuel' s' acc
            | _, String e r' =>
                if is_char e "=" then
                  match r' with
                  | String q r'' =>
                      if is_char q dquote || is_char q "'" then
                        let (v, rest) := span (fun x => negb (is_char x q)) r'' in
                        parse_attrs fuel' (drop 1 rest) (dict_set acc (lower k) v)
                      else
                        let (v, rest) :=
                          span (fun x => negb (isspace x || is_char x ">")) r' in
                        parse_attrs fuel' rest (dict_set acc (lower k) v)
                  | EmptyString => (dict_set acc (lower k) EmptyString, EmptyString)
                  end
                else parse_attrs fuel' r (dict_set acc (lower k) EmptyString)
            | _, EmptyString => (dict_set acc (lower k) EmptyString, EmptyString)
            end
      end
  end.

Definition raw_text_element (name : string) : bool :=
  String.eqb name "script" || String.eqb name "style".

Fixpoint parse_elements (fuel : nat) (s : string) : list Tag :=
  match fuel with
  | O => []
  | S fuel' =>
      match s with
      | EmptyString => []
      | String c s' =>
          if is_char c "<" then
            let (name, r) := span name_char s' in
            if String.eqb name EmptyString || prefix "!" name
            then parse_elements fuel' s'
            else
              let name := lower name in
              let (attributes, body) := parse_attrs fuel' r [] in
              if raw_text_element name then
                let (content, rest) := until ("</" ++ name) body in
                mkTag name attributes
                  (if String.eqb content EmptyString then None else Some content)
                :: parse_elements fuel' rest
              else
                let (txt, rest) := span (fun x => negb (is_char x "<")) body in
                mkTag name attributes
                  (if negb (String.eqb txt EmptyString)
                      && prefix ("</" ++ name ++ ">") rest
                   then Some txt else None)
                :: parse_elements fuel' body
          else parse_elements fuel' s'
      end
  end.

Definition html_parser (html : string) : list Tag :=
  parse_elements (S (String.length html)) html.

(** *** JSON: objects, arrays, strings, integers, [true], [false], [null] *)

Definition json_space (c : ascii) : bool :=
  let n := nat_of_ascii c in
  ((n =? 32) || (n =? 9) || (n =? 10) || (n =? 13))%nat.

Fixpoint skip_ws (s : string) : string :=
  match s with
  | String c s' => if json_space c then skip_ws s' else s
  | EmptyString => EmptyString
  end.

Definition unescape (e : ascii) : option ascii :=
  if is_char e dquote || is_char e "\" || is_char e "/" then Some e
  else if is_char e "n" then Some newline
  else if is_char e "t" then Some (ascii_of_nat 9)
  else if is_char e "r" then Some (ascii_of_nat 13)
  else if is_char e "b" then Some (ascii_of_nat 8)
  else if is_char e "f" then Some (ascii_of_nat 12)
  else None.

(** the text after an opening quote: the string's content and what follows
    its closing quote *)
Fixpoint parse_string_body (s : string) : option (string * string) :=
  match s with
  | EmptyString => None
  | String c s' =>
      if is_char c dquote then Some (EmptyString, s')
      else if is_char c "\" then
        match s' with
        | String e s'' =>
            match unescape e, parse_string_body s'' with
            | Some x, Some (body, rest) => Some (String x body, rest)
            | _, _ => None
            end
        | EmptyString => None
        end
      else if (nat_of_ascii c <? 32)%nat then None
      else
        match parse_string_body s' with
        | Some (body, rest) => Some (String c body, rest)
        | None => None
        end
  end.

Fixpoint Z_of_digits (acc : Z) (s : string) : Z :=
  match s with
  | String c s' => Z_of_digits (10 * acc + Z.of_nat (nat_of_ascii c - 48)) s'
  | EmptyString => acc
  end.

(** an integer literal; a fraction or an exponent is outside the fragment *)
Definition parse_number (s : string) : option (value * string) :=
  let (neg, s1) :=
    match s with
    | String c s' => if is_char c "-" then (true, s') else (false, s)
    | EmptyString => (false, s)
    end in
  let (ds, rest) := span isdigit s1 in
  if String.eqb ds EmptyString then None
  else if prefix "0" ds && negb (String.eqb ds "0") then None
  else if prefix "." rest || prefix "e" rest || prefix "E" rest then None
  else Some (VInt (if neg then - Z_of_digits 0 ds else Z_of_digits 0 ds), rest).

Fixpoint parse_value (fuel : nat) (s : string) : option (value * string) :=
  match fuel with
  | O => None
  | S fuel' =>
      match skip_ws s with
      | EmptyString => None
      | String c s' =>
          if is_char c "{" then
            match skip_ws s' with
            | String e r =>
                if is_char e "}" then Some (VDict [], r)
                else parse_members fuel' s' []
            | EmptyString => None
            end
          else if is_char c "[" then
            match skip_ws s' with
            | String e r =>
                if is_char e "]" then Some (VList [], r)
                else parse_items fuel' s' []
            | EmptyString => None
            end
          else if is_char c dquote then
            match parse_string_body s' with
            | Some (body, rest) => Some (VStr body, rest)
            | None => None
            end
          else if prefix "true" (String c s') then Some (VBool true, drop 3 s')
          else if prefix "false" (String c s') then Some (VBool false, drop 4 s')
          else if prefix "null" (String c s') then Some (VNone, drop 3 s')
          else parse_number (String c s')
      end
  end
with parse_members (fuel : nat) (s : string) (acc : dict value)
  : option (value * string) :=
  match fuel with
  | O => None
  | S fuel' =>
      match skip_ws s with
      | String q s' =>
          if is_char q dquote then
            match parse_string_body s' with
            | Some (k, r) =>
                match skip_ws r with
                | String colon r' =>
                    if is_char colon ":" then
                      match parse_value fuel' r' with
                      | Some (v, r'') =>
                          match skip_ws r'' with
                          | String e r3 =>
                              if is_char e "," then parse_members fuel' r3 (dict_set acc k v)
                              else if is_char e "}" then Some (VDict (dict_set acc k v), r3)
                              else None
                          | EmptyString => None
                          end
                      | None => None
                      end
                    else None
                | EmptyString => None
                end
            | None => None
            end
          else None
      | EmptyString => None
      end
  end
with parse_items (fuel : nat) (s : string) (acc : list value)
  : option (value * string) :=
  match fuel with
  | O => None
  | S fuel' =>
      match parse_value fuel' s with
      | Some (v, r) =>
          match skip_ws r with
          | String e r' =>
              if is_char e "," then parse_items fuel' r' (acc ++ [v])%list
              else if is_char e "]" then Some (VList (acc ++ [v])%list, r')
              else None
          | EmptyString => None
          end
      | None => None
      end
  end.

Definition json_loads (s : string) : option value :=
  match parse_value (S (String.length s)) s with
  | Some (v, rest) =>
      if String.eqb (skip_ws rest) EmptyString then Some v else None
  | None => None
  end.

(** *** YAML: one flow mapping of plain or quoted scalars,
    [{key: value, key: 'value'}] *)

Definition yaml_scalar (s : string) : value :=
  let s := strip s in
  match s with
  | String q s' =>
      if is_char q "'" || is_char q dquote then
        VStr (fst (span (fun x => negb (is_char x q)) s'))
      else if forallb isdigit (list_ascii_of_string s) then VInt (Z_of_digits 0 s)
      else if String.eqb s "true" then VBool true
      else if String.eqb s "false" then VBool false
      else if String.eqb s "null" then VNone
      else VStr s
  | EmptyString => VNone
  end.

Fixpoint yaml_entries (fuel : nat) (s : string) (acc : dict value) : option value :=
  match fuel with
  | O => None
  | S fuel' =>
      let (k, r) := until ": " s in
      match r with
      | String _ (String _ r') =>
          let (v, rest) :=
            span (fun x => negb (is_char x "," || is_char x "}" || is_char x "{")) r' in
          match rest with
          | String e rest' =>
              if is_char e "," then yaml_entries fuel' rest' (dict_set acc (strip k) (yaml_scalar v))
              else if is_char e "}" then
                if String.eqb (strip rest') EmptyString
                then Some (VDict (dict_set acc (strip k) (yaml_scalar v)))
                else None
              else None
          | EmptyString => None
          end
      | _ => None
      end
  end.

Definition yaml_load (s : string) : option value :=
  match strip s with
  | String c s' =>
      if is_char c "{" then yaml_entries (String.length s) s' [] else None
  | EmptyString => None
  end.

(** *** Transports *)

Definition ok_response (body : string) : Response := mkResponse 200 body [].

(** a transport that answers the n-th request with the n-th response of a
    script, and with an empty page once the script is over *)
Definition scripted (script : list Response) (history : list Request) : Response :=
  nth (List.length history - 1) script (ok_response EmptyString).

(** the selectors left to the library are refused *)
Definition select (soup : list Tag) (selector : string) : result (list Tag) :=
  Raise ValueError.

Definition collaborators (transport : list Request -> Response) : Collaborators :=
  mkCollaborators html_parser json_loads yaml_load "20240101T120000" transport
    select.

Definition fresh : World := mkWorld [] [] [].

End Mock.


(** ** Texts and characters of the statements *)

(** every character of [s] satisfies [p] *)
Fixpoint all_chars (p : ascii -> bool) (s : string) : bool :=
  match s with
  | EmptyString => true
  | String c s' => p c && all_chars p s'
  end.

(** the end of a line: the end of the text or a newline *)
Definition line_end (s : string) : bool :=
  match s with
  | EmptyString => true
  | String c _ => Ascii.eqb c newline
  end.

Definition not_semicolon (c : ascii) : bool :=
  Re.dot c && negb (Ascii.eqb c ";").

(** the JSON text of the object with [a] set to 1, and that object *)
Definition a1_json : string := "{" ++ dq ++ "a" ++ dq ++ ":1}".
Definition a1 : value := VDict [("a", VInt 1)].

(** ** Example pages and servers *)

Module Examples.

Definition q (s : string) : string := dq ++ s ++ dq.

Definition hidden_input (name v : string) : string :=
  "<input type=" ++ q "hidden" ++ " name=" ++ q name ++ " value=" ++ q v ++ ">".

Definition a1_page : string :=
  "<html><head><script src=" ++ q "/app.js" ++ "></script>"
  ++ "<script>window.__data=" ++ a1_json ++ ";</script></head></html>".

(** the same data, followed on its line by another statement *)
Definition a1_page_two_statements : string :=
  "<html><head><script>window.__data=" ++ a1_json
  ++ ";window.ready=true;</script></head></html>".

(** a field named [q] with no value, before one with the value Y *)
Definition two_fields_page : string :=
  "<form><input name=" ++ q "q" ++ "><input name=" ++ q "q" ++ " value="
  ++ q "Y" ++ "></form>".

Definition login_page : string :=
  "<html><body><form>" ++ hidden_input "ca.kijiji.xsrf.token" "x-1" ++ "</form>"
  ++ "<script src=" ++ q "/app.js" ++ "></script>"
  ++ "<script>window.__data={" ++ q "config" ++ ":{" ++ q "targetUrl" ++ ":"
  ++ q "/my/ads" ++ "}};</script></body></html>".

Definition signed_in_page : string :=
  "<html><body><a href=" ++ q "/m-logout.html" ++ ">Sign Out</a></body></html>".

Definition signed_out_page : string :=
  "<html><body><a href=" ++ q "/t-login.html" ++ ">Sign In</a></body></html>".

Definition form_page : string :=
  "<html><head><script>Uploader.init({initialXsrfToken: 'up-1', max: 10});</script>"
  ++ "</head><body><form>" ++ hidden_input "ca.kijiji.xsrf.token" "x-2"
  ++ hidden_input "postAdForm.fraudToken" "f-1" ++ "</form></body></html>".

Definition my_ads_page : string :=
  "<html><body><script>Zoop.init(" ++ q "ads" ++ ", {config: {token: 'd-1'}});"
  ++ "</script><a>Sign Out</a></body></html>".

Definition ads_body : string :=
  "{" ++ q "ads" ++ ": {"
  ++ q "11" ++ ": {" ++ q "id" ++ ": 11, " ++ q "title" ++ ": " ++ q "Foo" ++ "}, "
  ++ q "12" ++ ": {" ++ q "id" ++ ": 12, " ++ q "title" ++ ": " ++ q "Foo " ++ "}, "
  ++ q "13" ++ ": {" ++ q "id" ++ ": 13, " ++ q "title" ++ ": " ++ q "Bar" ++ "}}}".

Definition no_ads_body : string := "{" ++ q "ads" ++ ": {}}".

Definition ranks_body : string :=
  "{" ++ q "ranks" ++ ": {" ++ q "11" ++ ": 1, " ++ q "12" ++ ": 1, "
  ++ q "13" ++ ": 2}}".

Definition deleted_body : string := "{" ++ q "status" ++ ": " ++ q "OK" ++ "}".

Definition uploaded_body (u : string) : string :=
  "{" ++ q "thumbnailUrl" ++ ": " ++ q u ++ "}".

Definition posted : Response :=
  mkResponse 200 "<html><body><h1>Delete Ad?</h1></body></html>"
    [("Content-Type", "text/html"); ("Set-Cookie", "up=1; kjrva=1234567; Path=/")].

Definition posted_no_cookie : Response :=
  mkResponse 200 "<html><body><h1>Delete Ad?</h1></body></html>"
    [("Content-Type", "text/html")].

Definition posted_other_cookie : Response :=
  mkResponse 200 "<html><body><h1>Delete Ad?</h1></body></html>"
    [("set-cookie", "up=1; Path=/")].

(** a server that answers by the address of the latest request *)
Definition routed (routes : list (string * Response)) (history : list Request)
  : Response :=
  match history with
  | r :: _ =>
      match dict_get routes (url r) with
      | Some resp => resp
      | None => Mock.ok_response EmptyString
      end
  | [] => Mock.ok_response EmptyString
  end.

Definition site_answering (submitted : Response) : list Request -> Response :=
  routed [ (ads_json_url, Mock.ok_response ads_body);
           (ranks_url, Mock.ok_response ranks_body);
           (my_ads_url, Mock.ok_response my_ads_page);
           (delete_ad_url, Mock.ok_response deleted_body);
           (login_url, Mock.ok_response login_page);
           (my_ads_probe_url, Mock.ok_response signed_in_page);
           (post_ad_page_url, Mock.ok_response form_page);
           (image_upload_url, Mock.ok_response (uploaded_body "https://i.ebayimg.com/a.jpg"));
           (new_ad_url, submitted) ].

Definition site : list Request -> Response := site_answering posted.

Definition kijiji : Collaborators := Mock.collaborators site.

(** what the site of the examples lists, and the ranks it gives *)
Definition listed_ads : dict value :=
  [ ("11", VDict [("id", VInt 11); ("title", VStr "Foo")]);
    ("12", VDict [("id", VInt 12); ("title", VStr "Foo ")]);
    ("13", VDict [("id", VInt 13); ("title", VStr "Bar")]) ].

Definition listed_ranks : dict value :=
  [ ("11", VInt 1); ("12", VInt 1); ("13", VInt 2) ].

(** the ad of the examples, with a title of [n] characters *)
Definition ad_with (title : string) : dict string :=
  [ ("postAdForm.title", title);
    ("postAdForm.description", "Line one\nLine two");
    ("categoryId", "15") ].

Definition ad_untitled : dict string :=
  [ ("postAdForm.description", "Line one\nLine two") ].

Definition title10 : string := "0123456789".
Definition title9 : string := "012345678".
Definition title64 : string :=
  "0123456789012345678901234567890123456789012345678901234567890123".
Definition title65 : string :=
  "01234567890123456789012345678901234567890123456789012345678901234".

(** a transport on which the first file is uploaded at the third try and
    the second never is *)
Definition flaky : list Request -> Response :=
  Mock.scripted
    [ Mock.ok_response "<html>Bad gateway</html>";
      Mock.ok_response ("{" ++ q "error" ++ ": " ++ q "busy" ++ "}");
      Mock.ok_response (uploaded_body "https://i.ebayimg.com/a.jpg");
      Mock.ok_response "<html>Bad gateway</html>";
      Mock.ok_response "<html>Bad gateway</html>";
      Mock.ok_response "<html>Bad gateway</html>" ].

(** a login that the site refuses, answering the post with an empty body *)
Definition refusing : list Request -> Response :=
  routed [ (login_url, Mock.ok_response login_page);
           (my_ads_probe_url, Mock.ok_response signed_out_page) ].

Definition refusing_empty : list Request -> Response :=
  Mock.scripted
    [ Mock.ok_response login_page;
      Mock.ok_response EmptyString;
      Mock.ok_response signed_out_page ].

Definition no_ads_site : list Request -> Response :=
  routed [ (ads_json_url, Mock.ok_response no_ads_body) ].

End Examples.

Import Examples.

(** ** Vocabulary of the statements *)

Close Scope string_scope.
Open Scope string_scope.
Open Scope list_scope.

(** the path of the dump file an exception writes *)
Definition dump_path (C : Collaborators) : string :=
  ("kijijiapi_dump_" ++ strftime C ++ ".txt")%string.

(** the element is not one [get_token] looks for *)
Definition not_named (name : string) (t : Tag) : Prop :=
  dict_get (attrs t) "name" <> Some name.

(** an inline script whose text the [window.__data] pattern does not match *)
Definition unmatched_script (t : Tag) : Prop :=
  exists txt, tag_string t = Some txt /\
              Re.search (Re.compile kj_data_pattern) txt = None.

Definition token_not_found (name : string) : string :=
  ("Element with name attribute '" ++ name ++ "' not found in html text.")%string.

Definition kj_data_not_found : string :=
  "'__data' JSON object not found in html text.".


(** what one try of an upload comes to: the answer parses as an object
    with a [thumbnailUrl], or the try fails on a parse error or a missing
    key; [None] stands for every other answer (an error status, JSON that
    is not an object) *)
Inductive attempt : Type :=
| Uploaded (img_url : value)
| Failed.

Definition attempt_of (C : Collaborators) (r : Response) : option attempt :=
  if ((400 <=? status_code r) && (status_code r <? 600))%nat then None
  else
    match json_loads C (text r) with
    | None => Some Failed
    | Some (VDict d) =>
        match dict_get d "thumbnailUrl" with
        | Some u => Some (Uploaded u)
        | None => Some Failed
        end
    | Some _ => None
    end.

Definition upload_request (token img_file : string) : Request :=
  mkRequest POST image_upload_url [] [] [("file", img_file)]
    [("X-Ebay-Box-Token", token)].

(** the first [n] tries for a file, made after the requests of [h], fail *)
Definition tries_fail (C : Collaborators) (req : Request) (h : list Request)
  (n : nat) : Prop :=
  forall j, j < n -> attempt_of C (server C (repeat req (S j) ++ h)) = Some Failed.

(** [uploads C token files h urls h']: starting after the requests [h],
    each file is tried at most three times; the first try that succeeds
    gives the file's URL and ends its tries, three failures give nothing;
    [urls] are the URLs in the order of the files and [h'] the requests
    made in the end. *)
Inductive uploads (C : Collaborators) (token : string)
  : list string -> list Request -> list value -> list Request -> Prop :=
| uploads_nil h : uploads C token [] h [] h
| uploads_success img rest h k u urls h' :
    k < 3 ->
    tries_fail C (upload_request token img) h k ->
    attempt_of C (server C (repeat (upload_request token img) (S k) ++ h))
      = Some (Uploaded u) ->
    uploads C token rest (repeat (upload_request token img) (S k) ++ h) urls h' ->
    uploads C token (img :: rest) h (u :: urls) h'
| uploads_dropped img rest h urls h' :
    tries_fail C (upload_request token img) h 3 ->
    uploads C token rest (repeat (upload_request token img) 3 ++ h) urls h' ->
    uploads C token (img :: rest) h urls h'.

Definition not_None (v : value) : bool := negb (is_None v).

Definition ads_request : Request := mkRequest GET ads_json_url [] [] [] [].

Definition ranks_request (ps : list (string * value)) : Request :=
  mkRequest GET ranks_url ps [] [] [].

(** the status is not one [raise_for_status] raises on *)
Definition ok_status (r : Response) : bool :=
  negb ((400 <=? status_code r) && (status_code r <? 600))%nat.

(** an ad record: a dictionary with an [id] *)
Definition has_id (ad : value) : Prop :=
  exists d i, ad = VDict d /\ dict_get d "id" = Some i.

Definition id_of (ad : value) : value :=
  match getitem ad "id" with
  | Ok i => i
  | Raise _ => VNone
  end.

(** the [ids] query of the ranks request: one parameter per ad *)
Definition ids_query (ads : dict value) : list (string * value) :=
  map (fun ad => ("ids", id_of ad)) (dict_values ads).

(** the record of an ad, with the rank the ranks endpoint gave for its key *)
Definition with_rank (ranks : dict value) (entry : string * value) : value :=
  match dict_get ranks (fst entry), snd entry with
  | Some r, VDict record => VDict (dict_set record "rank" r)
  | _, ad => ad
  end.

(** the [ads] form fields of the delete requests of a history, latest first *)
Fixpoint deleted (h : list Request) : list value :=
  match h with
  | [] => []
  | r :: h' =>
      match req_method r, String.eqb (url r) delete_ad_url, dict_get (data r) "ads" with
      | POST, true, Some v => v :: deleted h'
      | _, _, _ => deleted h'
      end
  end.

(** the ad's title and the given title are equal once both are stripped *)
Definition title_matches (title : string) (ad : value) : bool :=
  match getitem ad "title" with
  | Ok (VStr t) => String.eqb (strip t) (strip title)
  | _ => false
  end.

(** an ad record with a text for title, and an id *)
Definition titled (ad : value) : Prop :=
  exists d t i,
    ad = VDict d /\ dict_get d "title" = Some (VStr t) /\ dict_get d "id" = Some i.

(** the delete requests a call has to make: one per matching ad, in order *)
Definition deletions (title : string) (all_ads : list value) : list value :=
  map (fun ad => VStr (delete_ads_field (id_of ad)))
      (filter (title_matches title) all_ads).

Definition login_page_request : Request := mkRequest GET login_url [] [] [] [].

Definition login_post_request (username password token : string)
  (targetUrl : value) : Request :=
  mkRequest POST login_url [] (login_payload username password token targetUrl) [] [].

Definition probe_request : Request := mkRequest GET my_ads_probe_url [] [] [] [].

Definition form_request : Request := mkRequest GET post_ad_page_url [] [] [] [].

Definition submit_request (d : dict string) : Request :=
  mkRequest POST new_ad_url [] (form_data d) [] [].

(** the title [post_ad_using_data] measures *)
Definition title_of (d : dict string) : string :=
  match dict_get d "postAdForm.title" with
  | Some t => t
  | None => EmptyString
  end.

(** the exception is one of the two the check of the title raises *)
Definition is_title_error (e : exn) : bool :=
  match e with
  | KijijiApiException msg _ =>
      String.eqb msg title_too_short || String.eqb msg title_too_long
  | _ => false
  end.

Definition is_upload (r : Request) : Prop :=
  req_method r = POST /\ url r = image_upload_url.

(** what [post_ad_using_data] has written into [data] when it reaches the
    check of the title *)
Definition prepared (d : dict string) (images token fraud description : string)
  : dict string :=
  dict_set
    (dict_set
       (dict_set (dict_set d "images" images) "ca.kijiji.xsrf.token" token)
       "postAdForm.fraudToken" fraud)
    "postAdForm.description" (replace "\n" nl description).

(** [t] is [s] with its escaped newlines replaced: read from the left, every
    backslash followed by [n] has become one newline, and every other
    character is kept *)
Inductive unescaped : string -> string -> Prop :=
| unescaped_end : unescaped EmptyString EmptyString
| unescaped_pair (s t : string) :
    unescaped s t ->
    unescaped (String "\" (String "n" s)) (String newline t)
| unescaped_char (c : ascii) (s t : string) :
    prefix "\n" (String c s) = false ->
    unescaped s t ->
    unescaped (String c s) (String c t).

(** ** Further vocabulary *)

(** [KijijiApiException.__str__] *)
Definition KijijiApiException_str (msg dumpfilepath : string) : string :=
  if negb (String.eqb dumpfilepath EmptyString)
  then (msg ++ nl ++ "See " ++ dumpfilepath
        ++ " in current directory for latest dumpfile.")%string
  else msg.

(** the content of a file, the empty text for a file that does not exist *)
Definition file_content (fs : dict string) (path : string) : string :=
  match dict_get fs path with
  | Some content => content
  | None => EmptyString
  end.

Definition is_dict (v : value) : bool :=
  match v with VDict _ => true | _ => false end.

(** *** Further transports and pages *)

Definition unavailable : list Request -> Response :=
  Mock.scripted [mkResponse 503 "<html>Service unavailable</html>" []].

Definition answering (body : string) : list Request -> Response :=
  Mock.scripted [Mock.ok_response body].

(** the ads of the example site, with a rank for an ad that is not listed *)
Definition stale_ranks_site : list Request -> Response :=
  routed [ (ads_json_url, Mock.ok_response ads_body);
           (ranks_url,
            Mock.ok_response
              ("{" ++ q "ranks" ++ ": {" ++ q "11" ++ ": 1, " ++ q "99"
               ++ ": 4, " ++ q "12" ++ ": 2}}")%string) ].

(** an inline script whose text, newlines removed, the configuration
    pattern does not match *)
Definition unmatched_config (t : Tag) : Prop :=
  exists txt, tag_string t = Some txt /\
              Re.search (Re.compile xsrf_pattern) (replace nl EmptyString txt) = None.

Definition my_ads_request : Request := mkRequest GET my_ads_url [] [] [] [].

Definition delete_request (ad_id token : value) : Request :=
  mkRequest POST delete_ad_url [] (delete_params ad_id token) [] [].

(** the site of the examples, answering every delete with an error *)
Definition site_refusing_delete : list Request -> Response :=
  routed [ (ads_json_url, Mock.ok_response ads_body);
           (ranks_url, Mock.ok_response ranks_body);
           (my_ads_url, Mock.ok_response my_ads_page);
           (delete_ad_url, Mock.ok_response "{}") ].

(** a login page with the data of the page and no hidden token *)
Definition login_page_no_token : string :=
  ("<html><body><script>window.__data={" ++ q "config" ++ ":{"
   ++ q "targetUrl" ++ ":" ++ q "/my/ads" ++ "}};</script></body></html>")%string.

(** the keys [post_ad_using_data] assigns to *)
Definition written_key (k : string) : bool :=
  String.eqb k "images" || String.eqb k "ca.kijiji.xsrf.token"
  || String.eqb k "postAdForm.fraudToken" || String.eqb k "postAdForm.description".

(** a form page with no upload token *)
Definition form_page_no_upload_token : string :=
  ("<html><body><form>" ++ hidden_input "ca.kijiji.xsrf.token" "x-2"
   ++ hidden_input "postAdForm.fraudToken" "f-1" ++ "</form></body></html>")%string.

Definition ad_without_description : dict string :=
  [ ("postAdForm.title", "0123456789"); ("categoryId", "15") ].

Definition banned_answer : Response :=
  Mock.ok_response
    ("<html><body><p>" ++ banned_marker ++ "</p></body></html>")%string.

Definition rejected_answer : Response :=
  Mock.ok_response "<html><body><p>Please correct the errors.</p></body></html>".

Definition error_answer : Response :=
  mkResponse 500 "<html><body><h1>Delete Ad?</h1></body></html>"
    [("Set-Cookie", "kjrva=1234567")].

(** the example site with an upload endpoint that gives a number for URL *)
Definition site_numeric_url : list Request -> Response :=
  routed [ (post_ad_page_url, Mock.ok_response form_page);
           (image_upload_url,
            Mock.ok_response ("{" ++ q "thumbnailUrl" ++ ": 5}")%string) ].

(** the pattern that matches the characters of [s] one by one *)
Definition literal (s : string) : Re.regex :=
  map (fun c => Re.One (Ascii.eqb c)) (list_ascii_of_string s).

(** the text [s] with the one character [c] in front *)
Definition one_char (c : ascii) : string := String c EmptyString.

(** a backslash followed by the letter n *)
Definition escaped_newline : string := "\n".

(** * Properties *)

(** ** The monad *)

Lemma bind_Ok {S A B} (m : M S A) (k : A -> M S B) s a s' :
  m s = (Ok a, s') -> bind m k s = k a s'.
Proof. intros H. unfold bind. now rewrite H. Qed.

Lemma bind_Raise {S A B} (m : M S A) (k : A -> M S B) s e s' :
  m s = (Raise e, s') -> bind m k s = (Raise e, s').
Proof. intros H. unfold bind. now rewrite H. Qed.

Lemma bind_assoc {S A B D} (m : M S A) (f : A -> M S B) (g : B -> M S D) s :
  bind (bind m f) g s = bind m (fun x => bind (f x) g) s.
Proof. unfold bind. destruct (m s) as [[a|e] s']; reflexivity. Qed.

(** one step of a run: the first computation of a sequence returns *)
Tactic Notation "run_with" tactic3(tac) := erewrite bind_Ok; [|tac].

Lemma lift_run {D A} (m : M World A) (d : D) w :
  lift m (d, w) = (fst (m w), (d, snd (m w))).
Proof. unfold lift. simpl. now destruct (m w). Qed.

(** ** Scraping *)

Lemma name_is_none name soup :
  Forall (not_named name) soup -> filter (name_is name) soup = [].
Proof.
  intros H. induction H as [|u soup Hu _ IH]; simpl; [reflexivity|].
  unfold not_named in Hu. unfold name_is at 1.
  destruct (dict_get (attrs u) "name") as [v|]; [|exact IH].
  destruct (String.eqb_spec v name) as [->|_]; [now elim Hu | exact IH].
Qed.

Lemma select_name_skips (C : Collaborators) name pre t post :
  plain_name name = true ->
  Forall (not_named name) pre ->
  dict_get (attrs t) "name" = Some name ->
  select_name C (pre ++ t :: post) name = Ok (t :: filter (name_is name) post).
Proof.
  intros Hplain Hpre Ht. unfold select_name. rewrite Hplain, filter_app.
  rewrite (name_is_none _ _ Hpre). simpl. unfold name_is at 1.
  now rewrite Ht, String.eqb_refl.
Qed.

Lemma select_name_none (C : Collaborators) name soup :
  plain_name name = true ->
  Forall (not_named name) soup -> select_name C soup name = Ok [].
Proof.
  intros Hplain H. unfold select_name.
  now rewrite Hplain, (name_is_none _ _ H).
Qed.

(** for any other name the outcome of the selection is the library's: an
    error of the selector leaves [get_token] as it is, and nothing is
    dumped *)
Lemma get_token_selector_error (C : Collaborators) html name w e :
  plain_name name = false ->
  select C (BeautifulSoup C html) (name_selector name) = Raise e ->
  get_token C html name w = (Raise e, w).
Proof.
  intros Hplain Hsel. unfold get_token, select_name, bind, of_result.
  now rewrite Hplain, Hsel.
Qed.

(** C5 (amended).  For a plain name, one that the selector [[name=...]]
    reads as the value of the attribute, [get_token] returns the [value]
    attribute of the first element whose [name] attribute is the given
    name, when that element has one.  When no element has that name it
    raises the exception [KijijiApiException] with the not-found message; a
    non-empty page is appended to the timestamped dump file, whose path the
    exception carries, and an empty page leaves no dump and an empty path. *)
Theorem get_token_first_named (C : Collaborators) (html name : string) (w : World) :
  plain_name name = true ->
  (forall pre t post Y,
      BeautifulSoup C html = pre ++ t :: post ->
      Forall (not_named name) pre ->
      dict_get (attrs t) "name" = Some name ->
      dict_get (attrs t) "value" = Some Y ->
      get_token C html name w = (Ok Y, w))
  /\ (Forall (not_named name) (BeautifulSoup C html) ->
      html <> EmptyString ->
      get_token C html name w =
        (Raise (KijijiApiException (token_not_found name) (dump_path C)),
         mkWorld (sent w) (append_file (dumps w) (dump_path C) html) (stdout w)))
  /\ (Forall (not_named name) (BeautifulSoup C html) ->
      html = EmptyString ->
      get_token C html name w =
        (Raise (KijijiApiException (token_not_found name) EmptyString), w)).
Proof.
  intros Hplain. refine (conj _ (conj _ _)).
  - intros pre t post Y Hsoup Hpre Hname Hvalue.
    unfold get_token.
    rewrite Hsoup, (select_name_skips C _ _ _ _ Hplain Hpre Hname).
    unfold bind, of_result. now rewrite Hvalue.
  - intros Hnone Hhtml. unfold get_token.
    rewrite (select_name_none C _ _ Hplain Hnone).
    unfold raise_KijijiApiException, bind, of_result, KijijiApiException_init.
    destruct (String.eqb_spec html EmptyString) as [E|_]; [now elim Hhtml|].
    reflexivity.
  - intros Hnone ->. unfold get_token.
    rewrite (select_name_none C _ _ Hplain Hnone).
    reflexivity.
Qed.

(** ** The [window.__data] pattern on one line *)

Lemma star_greedy_over {R} (p : ascii -> bool) (k : string -> option R) J S r :
  all_chars p J = true ->
  Re.star_greedy p k S = Some r ->
  Re.star_greedy p k (J ++ S)%string = Some r.
Proof.
  induction J as [|c J IH]; simpl; intros HJ HS; [exact HS|].
  apply andb_prop in HJ as [Hc HJ]. rewrite Hc, (IH HJ HS). reflexivity.
Qed.

Lemma star_greedy_fails {R} (k : string -> option R) T E :
  (forall s, k s <> None -> exists s', s = String ";" s') ->
  all_chars not_semicolon T = true ->
  line_end E = true ->
  Re.star_greedy Re.dot k (T ++ E)%string = None.
Proof.
  intros Hk HT HE.
  assert (Hfail : forall c s, Ascii.eqb c ";" = false -> k (String c s) = None).
  { intros c s Hc. destruct (k (String c s)) eqn:Ek; [|reflexivity].
    destruct (Hk (String c s)) as [s' Hs']; [congruence|].
    injection Hs' as -> _. discriminate Hc. }
  induction T as [|c T IH]; simpl.
  - destruct E as [|e E]; simpl in *.
    + destruct (k EmptyString) eqn:Ek; [|reflexivity].
      destruct (Hk EmptyString) as [s' Hs']; [congruence | discriminate].
    + apply Ascii.eqb_eq in HE. subst e. unfold Re.dot at 1.
      rewrite Ascii.eqb_refl. simpl. now apply Hfail.
  - simpl in HT. apply andb_prop in HT as [Hc HT].
    unfold not_semicolon in Hc. apply andb_prop in Hc as [Hdot Hsemi].
    rewrite Hdot, (IH HT). apply Hfail.
    now destruct (Ascii.eqb c ";").
Qed.

Lemma length_append (J S : string) :
  String.length (J ++ S) = String.length J + String.length S.
Proof. induction J as [|c J IH]; simpl; [reflexivity | now rewrite IH]. Qed.

Lemma take_app_length (J S : string) :
  Re.take (String.length (J ++ S) - String.length S) (J ++ S) = J.
Proof.
  rewrite length_append.
  replace (String.length J + String.length S - String.length S)
    with (String.length J) by lia.
  induction J as [|c J IH]; simpl; [now destruct S | now rewrite IH].
Qed.

Lemma search_here r s g :
  Re.match_here r s (Re.mkGroups EmptyString EmptyString) = Some g ->
  Re.search r s = Some (Re.group1 g).
Proof. intros H. destruct s; simpl; now rewrite H. Qed.

(** A line that starts with [window.__data=], holds a text [J], a semicolon
    and then no other semicolon gives [J] as group 1. *)
Lemma kj_data_pattern_line J T E :
  all_chars Re.dot J = true ->
  all_chars not_semicolon T = true ->
  line_end E = true ->
  Re.search (Re.compile kj_data_pattern)
    ("window.__data=" ++ J ++ ";" ++ T ++ E)%string = Some J.
Proof.
  intros HJ HT HE.
  set (S := (";" ++ T ++ E)%string).
  set (k := fun s' : string =>
              Re.match_here [Re.GroupClose; Re.One (Ascii.eqb ";")] s'
                (Re.mkGroups (J ++ S)%string EmptyString)).
  assert (HS : Re.star_greedy Re.dot k S
               = Some (Re.mkGroups (J ++ S)%string S)).
  { unfold S at 1. simpl.
    rewrite star_greedy_fails; [reflexivity| |exact HT|exact HE].
    intros s Hs. unfold k in Hs.
    destruct s as [|c s]; cbn [Re.match_here] in Hs; [congruence|].
    destruct (Ascii.eqb_spec ";" c) as [<-|_]; [eauto | congruence]. }
  pose proof (star_greedy_over Re.dot k J S _ HJ HS) as Hstar.
  change (Re.search (Re.compile kj_data_pattern)
            ("window.__data=" ++ (J ++ S))%string = Some J).
  rewrite search_here with (g := Re.mkGroups (J ++ S)%string S).
  - unfold Re.group1. cbn [Re.g_open Re.g_close]. now rewrite take_app_length.
  - cbn [append]. cbn -[Re.star_greedy append]. fold k. exact Hstar.
Qed.

(** ** The [kjrva] pattern *)

Lemma match_here_literal c r s g g' :
  Re.match_here (Re.One (Ascii.eqb c) :: r) s g = Some g' ->
  exists s', s = String c s' /\ Re.match_here r s' g = Some g'.
Proof.
  destruct s as [|c' s']; simpl; [discriminate|].
  destruct (Ascii.eqb_spec c c') as [<-|_]; [eauto | discriminate].
Qed.

Lemma star_greedy_run {R} (p : ascii -> bool) (f : string -> R) s :
  exists D rest,
    s = (D ++ rest)%string /\ all_chars p D = true /\
    Re.star_greedy p (fun s' => Some (f s')) s = Some (f rest).
Proof.
  induction s as [|c s (D & rest & -> & HD & Hrun)].
  - exists EmptyString, EmptyString. repeat split.
  - simpl. destruct (p c) eqn:Hc.
    + exists (String c D), rest. rewrite Hrun. simpl. rewrite Hc, HD.
      repeat split.
    + exists EmptyString, (String c (D ++ rest)%string). repeat split.
Qed.

Lemma prefix_append (a b : string) : prefix a (a ++ b) = true.
Proof.
  induction a as [|c a IH]; simpl; [now destruct b|].
  destruct (ascii_dec c c); [exact IH | contradiction].
Qed.

Lemma append_assoc (a b c : string) : ((a ++ b) ++ c = a ++ (b ++ c))%string.
Proof. induction a as [|x a IH]; simpl; [reflexivity | now rewrite IH]. Qed.

(** What [ad_id_pattern] gives is a non-empty run of digits that follows
    [kjrva=] in the text searched. *)
Lemma ad_id_pattern_digits (cookie ad_id : string) :
  Re.search (Re.compile ad_id_pattern) cookie = Some ad_id ->
  ad_id <> EmptyString /\
  all_chars isdigit ad_id = true /\
  contains ("kjrva=" ++ ad_id) cookie = true.
Proof.
  induction cookie as [|c cookie IH].
  - simpl. discriminate.
  - intros H.
    assert (Hhere :
      forall s g,
        Re.match_here (Re.compile ad_id_pattern) s
          (Re.mkGroups EmptyString EmptyString) = Some g ->
        Re.group1 g <> EmptyString /\
        all_chars isdigit (Re.group1 g) = true /\
        prefix ("kjrva=" ++ Re.group1 g) s = true).
    { clear. intros s g Hm.
      change (Re.compile ad_id_pattern)
        with [Re.One (Ascii.eqb "k"); Re.One (Ascii.eqb "j");
              Re.One (Ascii.eqb "r"); Re.One (Ascii.eqb "v");
              Re.One (Ascii.eqb "a"); Re.One (Ascii.eqb "=");
              Re.GroupOpen; Re.Plus true isdigit; Re.GroupClose] in Hm.
      apply match_here_literal in Hm as (s1 & -> & Hm).
      apply match_here_literal in Hm as (s2 & -> & Hm).
      apply match_here_literal in Hm as (s3 & -> & Hm).
      apply match_here_literal in Hm as (s4 & -> & Hm).
      apply match_here_literal in Hm as (s5 & -> & Hm).
      apply match_here_literal in Hm as (s6 & -> & Hm).
      cbn [Re.match_here Re.g_close] in Hm.
      destruct s6 as [|d s7]; [discriminate|].
      destruct (isdigit d) eqn:Hd; [|discriminate].
      destruct (star_greedy_run isdigit
                  (fun s' => Re.mkGroups (String d s7) s') s7)
        as (D & rest & -> & HD & Hrun).
      cbn [Re.g_open] in Hm.
      rewrite Hrun in Hm. injection Hm as <-.
      unfold Re.group1. cbn [Re.g_open Re.g_close].
      change (String d (D ++ rest)) with ((String d D) ++ rest)%string.
      rewrite take_app_length.
      repeat split.
      - discriminate.
      - simpl. now rewrite Hd, HD.
      - change (String "k" (String "j" (String "r" (String "v"
                 (String "a" (String "=" (String d D ++ rest)))))))
          with (("kjrva=" ++ String d D) ++ rest)%string.
        apply prefix_append. }
    cbn [Re.search] in H.
    destruct (Re.match_here (Re.compile ad_id_pattern) (String c cookie)
                (Re.mkGroups EmptyString EmptyString)) as [g|] eqn:Hm.
    + injection H as <-. destruct (Hhere _ _ Hm) as (H1 & H2 & H3).
      repeat split; [exact H1 | exact H2|].
      cbn [contains]. rewrite H3. reflexivity.
    + destruct (IH H) as (H1 & H2 & H3).
      repeat split; [exact H1 | exact H2|].
      cbn [contains]. rewrite H3. apply orb_true_r.
Qed.

Lemma get_kj_data_loop_first (C : Collaborators) html pre s post txt g v w :
  Forall unmatched_script pre ->
  tag_string s = Some txt ->
  Re.search (Re.compile kj_data_pattern) txt = Some g ->
  json_loads C g = Some v ->
  get_kj_data_loop C html (pre ++ s :: post) w = (Ok v, w).
Proof.
  intros Hpre Hs Hg Hv.
  induction Hpre as [|u pre [t [Hu Hno]] _ IH]; simpl.
  - now rewrite Hs, Hg, Hv.
  - now rewrite Hu, Hno.
Qed.

Lemma get_kj_data_loop_none (C : Collaborators) html scripts w :
  Forall unmatched_script scripts ->
  get_kj_data_loop C html scripts w =
  raise_KijijiApiException C kj_data_not_found (Some html) w.
Proof.
  intros H. induction H as [|u scripts [t [Hu Hno]] _ IH]; simpl.
  - reflexivity.
  - now rewrite Hu, Hno.
Qed.

Lemma raise_KijijiApiException_run (C : Collaborators) {A} msg dump w :
  exists path files,
    @raise_KijijiApiException C A msg dump w =
    (Raise (KijijiApiException msg path), mkWorld (sent w) files (stdout w)).
Proof.
  unfold raise_KijijiApiException, bind, KijijiApiException_init, raise.
  destruct w as [h fs out]; simpl.
  destruct dump as [d|]; [destruct (negb (String.eqb d EmptyString))|];
    do 2 eexists; reflexivity.
Qed.

(** C6 (amended).  On a page whose inline scripts (the [script] elements
    with no [src] attribute) have a text, [get_kj_data] reads them in
    document order; at the first one whose text [kj_data_pattern] matches
    it returns what [json.loads] makes of the captured text, which runs to
    the last semicolon of the line.  So it returns the object with [a] set
    to 1 when that script's line is [window.__data=] followed by the JSON
    of the object, one semicolon and no other semicolon.  When the pattern
    matches no inline script it raises [KijijiApiException] with the
    not-found message and sends no request. *)
Theorem get_kj_data_first_match (C : Collaborators) (html : string) (w : World) :
  (forall pre s post txt g v,
      find_inline_scripts (BeautifulSoup C html) = pre ++ s :: post ->
      Forall unmatched_script pre ->
      tag_string s = Some txt ->
      Re.search (Re.compile kj_data_pattern) txt = Some g ->
      json_loads C g = Some v ->
      get_kj_data C html w = (Ok v, w))
  /\ (forall pre s post T E,
      find_inline_scripts (BeautifulSoup C html) = pre ++ s :: post ->
      Forall unmatched_script pre ->
      tag_string s = Some ("window.__data=" ++ a1_json ++ ";" ++ T ++ E)%string ->
      all_chars not_semicolon T = true ->
      line_end E = true ->
      json_loads C a1_json = Some a1 ->
      get_kj_data C html w = (Ok a1, w))
  /\ (Forall unmatched_script (find_inline_scripts (BeautifulSoup C html)) ->
      exists path files,
        get_kj_data C html w =
        (Raise (KijijiApiException kj_data_not_found path),
         mkWorld (sent w) files (stdout w))).
Proof.
  split; [|split].
  - intros pre s post txt g v Hscripts Hpre Hs Hg Hv.
    unfold get_kj_data. rewrite Hscripts.
    now apply get_kj_data_loop_first with (txt := txt) (g := g).
  - intros pre s post T E Hscripts Hpre Hs HT HE Hv.
    unfold get_kj_data. rewrite Hscripts.
    apply get_kj_data_loop_first
      with (txt := ("window.__data=" ++ a1_json ++ ";" ++ T ++ E)%string)
           (g := a1_json); try assumption.
    now apply kj_data_pattern_line.
  - intros Hnone. unfold get_kj_data.
    rewrite (get_kj_data_loop_none _ _ _ _ Hnone).
    apply raise_KijijiApiException_run.
Qed.

(** ** upload_image *)

Lemma repeat_shift {A} (x : A) n l : repeat x n ++ x :: l = repeat x (S n) ++ l.
Proof. induction n as [|n IH]; simpl; [reflexivity | now rewrite IH]. Qed.

Lemma upload_try_failed (C : Collaborators) token img i tries acc w :
  attempt_of C (server C (upload_request token img :: sent w)) = Some Failed ->
  exists out,
    upload_tries C token img (i :: tries) acc w =
    upload_tries C token img tries acc
      (mkWorld (upload_request token img :: sent w) (dumps w) out).
Proof.
  unfold attempt_of. intros H. cbn [upload_tries].
  unfold session_post, send, bind at 1. cbn [sent dumps stdout].
  fold (upload_request token img).
  set (r := server C (upload_request token img :: sent w)) in *.
  unfold raise_for_status, bind at 1.
  destruct ((400 <=? status_code r) && (status_code r <? 600))%nat;
    [discriminate|].
  unfold ret at 1.
  destruct (json_loads C (text r)) as [tree|].
  - destruct tree as [| | | | |d]; try discriminate.
    cbn [getitem]. destruct (dict_get d "thumbnailUrl"); [discriminate|].
    unfold print, bind. eexists. reflexivity.
  - unfold print, bind. eexists. reflexivity.
Qed.

Lemma upload_try_success (C : Collaborators) token img i tries acc w u :
  attempt_of C (server C (upload_request token img :: sent w)) = Some (Uploaded u) ->
  exists out,
    upload_tries C token img (i :: tries) acc w =
    (Ok (acc ++ [u]),
     mkWorld (upload_request token img :: sent w) (dumps w) out).
Proof.
  unfold attempt_of. intros H. cbn [upload_tries].
  unfold session_post, send, bind at 1. cbn [sent dumps stdout].
  fold (upload_request token img).
  set (r := server C (upload_request token img :: sent w)) in *.
  unfold raise_for_status, bind at 1.
  destruct ((400 <=? status_code r) && (status_code r <? 600))%nat;
    [discriminate|].
  unfold ret at 1.
  destruct (json_loads C (text r)) as [tree|]; [|discriminate].
  destruct tree as [| | | | |d]; try discriminate.
  cbn [getitem]. destruct (dict_get d "thumbnailUrl"); [|discriminate].
  injection H as ->. unfold print, bind, ret. eexists. reflexivity.
Qed.

(** the tries for one file: a success after [k] failures, or failures only *)
Lemma upload_tries_spec (C : Collaborators) token img :
  (forall h, attempt_of C (server C (upload_request token img :: h)) <> None) ->
  forall tries acc w,
    let req := upload_request token img in
    (exists k u out,
        k < List.length tries /\
        tries_fail C req (sent w) k /\
        attempt_of C (server C (repeat req (S k) ++ sent w)) = Some (Uploaded u) /\
        upload_tries C token img tries acc w =
        (Ok (acc ++ [u]), mkWorld (repeat req (S k) ++ sent w) (dumps w) out))
    \/ (exists out,
        tries_fail C req (sent w) (List.length tries) /\
        upload_tries C token img tries acc w =
        (Ok acc, mkWorld (repeat req (List.length tries) ++ sent w) (dumps w) out)).
Proof.
  intros Hserver tries. induction tries as [|i tries IH]; intros acc w req.
  - right. exists (stdout w). split; [intros j Hj; inversion Hj|].
    simpl. now destruct w.
  - destruct (attempt_of C (server C (req :: sent w))) as [[u|]|] eqn:E;
      [| |now elim (Hserver (sent w))].
    + left. destruct (upload_try_success C token img i tries acc w u E) as [out Hrun].
      exists 0, u, out. repeat split; [simpl; lia | intros j Hj; inversion Hj | exact E | exact Hrun].
    + destruct (upload_try_failed C token img i tries acc w E) as [out Hrun].
      destruct (IH acc (mkWorld (req :: sent w) (dumps w) out)) as [(k & u & out' & Hk & Hfail & Hok & Hrun')
                              |(out' & Hfail & Hrun')].
      * left. exists (S k), u, out'. cbn [sent dumps] in *.
        rewrite repeat_shift in Hok, Hrun'.
        repeat split; [simpl; lia | | exact Hok | now rewrite Hrun].
        intros [|j] Hj; [exact E|].
        rewrite <- repeat_shift. apply Hfail. lia.
      * right. exists out'. cbn [sent dumps] in *.
        rewrite repeat_shift in Hrun'.
        split; [|now rewrite Hrun].
        intros [|j] Hj; [exact E|].
        rewrite <- repeat_shift. apply Hfail. simpl in Hj. lia.
Qed.

Lemma upload_files_spec (C : Collaborators) token :
  (forall img h, attempt_of C (server C (upload_request token img :: h)) <> None) ->
  forall image_files acc w,
  exists urls h' out,
    uploads C token image_files (sent w) urls h' /\
    upload_files C token image_files acc w =
      (Ok (acc ++ urls), mkWorld h' (dumps w) out) /\
    List.length h' <= List.length (sent w) + 3 * List.length image_files.
Proof.
  intros Hserver image_files.
  induction image_files as [|img rest IH]; intros acc w.
  - exists [], (sent w), (stdout w). rewrite app_nil_r. simpl.
    repeat split; [constructor | now destruct w | lia].
  - cbn [upload_files].
    destruct (upload_tries_spec C token img (Hserver img) (seq 0 3) acc w)
      as [(k & u & out & Hk & Hfail & Hok & Hrun)|(out & Hfail & Hrun)].
    + rewrite (bind_Ok _ _ _ _ _ Hrun).
      destruct (IH (acc ++ [u])
                  (mkWorld (repeat (upload_request token img) (S k) ++ sent w)
                     (dumps w) out))
        as (urls & h' & out' & Hup & Hrun' & Hlen).
      cbn [sent dumps] in *.
      exists (u :: urls), h', out'. repeat split.
      * apply uploads_success with (k := k); assumption.
      * rewrite Hrun', <- app_assoc. reflexivity.
      * rewrite length_app, repeat_length in Hlen.
        simpl in Hk. simpl List.length. lia.
    + rewrite (bind_Ok _ _ _ _ _ Hrun).
      destruct (IH acc
                  (mkWorld (repeat (upload_request token img) 3 ++ sent w)
                     (dumps w) out))
        as (urls & h' & out' & Hup & Hrun' & Hlen).
      cbn [sent dumps] in *.
      exists urls, h', out'. repeat split.
      * apply uploads_dropped; assumption.
      * exact Hrun'.
      * rewrite length_app, repeat_length in Hlen.
        simpl List.length. lia.
Qed.

(** C1.  On a transport whose answers to an upload either parse as an
    object with a [thumbnailUrl] or fail on a parse error or a missing key,
    and for every list of files, [upload_image] tries each file at most
    three times: a try whose answer parses and has a [thumbnailUrl] adds the
    URL and ends the tries for that file, and a file whose three tries fail
    on a parse error or a missing key adds nothing.  The call returns the
    collected URLs without any [None], writes no dump, and makes at most
    three requests per file. *)
Theorem upload_image_three_tries (C : Collaborators) (token : string)
  (image_files : list string) (w : World) :
  (forall img h, attempt_of C (server C (upload_request token img :: h)) <> None) ->
  exists urls h' out,
    uploads C token image_files (sent w) urls h' /\
    upload_image C token image_files w =
      (Ok (filter not_None urls), mkWorld h' (dumps w) out) /\
    Forall (fun u => u <> VNone) (filter not_None urls) /\
    List.length h' <= List.length (sent w) + 3 * List.length image_files.
Proof.
  intros Hserver.
  destruct (upload_files_spec C token Hserver image_files [] w)
    as (urls & h' & out & Hup & Hrun & Hlen).
  exists urls, h', out. repeat split; try assumption.
  - unfold upload_image. rewrite (bind_Ok _ _ _ _ _ Hrun). reflexivity.
  - apply Forall_forall. intros u Hu. apply filter_In in Hu as [_ Hu].
    intros ->. discriminate Hu.
Qed.

(** ** Dictionaries *)

Lemma dict_get_In_key {V} (d : dict V) k :
  In k (dict_keys d) -> exists v, dict_get d k = Some v.
Proof.
  induction d as [|[k' v'] d IH]; simpl; [intros []|].
  intros [->|H].
  - rewrite String.eqb_refl. eauto.
  - destruct (String.eqb k k'); eauto.
Qed.

Lemma dict_get_not_key {V} (d : dict V) k :
  ~ In k (dict_keys d) -> dict_get d k = None.
Proof.
  induction d as [|[k' v'] d IH]; simpl; [reflexivity|].
  intros H. destruct (String.eqb_spec k k') as [->|_].
  - elim H. now left.
  - apply IH. intros Hin. apply H. now right.
Qed.

Lemma dict_get_In_value {V} (d : dict V) k v :
  dict_get d k = Some v -> In v (dict_values d).
Proof.
  induction d as [|[k' v'] d IH]; simpl; [discriminate|].
  destruct (String.eqb k k'); [intros [= ->]; now left | right; auto].
Qed.

Lemma dict_set_keys {V} (d : dict V) k v :
  In k (dict_keys d) -> dict_keys (dict_set d k v) = dict_keys d.
Proof.
  induction d as [|[k' v'] d IH]; simpl; [intros []|].
  destruct (String.eqb_spec k k') as [->|Hne]; [reflexivity|].
  intros [E|H]; [now elim Hne|]. simpl. f_equal. now apply IH.
Qed.

Lemma dict_set_values {V} (P : V -> Prop) (d : dict V) k v :
  Forall P (dict_values d) -> P v -> Forall P (dict_values (dict_set d k v)).
Proof.
  intros Hd Hv. induction d as [|[k' v'] d IH]; simpl.
  - now constructor.
  - inversion Hd; subst.
    destruct (String.eqb k k'); simpl; constructor; auto.
Qed.

Lemma dict_get_set_same {V} (d : dict V) k v :
  dict_get (dict_set d k v) k = Some v.
Proof.
  induction d as [|[k' v'] d IH]; simpl.
  - now rewrite String.eqb_refl.
  - destruct (String.eqb k k') eqn:E; simpl; rewrite E; [reflexivity | exact IH].
Qed.

Lemma dict_get_set_other {V} (d : dict V) k k' v :
  k' <> k -> dict_get (dict_set d k v) k' = dict_get d k'.
Proof.
  intros Hne. induction d as [|[k0 v0] d IH]; simpl.
  - destruct (String.eqb_spec k' k); [contradiction | reflexivity].
  - destruct (String.eqb_spec k k0) as [->|_]; simpl.
    + destruct (String.eqb_spec k' k0); [contradiction | reflexivity].
    + now rewrite IH.
Qed.

(** ** get_all_ads *)

Lemma session_get_run (C : Collaborators) u ps w :
  session_get C u ps w =
  (Ok (server C (mkRequest GET u ps [] [] [] :: sent w)),
   mkWorld (mkRequest GET u ps [] [] [] :: sent w) (dumps w) (stdout w)).
Proof. reflexivity. Qed.

Lemma session_post_run (C : Collaborators) u d fs hs w :
  session_post C u d fs hs w =
  (Ok (server C (mkRequest POST u [] d fs hs :: sent w)),
   mkWorld (mkRequest POST u [] d fs hs :: sent w) (dumps w) (stdout w)).
Proof. reflexivity. Qed.

Lemma ids_params_spec (ads : list value) :
  Forall has_id ads ->
  ids_params ads = Ok (map (fun ad => ("ids", id_of ad)) ads).
Proof.
  intros H. induction H as [|ad ads (d & i & -> & Hi) _ IH]; simpl.
  - reflexivity.
  - unfold id_of. simpl. now rewrite Hi, IH.
Qed.

Lemma with_rank_set ranks k r ads record :
  ~ In k (dict_keys ranks) ->
  NoDup (dict_keys ads) ->
  dict_get ads k = Some (VDict record) ->
  map (fun e => (fst e, with_rank ranks e))
      (dict_set ads k (VDict (dict_set record "rank" r)))
  = map (fun e => (fst e, with_rank ((k, r) :: ranks) e)) ads.
Proof.
  intros Hk. induction ads as [|[k1 v1] ads IH]; simpl; [discriminate|].
  intros Hnd Hget. inversion Hnd as [|? ? Hk1 Hnd']; subst.
  destruct (String.eqb_spec k k1) as [->|Hne].
  - injection Hget as ->. simpl. f_equal.
    + unfold with_rank. simpl.
      now rewrite (dict_get_not_key _ _ Hk), String.eqb_refl.
    + apply map_ext_in. intros [k2 v2] Hin. unfold with_rank. simpl.
      destruct (String.eqb_spec k2 k1) as [->|_]; [|reflexivity].
      elim Hk1. change k1 with (fst (k1, v2)). now apply in_map.
  - simpl. f_equal.
    + unfold with_rank. simpl.
      destruct (String.eqb_spec k1 k) as [E|_]; [now elim Hne | reflexivity].
    + now apply IH.
Qed.

Lemma add_ranks_spec (ranks ads : dict value) :
  NoDup (dict_keys ranks) ->
  NoDup (dict_keys ads) ->
  (forall k, In k (dict_keys ranks) -> In k (dict_keys ads)) ->
  Forall has_id (dict_values ads) ->
  add_ranks ranks (VDict ads) =
  Ok (VDict (map (fun e => (fst e, with_rank ranks e)) ads)).
Proof.
  revert ads. induction ranks as [|[k r] ranks IH]; intros ads Hr Ha Hsub Hid.
  - simpl. do 2 f_equal. unfold with_rank. simpl.
    induction ads as [|[k v] ads IHa]; simpl; [reflexivity|].
    inversion Ha; inversion Hid; subst.
    now rewrite <- IHa.
  - inversion Hr as [|? ? Hk Hr']; subst.
    destruct (dict_get_In_key ads k) as [ad Hget]; [apply Hsub; now left|].
    pose proof (dict_get_In_value _ _ _ Hget) as Hin.
    rewrite Forall_forall in Hid.
    destruct (Hid _ Hin) as (record & i & -> & Hi).
    cbn [add_ranks getitem setitem]. rewrite Hget. cbn [add_ranks setitem].
    assert (Hkin : In k (dict_keys ads)) by (apply Hsub; now left).
    rewrite IH.
    + now rewrite with_rank_set.
    + exact Hr'.
    + now rewrite dict_set_keys.
    + intros k' Hk'. rewrite dict_set_keys by exact Hkin.
      apply Hsub. now right.
    + apply dict_set_values; [now apply Forall_forall|].
      exists (dict_set record "rank" r).
      destruct (String.eqb_spec "id" "rank") as [E|_]; [discriminate E|].
      exists i. split; [reflexivity|].
      rewrite dict_get_set_other; [exact Hi | discriminate].
Qed.

Lemma raise_for_status_ok r w :
  ok_status r = true -> raise_for_status r w = (Ok tt, w).
Proof.
  unfold ok_status, raise_for_status. intros H.
  apply negb_true_iff in H. now rewrite H.
Qed.

(** C2.  When the ads answer holds an empty map, [get_all_ads] returns the
    empty list and its only request is the ads request.  When the map is
    not empty it makes one more request, to the ranks endpoint, with one
    [ids] parameter per ad; each rank of the answer is written under [rank]
    into the record stored under the same key, and the records are
    returned in the order of the map. *)
Theorem get_all_ads_ranks (C : Collaborators) (w : World)
  (ads_json : value) (ads : dict value) :
  ok_status (server C (ads_request :: sent w)) = true ->
  json_loads C (text (server C (ads_request :: sent w))) = Some ads_json ->
  getitem ads_json "ads" = Ok (VDict ads) ->
  (ads = [] ->
   get_all_ads C w =
     (Ok [], mkWorld (ads_request :: sent w) (dumps w) (stdout w)))
  /\ (forall ranks_json ranks,
         let history := ranks_request (ids_query ads) :: ads_request :: sent w in
         ads <> [] ->
         NoDup (dict_keys ads) ->
         Forall has_id (dict_values ads) ->
         ok_status (server C history) = true ->
         json_loads C (text (server C history)) = Some ranks_json ->
         getitem ranks_json "ranks" = Ok (VDict ranks) ->
         NoDup (dict_keys ranks) ->
         (forall k, In k (dict_keys ranks) -> In k (dict_keys ads)) ->
         get_all_ads C w =
           (Ok (map (with_rank ranks) ads),
            mkWorld history (dumps w) (stdout w))).
Proof.
  intros Hstatus Hjson Hads. split.
  - intros ->. unfold get_all_ads.
    run_with (apply session_get_run). fold ads_request.
    run_with (apply raise_for_status_ok; exact Hstatus).
    rewrite Hjson. run_with reflexivity.
    rewrite Hads. run_with reflexivity.
    reflexivity.
  - intros ranks_json ranks history Hne Hnd Hid Hstatus2 Hjson2 Hranks Hndr Hsub.
    unfold get_all_ads.
    run_with (apply session_get_run). fold ads_request.
    run_with (apply raise_for_status_ok; exact Hstatus).
    rewrite Hjson. run_with reflexivity.
    rewrite Hads. run_with reflexivity.
    assert (Htrue : truthy (VDict ads) = true) by (now destruct ads).
    rewrite Htrue. cbn [values_of].
    rewrite !bind_assoc. run_with reflexivity.
    rewrite (ids_params_spec _ Hid). fold (ids_query ads).
    rewrite !bind_assoc. run_with reflexivity.
    rewrite !bind_assoc. run_with (apply session_get_run).
    fold (ranks_request (ids_query ads)). cbn [sent dumps stdout]. fold history.
    rewrite !bind_assoc. run_with (apply raise_for_status_ok; exact Hstatus2).
    rewrite Hjson2. rewrite !bind_assoc. run_with reflexivity.
    rewrite Hranks. rewrite !bind_assoc. run_with reflexivity.
    cbn [items_of]. rewrite !bind_assoc. run_with reflexivity.
    rewrite (add_ranks_spec _ _ Hndr Hnd Hsub Hid).
    run_with reflexivity.
    unfold of_result. cbn [values_of]. unfold dict_values.
    rewrite map_map. reflexivity.
Qed.

(** ** delete_ad_using_title *)

Lemma get_xsrf_token_loop_sent (C : Collaborators) html scripts w :
  sent (snd (get_xsrf_token_loop C html scripts w)) = sent w.
Proof.
  induction scripts as [|s scripts IH]; simpl.
  - destruct (@raise_KijijiApiException_run C value
                "XSRF token not found in html text." (Some html) w)
      as (path & fs & ->). reflexivity.
  - destruct (tag_string s) as [txt|]; [|reflexivity].
    destruct (Re.search _ _); [|exact IH].
    destruct (yaml_load C _); reflexivity.
Qed.

Lemma delete_ad_deleted (C : Collaborators) ad_id w w' :
  delete_ad C ad_id w = (Ok tt, w') ->
  deleted (sent w') = VStr (delete_ads_field ad_id) :: deleted (sent w).
Proof.
  unfold delete_ad. run_with (apply session_get_run).
  set (w1 := mkWorld _ _ _).
  pose proof (get_xsrf_token_loop_sent C
                (text (server C (mkRequest GET my_ads_url [] [] [] [] :: sent w)))
                (find_inline_scripts
                   (BeautifulSoup C
                      (text (server C (mkRequest GET my_ads_url [] [] [] [] :: sent w)))))
                w1) as Hsent.
  fold (get_xsrf_token C
          (text (server C (mkRequest GET my_ads_url [] [] [] [] :: sent w))) w1)
    in Hsent.
  destruct (get_xsrf_token C _ w1) as [[token|e] w2] eqn:Etoken.
  - run_with (exact Etoken). run_with (apply session_post_run).
    cbn [snd] in Hsent. rewrite Hsent. subst w1. cbn [sent].
    destruct (negb (contains "OK" _)).
    + destruct (@raise_KijijiApiException_run C unit "Could not delete ad."
                  (Some (text (server C
                     (mkRequest POST delete_ad_url []
                        (delete_params ad_id token) [] []
                      :: mkRequest GET my_ads_url [] [] [] [] :: sent w))))
                  (mkWorld
                     (mkRequest POST delete_ad_url []
                        (delete_params ad_id token) [] []
                      :: mkRequest GET my_ads_url [] [] [] [] :: sent w)
                     (dumps w2) (stdout w2)))
        as (path & fs & Hraise).
      cbn [sent dumps stdout] in Hraise. rewrite Hraise. discriminate.
    + intros [= <-]. reflexivity.
  - rewrite (bind_Raise _ _ _ _ _ Etoken). discriminate.
Qed.

Lemma delete_matching_spec (C : Collaborators) title all_ads :
  Forall titled all_ads ->
  (forall ad w, In ad all_ads -> title_matches title ad = true ->
                exists w', delete_ad C (id_of ad) w = (Ok tt, w')) ->
  forall w,
  exists w',
    delete_matching C title all_ads w = (Ok tt, w') /\
    deleted (sent w') = rev (deletions title all_ads) ++ deleted (sent w).
Proof.
  intros Hads. induction Hads as [|ad all_ads (d & t & i & -> & Ht & Hi) _ IH];
    intros Hdel w.
  - exists w. split; reflexivity.
  - cbn [delete_matching getitem]. rewrite Ht.
    run_with reflexivity. cbn [strip_of]. run_with reflexivity.
    unfold deletions. cbn [filter]. unfold title_matches at 1.
    cbn [getitem]. rewrite Ht.
    destruct (String.eqb (strip t) (strip title)) eqn:Ematch.
    + destruct (Hdel (VDict d) w) as [w1 Hw1]; [now left| |].
      { unfold title_matches. cbn [getitem]. now rewrite Ht. }
      assert (Hid : id_of (VDict d) = i).
      { unfold id_of. cbn [getitem]. now rewrite Hi. }
      rewrite Hid in Hw1.
      rewrite Hi. rewrite bind_assoc. run_with reflexivity.
      run_with (exact Hw1).
      destruct (IH (fun ad w Hin => Hdel ad w (or_intror Hin)) w1)
        as (w2 & Hrun & Hsent).
      exists w2. split; [exact Hrun|].
      rewrite Hsent, (delete_ad_deleted _ _ _ _ Hw1).
      cbn [map rev]. rewrite Hid, <- app_assoc. reflexivity.
    + run_with reflexivity.
      destruct (IH (fun ad w Hin => Hdel ad w (or_intror Hin)) w)
        as (w2 & Hrun & Hsent).
      exists w2. split; assumption.
Qed.

(** C7.  [delete_ad_using_title] fetches all the ads and, as long as each
    delete succeeds, calls [delete_ad] on every ad whose stripped title
    equals the stripped title given, in the order of the list: the delete
    requests sent are those of all the matching ads, duplicates and titles
    that differ by surrounding whitespace included, and no others. *)
Theorem delete_ad_using_title_all_matches (C : Collaborators) (title : string)
  (w w1 : World) (all_ads : list value) :
  get_all_ads C w = (Ok all_ads, w1) ->
  Forall titled all_ads ->
  (forall ad w', In ad all_ads -> title_matches title ad = true ->
                 exists w'', delete_ad C (id_of ad) w' = (Ok tt, w'')) ->
  exists w2,
    delete_ad_using_title C title w = (Ok tt, w2) /\
    deleted (sent w2) = rev (deletions title all_ads) ++ deleted (sent w1).
Proof.
  intros Hget Hads Hdel. unfold delete_ad_using_title.
  run_with (exact Hget).
  now apply delete_matching_spec.
Qed.

(** ** post_ad_using_data *)

Lemma lift_Ok {D A} (m : M World A) (d : D) w a w' :
  m w = (Ok a, w') -> lift m (d, w) = (Ok a, (d, w')).
Proof. intros H. unfold lift. simpl. now rewrite H. Qed.

Lemma lift_Raise {D A} (m : M World A) (d : D) w e w' :
  m w = (Raise e, w') -> lift m (d, w) = (Raise e, (d, w')).
Proof. intros H. unfold lift. simpl. now rewrite H. Qed.

Lemma get_token_Ok (C : Collaborators) html name w v w' :
  get_token C html name w = (Ok v, w') -> w' = w.
Proof.
  unfold get_token, bind at 1, of_result.
  destruct (select_name _ _ _) as [[|t ts]|e0]; [| |discriminate].
  - destruct (@raise_KijijiApiException_run C string
                (token_not_found name) (Some html) w) as (p & fs & E).
    unfold token_not_found in E. rewrite E. discriminate.
  - destruct (dict_get (attrs t) "value"); [now intros [= _ <-] | discriminate].
Qed.

Lemma get_token_Raise (C : Collaborators) html name w e w' :
  get_token C html name w = (Raise e, w') ->
  plain_name name = true ->
  sent w' = sent w /\
  (e = KeyError "value" \/ exists p, e = KijijiApiException (token_not_found name) p).
Proof.
  intros Hrun Hplain. revert Hrun.
  unfold get_token, bind at 1, of_result, select_name.
  rewrite Hplain.
  destruct (filter _ _) as [|t ts].
  - destruct (@raise_KijijiApiException_run C string
                (token_not_found name) (Some html) w) as (p & fs & E).
    unfold token_not_found in E. rewrite E. intros [= <- <-]. eauto.
  - destruct (dict_get (attrs t) "value"); [discriminate|].
    intros [= <- <-]. auto.
Qed.

(** the requests of the tries are upload requests, and an exception that
    leaves them is not one of the module's own *)
Lemma upload_tries_sent (C : Collaborators) token img tries :
  forall acc w,
  exists ups,
    sent (snd (upload_tries C token img tries acc w)) = ups ++ sent w /\
    Forall is_upload ups /\
    List.length ups <= List.length tries /\
    forall e, fst (upload_tries C token img tries acc w) = Raise e ->
              is_title_error e = false.
Proof.
  induction tries as [|i tries IH]; intros acc w.
  - exists []. repeat split; [constructor | simpl; lia | discriminate].
  - cbn [upload_tries].
    run_with (apply session_post_run).
    fold (upload_request token img).
    set (w1 := mkWorld (upload_request token img :: sent w) (dumps w) (stdout w)).
    set (r := server C (upload_request token img :: sent w)).
    assert (Hup : is_upload (upload_request token img)) by (split; reflexivity).
    unfold raise_for_status.
    destruct ((400 <=? status_code r) && (status_code r <? 600))%nat.
    { exists [upload_request token img].
      repeat split; [now constructor | simpl; lia|]. now intros e [= <-]. }
    run_with reflexivity.
    assert (Hnext : forall out,
               exists ups,
                 sent (snd (upload_tries C token img tries acc
                              (mkWorld (sent w1) (dumps w1) out)))
                 = ups ++ sent w /\
                 Forall is_upload ups /\
                 List.length ups <= S (List.length tries) /\
                 forall e, fst (upload_tries C token img tries acc
                                  (mkWorld (sent w1) (dumps w1) out)) = Raise e ->
                           is_title_error e = false).
    { intros out.
      destruct (IH acc (mkWorld (sent w1) (dumps w1) out))
        as (ups & Hs & Hf & Hl & He).
      exists (ups ++ [upload_request token img]).
      rewrite Hs, <- app_assoc.
      repeat split; [apply Forall_app; split; [exact Hf | now constructor]
                    | rewrite length_app; simpl; lia | exact He]. }
    destruct (json_loads C (text r)) as [tree|].
    + destruct (getitem tree "thumbnailUrl") as [u|e] eqn:Eget.
      * exists [upload_request token img].
        repeat split; [now constructor | simpl; lia | discriminate].
      * destruct e; try (exists [upload_request token img];
          repeat split; [now constructor | simpl; lia | now intros e' [= <-]]).
        -- destruct tree; try discriminate. simpl in Eget.
           destruct (dict_get d "thumbnailUrl"); discriminate.
        -- run_with reflexivity. apply Hnext.
    + run_with reflexivity. apply Hnext.
Qed.

Lemma upload_files_sent (C : Collaborators) token image_files :
  forall acc w,
  exists ups,
    sent (snd (upload_files C token image_files acc w)) = ups ++ sent w /\
    Forall is_upload ups /\
    forall e, fst (upload_files C token image_files acc w) = Raise e ->
              is_title_error e = false.
Proof.
  induction image_files as [|img rest IH]; intros acc w.
  - exists []. repeat split; [constructor | discriminate].
  - cbn [upload_files].
    destruct (upload_tries_sent C token img (seq 0 3) acc w)
      as (ups & Hs & Hf & _ & He).
    destruct (upload_tries C token img (seq 0 3) acc w) as [[urls|e] w1] eqn:E.
    + rewrite (bind_Ok _ _ _ _ _ E).
      destruct (IH urls w1) as (ups' & Hs' & Hf' & He').
      exists (ups' ++ ups). cbn [snd] in Hs. rewrite Hs', Hs, app_assoc.
      repeat split; [apply Forall_app; now split | exact He'].
    + rewrite (bind_Raise _ _ _ _ _ E). exists ups.
      repeat split; [exact Hs | exact Hf|].
      intros e' [= <-]. now apply He.
Qed.

Lemma upload_image_sent (C : Collaborators) token image_files w :
  exists ups,
    sent (snd (upload_image C token image_files w)) = ups ++ sent w /\
    Forall is_upload ups /\
    forall e, fst (upload_image C token image_files w) = Raise e ->
              is_title_error e = false.
Proof.
  unfold upload_image.
  destruct (upload_files_sent C token image_files [] w) as (ups & Hs & Hf & He).
  exists ups.
  destruct (upload_files C token image_files [] w) as [[urls|e] w1] eqn:E.
  - rewrite (bind_Ok _ _ _ _ _ E). repeat split; [exact Hs | exact Hf | discriminate].
  - rewrite (bind_Raise _ _ _ _ _ E). repeat split; [exact Hs | exact Hf | exact He].
Qed.

(** What [post_ad_prepare] comes to: it ends with every step done and
    [data] written, or with an exception that is not one of the check of
    the title; its requests are the form request and then uploads. *)
Lemma post_ad_prepare_inv (C : Collaborators) image_files data w r d' w' :
  post_ad_prepare C image_files (data, w) = (r, (d', w')) ->
  let page := text (server C (form_request :: sent w)) in
  let w1 := mkWorld (form_request :: sent w) (dumps w) (stdout w) in
  (exists ups, sent w' = ups ++ form_request :: sent w /\ Forall is_upload ups)
  /\ match r with
     | Ok _ =>
         exists tok urls images token fraud description,
           Re.search (Re.compile upload_token_pattern) page = Some tok /\
           upload_image C tok image_files w1 = (Ok urls, w') /\
           join "," urls = Ok images /\
           get_token C page "ca.kijiji.xsrf.token" w' = (Ok token, w') /\
           get_token C page "postAdForm.fraudToken" w' = (Ok fraud, w') /\
           dict_get data "postAdForm.description" = Some description /\
           d' = prepared data images token fraud description
     | Raise e => is_title_error e = false
     end.
Proof.
  intros Hrun page w1. unfold post_ad_prepare in Hrun.
  erewrite bind_Ok in Hrun by (apply lift_Ok, session_get_run).
  fold form_request in Hrun. fold page in Hrun. fold w1 in Hrun.
  destruct (Re.search (Re.compile upload_token_pattern) page) as [tok|] eqn:Etok.
  2:{ destruct (@raise_KijijiApiException_run C string
                  "'initialXsrfToken' not found in html text." (Some page) w1)
        as (p & fs & E).
      erewrite bind_Raise in Hrun by (apply lift_Raise, E).
      injection Hrun as <- <- <-. split; [|reflexivity].
      exists []. split; [reflexivity | constructor]. }
  erewrite bind_Ok in Hrun by reflexivity.
  destruct (upload_image_sent C tok image_files w1) as (ups & Hs & Hf & He).
  destruct (upload_image C tok image_files w1) as [[urls|e] w2] eqn:Eup.
  2:{ erewrite bind_Raise in Hrun by (apply lift_Raise, Eup).
      injection Hrun as <- <- <-. split; [eauto | now apply He]. }
  cbn [snd] in Hs. change (sent w1) with (form_request :: sent w) in Hs.
  erewrite bind_Ok in Hrun by (apply lift_Ok, Eup).
  destruct (join "," urls) as [images|e] eqn:Ejoin.
  2:{ erewrite bind_Raise in Hrun by reflexivity.
      injection Hrun as <- <- <-. split; [eauto|].
      clear -Ejoin. revert e Ejoin.
      induction urls as [|u urls IH]; intros e; simpl; [discriminate|].
      destruct u; try (now intros [= <-]).
      destruct urls; [discriminate|].
      destruct (join "," (v :: urls)); [discriminate|].
      intros [= <-]. now apply IH. }
  erewrite bind_Ok in Hrun by reflexivity.
  erewrite bind_Ok in Hrun by reflexivity.
  cbn [fst snd] in Hrun.
  destruct (get_token C page "ca.kijiji.xsrf.token" w2) as [[token|e] w3] eqn:Et1.
  2:{ erewrite bind_Raise in Hrun by (apply lift_Raise, Et1).
      injection Hrun as <- <- <-.
      destruct (get_token_Raise _ _ _ _ _ _ Et1 eq_refl) as [Hs3 [->|[p ->]]];
        (split; [rewrite Hs3; eauto | reflexivity]). }
  pose proof (get_token_Ok _ _ _ _ _ _ Et1) as ->.
  erewrite bind_Ok in Hrun by (apply lift_Ok, Et1).
  erewrite bind_Ok in Hrun by reflexivity.
  cbn [fst snd] in Hrun.
  destruct (get_token C page "postAdForm.fraudToken" w2) as [[fraud|e] w3] eqn:Et2.
  2:{ erewrite bind_Raise in Hrun by (apply lift_Raise, Et2).
      injection Hrun as <- <- <-.
      destruct (get_token_Raise _ _ _ _ _ _ Et2 eq_refl) as [Hs3 [->|[p ->]]];
        (split; [rewrite Hs3; eauto | reflexivity]). }
  pose proof (get_token_Ok _ _ _ _ _ _ Et2) as ->.
  erewrite bind_Ok in Hrun by (apply lift_Ok, Et2).
  erewrite bind_Ok in Hrun by reflexivity.
  cbn [fst snd] in Hrun.
  unfold bind at 1, data_item at 1 in Hrun. cbn [fst snd] in Hrun.
  rewrite !dict_get_set_other in Hrun by discriminate.
  destruct (dict_get data "postAdForm.description") as [description|] eqn:Ed.
  2:{ injection Hrun as <- <- <-. split; [eauto | reflexivity]. }
  unfold data_set in Hrun. cbn [fst snd] in Hrun.
  injection Hrun as <- <- <-. split; [eauto|].
  exists tok, urls, images, token, fraud, description.
  repeat split; assumption || reflexivity.
Qed.

Lemma prepared_title d images token fraud description :
  title_of (prepared d images token fraud description) = title_of d.
Proof.
  unfold title_of, prepared.
  now rewrite !dict_get_set_other by discriminate.
Qed.

Lemma post_ad_prepare_title (C : Collaborators) image_files data w d' w' :
  post_ad_prepare C image_files (data, w) = (Ok tt, (d', w')) ->
  title_of d' = title_of data.
Proof.
  intros H. destruct (post_ad_prepare_inv _ _ _ _ _ _ _ H)
    as (_ & tok & urls & images & token & fraud & description & H').
  destruct H' as (_ & _ & _ & _ & _ & _ & ->). apply prepared_title.
Qed.

(** the check of the title, run on the dictionary [d] *)
Lemma post_ad_check_title_run (C : Collaborators) d w :
  post_ad_check_title C (d, w) =
  if (String.length (title_of d) <? 10)%nat
  then (Raise (KijijiApiException title_too_short EmptyString), (d, w))
  else if (64 <? String.length (title_of d))%nat
       then (Raise (KijijiApiException title_too_long EmptyString), (d, w))
       else (Ok tt, (d, w)).
Proof.
  unfold post_ad_check_title, title_of, bind, data_get. cbn [fst snd].
  assert (Hlt : forall n, negb (10 <=? n)%nat = (n <? 10)%nat).
  { intros n. destruct (Nat.leb_spec 10 n), (Nat.ltb_spec n 10); simpl; lia || reflexivity. }
  destruct (dict_get d "postAdForm.title") as [t|]; rewrite Hlt.
  - destruct (String.length t <? 10)%nat; [reflexivity|].
    destruct (64 <? String.length t)%nat; reflexivity.
  - reflexivity.
Qed.

Lemma post_ad_after_prepare (C : Collaborators) image_files data w d' w' :
  post_ad_prepare C image_files (data, w) = (Ok tt, (d', w')) ->
  post_ad_using_data C data image_files w =
  if (String.length (title_of data) <? 10)%nat
  then (Raise (KijijiApiException title_too_short EmptyString), (d', w'))
  else if (64 <? String.length (title_of data))%nat
       then (Raise (KijijiApiException title_too_long EmptyString), (d', w'))
       else post_ad_submit C (d', w').
Proof.
  intros H. unfold post_ad_using_data, post_ad_body.
  rewrite (bind_Ok _ _ _ _ _ H).
  rewrite <- (post_ad_prepare_title _ _ _ _ _ _ H).
  unfold bind at 1. rewrite post_ad_check_title_run.
  destruct (String.length (title_of d') <? 10)%nat; [reflexivity|].
  destruct (64 <? String.length (title_of d'))%nat; reflexivity.
Qed.

Lemma post_ad_submit_sent (C : Collaborators) d w :
  sent (snd (snd (post_ad_submit C (d, w)))) = submit_request d :: sent w /\
  fst (snd (post_ad_submit C (d, w))) = d /\
  forall e, fst (post_ad_submit C (d, w)) = Raise e -> is_title_error e = false.
Proof.
  unfold post_ad_submit.
  run_with reflexivity. cbn [fst].
  run_with (apply lift_Ok, session_post_run).
  fold (submit_request d).
  set (resp := server C (submit_request d :: sent w)).
  set (w1 := mkWorld _ _ _).
  unfold raise_for_status.
  destruct ((400 <=? status_code resp) && (status_code resp <? 600))%nat.
  { erewrite bind_Raise by reflexivity. repeat split. now intros e [= <-]. }
  run_with reflexivity.
  destruct (contains "Delete Ad?" (text resp)); cbn [negb].
  - run_with reflexivity.
    destruct (header (resp_headers resp) "Set-Cookie") as [cookie|e] eqn:Eh.
    + run_with reflexivity.
      destruct (Re.search _ cookie); repeat split; try discriminate.
      now intros e [= <-].
    + erewrite bind_Raise by reflexivity. repeat split.
      intros e' [= <-]. clear -Eh.
      induction (resp_headers resp) as [|[k v] hs IH]; simpl in Eh.
      * now injection Eh as <-.
      * destruct (String.eqb _ _); [discriminate | auto].
  - destruct (contains banned_marker (text resp)).
    + destruct (@raise_KijijiApiException_run C unit
                  "Could not post ad; this user is banned." (Some (text resp)) w1)
        as (p & fs & E).
      erewrite bind_Raise by (apply lift_Raise, E).
      repeat split. now intros e [= <-].
    + destruct (@raise_KijijiApiException_run C unit
                  "Could not post ad." (Some (text resp)) w1)
        as (p & fs & E).
      erewrite bind_Raise by (apply lift_Raise, E).
      repeat split. now intros e [= <-].
Qed.

Lemma prepared_lookup d images token fraud description :
  let d' := prepared d images token fraud description in
  dict_get d' "images" = Some images /\
  dict_get d' "ca.kijiji.xsrf.token" = Some token /\
  dict_get d' "postAdForm.fraudToken" = Some fraud /\
  dict_get d' "postAdForm.description" = Some (replace "\n" nl description).
Proof.
  unfold prepared. repeat split.
  - rewrite !dict_get_set_other by discriminate. apply dict_get_set_same.
  - rewrite !dict_get_set_other by discriminate. apply dict_get_set_same.
  - rewrite !dict_get_set_other by discriminate. apply dict_get_set_same.
  - apply dict_get_set_same.
Qed.

Lemma header_absent hs name :
  (forall k v, In (k, v) hs -> lower k <> lower name) ->
  header hs name = Raise (KeyError (lower name)).
Proof.
  induction hs as [|[k v] hs IH]; intros H; simpl; [reflexivity|].
  destruct (String.eqb_spec (lower k) (lower name)) as [E|_].
  - elim (H k v); [now left | exact E].
  - apply IH. intros k' v' Hin. apply (H k' v'). now right.
Qed.

Lemma post_ad_submit_success (C : Collaborators) d w :
  let resp := server C (submit_request d :: sent w) in
  ok_status resp = true ->
  contains "Delete Ad?" (text resp) = true ->
  post_ad_submit C (d, w) =
  (match header (resp_headers resp) "Set-Cookie" with
   | Ok cookie =>
       match Re.search (Re.compile ad_id_pattern) cookie with
       | Some ad_id => Ok ad_id
       | None => Raise AttributeError
       end
   | Raise e => Raise e
   end,
   (d, mkWorld (submit_request d :: sent w) (dumps w) (stdout w))).
Proof.
  intros resp Hstatus Hmarker. unfold post_ad_submit.
  run_with reflexivity. cbn [fst].
  run_with (apply lift_Ok, session_post_run).
  fold (submit_request d). fold resp.
  run_with (apply lift_Ok, raise_for_status_ok, Hstatus).
  rewrite Hmarker. cbn [negb]. run_with reflexivity.
  destruct (header (resp_headers resp) "Set-Cookie") as [cookie|e].
  - run_with reflexivity. now destruct (Re.search _ cookie).
  - reflexivity.
Qed.

(** C3.  Once the steps before it are done, the check of the title lets a
    title of 10 to 64 characters through (the next thing done is the
    submission of the ad) and raises [KijijiApiException] for a shorter
    title, with the too-short message, and for a longer one, with the
    too-long message; a dictionary with no title is checked as the empty
    title and is refused as too short.  So 10 and 64 characters pass and 9
    and 65 do not. *)
Theorem title_length_bounds (C : Collaborators) (data : dict string)
  (image_files : list string) (w : World) (d' : dict string) (w' : World) :
  post_ad_prepare C image_files (data, w) = (Ok tt, (d', w')) ->
  let n := String.length (title_of data) in
  (10 <= n <= 64 ->
     post_ad_using_data C data image_files w = post_ad_submit C (d', w') /\
     sent (snd (snd (post_ad_using_data C data image_files w)))
       = submit_request d' :: sent w' /\
     forall e, fst (post_ad_using_data C data image_files w) = Raise e ->
               is_title_error e = false)
  /\ (n < 10 ->
      post_ad_using_data C data image_files w =
        (Raise (KijijiApiException title_too_short EmptyString), (d', w')))
  /\ (64 < n ->
      post_ad_using_data C data image_files w =
        (Raise (KijijiApiException title_too_long EmptyString), (d', w')))
  /\ (dict_get data "postAdForm.title" = None ->
      post_ad_using_data C data image_files w =
        (Raise (KijijiApiException title_too_short EmptyString), (d', w'))).
Proof.
  intros Hprep n. pose proof (post_ad_after_prepare _ _ _ _ _ _ Hprep) as Hrun.
  fold n in Hrun. repeat split.
  - destruct (Nat.ltb_spec n 10); [lia|]. destruct (Nat.ltb_spec 64 n); [lia|].
    exact Hrun.
  - rewrite Hrun.
    destruct (Nat.ltb_spec n 10); [lia|]. destruct (Nat.ltb_spec 64 n); [lia|].
    apply post_ad_submit_sent.
  - rewrite Hrun.
    destruct (Nat.ltb_spec n 10); [lia|]. destruct (Nat.ltb_spec 64 n); [lia|].
    apply post_ad_submit_sent.
  - intros Hn. rewrite Hrun. destruct (Nat.ltb_spec n 10); [reflexivity | lia].
  - intros Hn. rewrite Hrun. destruct (Nat.ltb_spec n 10); [lia|].
    destruct (Nat.ltb_spec 64 n); [reflexivity | lia].
  - intros Hnone. rewrite Hrun. subst n. unfold title_of. rewrite Hnone.
    reflexivity.
Qed.

(** C4 (amended).  With a title shorter than 10 or longer than 64
    characters [post_ad_using_data] never returns an id and never sends
    the submission: the requests it makes are the request for the form page
    and then image uploads, all made before the check of the title; when
    the steps before the check succeed, the exception raised is the one of
    the check. *)
Theorem invalid_title_never_submitted (C : Collaborators) (data : dict string)
  (image_files : list string) (w : World) :
  let n := String.length (title_of data) in
  n < 10 \/ 64 < n ->
  let out := post_ad_using_data C data image_files w in
  (exists e, fst out = Raise e)
  /\ (exists ups,
         sent (snd (snd out)) = ups ++ form_request :: sent w /\
         Forall is_upload ups /\
         forall r, In r (ups ++ [form_request]) -> url r <> new_ad_url)
  /\ (forall d' w',
         post_ad_prepare C image_files (data, w) = (Ok tt, (d', w')) ->
         out = (Raise (KijijiApiException
                         (if (n <? 10)%nat then title_too_short else title_too_long)
                         EmptyString),
                (d', w'))).
Proof.
  intros n Hn out.
  assert (Hurl : forall ups r, Forall is_upload ups ->
                               In r (ups ++ [form_request]) -> url r <> new_ad_url).
  { intros ups r Hf Hin. apply in_app_or in Hin as [Hin|[<-|[]]].
    - rewrite Forall_forall in Hf. destruct (Hf _ Hin) as [_ ->]. discriminate.
    - discriminate. }
  assert (Hcheck : forall d' w',
             post_ad_prepare C image_files (data, w) = (Ok tt, (d', w')) ->
             out = (Raise (KijijiApiException
                             (if (n <? 10)%nat then title_too_short else title_too_long)
                             EmptyString),
                    (d', w'))).
  { intros d' w' Hprep. subst out.
    rewrite (post_ad_after_prepare _ _ _ _ _ _ Hprep). fold n.
    destruct (Nat.ltb_spec n 10); [reflexivity|].
    destruct (Nat.ltb_spec 64 n); [reflexivity | lia]. }
  destruct (post_ad_prepare C image_files (data, w)) as [[[]|e] [d' w']] eqn:Hprep.
  - destruct (post_ad_prepare_inv _ _ _ _ _ _ _ Hprep) as [(ups & Hs & Hf) _].
    rewrite (Hcheck d' w' eq_refl). cbn [fst snd].
    repeat split; [eauto | | now intros d2 w2 [= <- <-]].
    exists ups. repeat split; [exact Hs | exact Hf | intros r; now apply Hurl].
  - destruct (post_ad_prepare_inv _ _ _ _ _ _ _ Hprep) as [(ups & Hs & Hf) _].
    assert (Hout : out = (Raise e, (d', w'))).
    { subst out. unfold post_ad_using_data, post_ad_body.
      now rewrite (bind_Raise _ _ _ _ _ Hprep). }
    rewrite Hout. cbn [fst snd].
    repeat split; [eauto | | intros d2 w2 H; discriminate H].
    exists ups. repeat split; [exact Hs | exact Hf | intros r; now apply Hurl].
Qed.

(** ** The rewritten description *)

Lemma replace_step (c : ascii) (s : string) :
  replace_from escaped_newline nl 0 (String c s) =
  if prefix escaped_newline (String c s)
  then (nl ++ replace_from escaped_newline nl 1 s)%string
  else String c (replace_from escaped_newline nl 0 s).
Proof. reflexivity. Qed.

Lemma prefix_escaped (c : ascii) (s : string) :
  prefix escaped_newline (String c s) = true ->
  c = "\"%char /\ exists s', s = String "n" s'.
Proof.
  unfold escaped_newline. intros H. cbn [prefix] in H.
  destruct (ascii_dec "\" c) as [<-|]; [|discriminate].
  destruct s as [|d s']; cbn [prefix] in H; [discriminate|].
  destruct (ascii_dec "n" d) as [<-|]; [|discriminate].
  eauto.
Qed.

Lemma replace_head_n (s : string) t :
  replace_from escaped_newline nl 0 s = String "n" t ->
  exists s', s = String "n" s'.
Proof.
  destruct s as [|c s]; [discriminate|]. rewrite replace_step.
  destruct (prefix escaped_newline (String c s)) eqn:Hp.
  - discriminate.
  - intros [= -> _]. eauto.
Qed.

Lemma replace_no_escape_bounded (n : nat) :
  forall s, String.length s <= n ->
            contains escaped_newline (replace_from escaped_newline nl 0 s) = false.
Proof.
  induction n as [|n IH]; intros s Hlen.
  - destruct s; [reflexivity | simpl in Hlen; lia].
  - destruct s as [|c s]; [reflexivity|]. simpl in Hlen. rewrite replace_step.
    destruct (prefix escaped_newline (String c s)) eqn:Hp.
    + destruct (prefix_escaped _ _ Hp) as (-> & s' & ->).
      change (replace_from escaped_newline nl 1 (String "n" s'))
        with (replace_from escaped_newline nl 0 s').
      change (nl ++ replace_from escaped_newline nl 0 s')%string
        with (String newline (replace_from escaped_newline nl 0 s')).
      cbn [contains]. rewrite IH by (simpl in Hlen; lia).
      reflexivity.
    + cbn [contains]. rewrite IH by lia. rewrite orb_false_r.
      destruct (prefix escaped_newline
                  (String c (replace_from escaped_newline nl 0 s))) eqn:Hq;
        [|reflexivity].
      destruct (prefix_escaped _ _ Hq) as (-> & t & Ht).
      destruct (replace_head_n _ _ Ht) as (s' & ->).
      pose proof (prefix_append escaped_newline s') as Hyes.
      change (escaped_newline ++ s')%string
        with (String "\" (String "n" s')) in Hyes.
      congruence.
Qed.

Lemma replace_identity (s : string) :
  contains escaped_newline s = false ->
  replace_from escaped_newline nl 0 s = s.
Proof.
  induction s as [|c s IH]; [reflexivity|].
  cbn [contains]. intros H. apply orb_false_iff in H as [Hp Hc].
  rewrite replace_step, Hp, (IH Hc). reflexivity.
Qed.

Lemma replace_unescaped_bounded (n : nat) :
  forall s, String.length s <= n ->
            unescaped s (replace_from escaped_newline nl 0 s).
Proof.
  induction n as [|n IH]; intros s Hlen.
  - destruct s; [constructor | simpl in Hlen; lia].
  - destruct s as [|c s]; [constructor|]. simpl in Hlen. rewrite replace_step.
    destruct (prefix escaped_newline (String c s)) eqn:Hp.
    + destruct (prefix_escaped _ _ Hp) as (-> & s' & ->).
      change (replace_from escaped_newline nl 1 (String "n" s'))
        with (replace_from escaped_newline nl 0 s').
      change (nl ++ replace_from escaped_newline nl 0 s')%string
        with (String newline (replace_from escaped_newline nl 0 s')).
      apply unescaped_pair, IH. simpl in Hlen. lia.
    + apply unescaped_char; [exact Hp | apply IH; lia].
Qed.

(** C9.  [post_ad_using_data] assigns to the caller's dictionary before it
    checks the title: whenever the call ends with one of the two
    exceptions of that check, the dictionary the caller holds has the keys
    [images] (the uploaded URLs joined by commas), [ca.kijiji.xsrf.token],
    [postAdForm.fraudToken] (the two scraped tokens) and
    [postAdForm.description] as the call wrote them; nothing is put back.
    The description written is the caller's with its escaped newlines
    replaced: each backslash followed by [n] is one newline in it, the
    other characters are kept, and no such pair is left. *)
Theorem title_error_leaves_data_written (C : Collaborators) (data : dict string)
  (image_files : list string) (w : World) (e : exn) (d' : dict string) (w' : World) :
  post_ad_using_data C data image_files w = (Raise e, (d', w')) ->
  is_title_error e = true ->
  exists tok urls images token fraud description written,
    let page := text (server C (form_request :: sent w)) in
    upload_image C tok image_files
      (mkWorld (form_request :: sent w) (dumps w) (stdout w)) = (Ok urls, w') /\
    join "," urls = Ok images /\
    get_token C page "ca.kijiji.xsrf.token" w' = (Ok token, w') /\
    get_token C page "postAdForm.fraudToken" w' = (Ok fraud, w') /\
    dict_get data "postAdForm.description" = Some description /\
    d' = prepared data images token fraud description /\
    dict_get d' "images" = Some images /\
    dict_get d' "ca.kijiji.xsrf.token" = Some token /\
    dict_get d' "postAdForm.fraudToken" = Some fraud /\
    dict_get d' "postAdForm.description" = Some written /\
    unescaped description written /\
    contains "\n" written = false.
Proof.
  intros Hrun He.
  destruct (post_ad_prepare C image_files (data, w)) as [[[]|e0] [d1 w1]] eqn:Hprep.
  - destruct (post_ad_prepare_inv _ _ _ _ _ _ _ Hprep)
      as (_ & tok & urls & images & token & fraud & description
          & Htok & Hup & Hjoin & Ht1 & Ht2 & Hdesc & Hd1).
    rewrite (post_ad_after_prepare _ _ _ _ _ _ Hprep) in Hrun.
    assert (Hdone : d' = d1 /\ w' = w1).
    { destruct (String.length (title_of data) <? 10)%nat;
        [now injection Hrun as _ <- <-|].
      destruct (64 <? String.length (title_of data))%nat;
        [now injection Hrun as _ <- <-|].
      destruct (post_ad_submit_sent C d1 w1) as (_ & _ & Hno).
      rewrite Hrun in Hno. rewrite (Hno e eq_refl) in He. discriminate. }
    destruct Hdone as [-> ->].
    exists tok, urls, images, token, fraud, description,
      (replace "\n" nl description). cbn zeta.
    destruct (prepared_lookup data images token fraud description)
      as (L1 & L2 & L3 & L4).
    rewrite <- Hd1 in L1, L2, L3, L4.
    refine (conj Hup (conj Hjoin (conj Ht1 (conj Ht2 (conj Hdesc (conj Hd1
              (conj L1 (conj L2 (conj L3 (conj L4 (conj _ _))))))))))).
    + apply (replace_unescaped_bounded (String.length description)). lia.
    + apply (replace_no_escape_bounded (String.length description)). lia.
  - unfold post_ad_using_data, post_ad_body in Hrun.
    rewrite (bind_Raise _ _ _ _ _ Hprep) in Hrun. injection Hrun as <- _ _.
    destruct (post_ad_prepare_inv _ _ _ _ _ _ _ Hprep) as [_ Hno].
    cbn in Hno. rewrite Hno in He. discriminate.
Qed.

(** C10.  When the ad has been submitted and the answer carries the marker
    of success, the id returned is group 1 of [ad_id_pattern] searched in
    the [Set-Cookie] header: a non-empty run of digits that follows
    [kjrva=] there.  Nothing guards the extraction: with no such
    header the call ends with a [KeyError], and with a header the pattern
    does not match it ends with an [AttributeError]; neither is a
    [KijijiApiException]. *)
Theorem ad_id_from_cookie (C : Collaborators) (data : dict string)
  (image_files : list string) (w : World) (d' : dict string) (w' : World) :
  post_ad_prepare C image_files (data, w) = (Ok tt, (d', w')) ->
  10 <= String.length (title_of data) <= 64 ->
  let resp := server C (submit_request d' :: sent w') in
  let w2 := mkWorld (submit_request d' :: sent w') (dumps w') (stdout w') in
  ok_status resp = true ->
  contains "Delete Ad?" (text resp) = true ->
  (forall cookie ad_id,
      header (resp_headers resp) "Set-Cookie" = Ok cookie ->
      Re.search (Re.compile ad_id_pattern) cookie = Some ad_id ->
      post_ad_using_data C data image_files w = (Ok ad_id, (d', w2)) /\
      ad_id <> EmptyString /\
      all_chars isdigit ad_id = true /\
      contains ("kjrva=" ++ ad_id)%string cookie = true)
  /\ (forall cookie,
      header (resp_headers resp) "Set-Cookie" = Ok cookie ->
      Re.search (Re.compile ad_id_pattern) cookie = None ->
      post_ad_using_data C data image_files w = (Raise AttributeError, (d', w2)))
  /\ ((forall k v, In (k, v) (resp_headers resp) -> lower k <> "set-cookie") ->
      post_ad_using_data C data image_files w =
        (Raise (KeyError "set-cookie"), (d', w2))).
Proof.
  intros Hprep Hn resp w2 Hstatus Hmarker.
  assert (Hrun : post_ad_using_data C data image_files w = post_ad_submit C (d', w')).
  { rewrite (post_ad_after_prepare _ _ _ _ _ _ Hprep).
    destruct (Nat.ltb_spec (String.length (title_of data)) 10); [lia|].
    destruct (Nat.ltb_spec 64 (String.length (title_of data))); [lia|].
    reflexivity. }
  rewrite Hrun, (post_ad_submit_success C d' w' Hstatus Hmarker).
  fold resp. fold w2. refine (conj _ (conj _ _)).
  - intros cookie ad_id Hcookie Hid.
    split; [now rewrite Hcookie, Hid | now apply ad_id_pattern_digits].
  - intros cookie -> ->. reflexivity.
  - intros Habsent. now rewrite (header_absent _ "Set-Cookie" Habsent).
Qed.

(** ** login *)

(** C8 (amended).  With the hidden token and the [targetUrl] of the page
    data scraped from the login page, [login] posts the credentials with
    both and then asks [is_logged_in], which loads the ads page again each
    time.  It returns when that page holds the sign-out marker.  When the
    page lacks it, it raises [KijijiApiException] with the login message;
    the body of the answer to the post is appended to the dump file, whose
    path the exception carries, when that body is not empty, and an empty
    body leaves no dump and an empty path. *)
Theorem login_verifies (C : Collaborators) (username password : string)
  (w : World) (token : string) (kj config targetUrl : value) :
  let w1 := mkWorld (login_page_request :: sent w) (dumps w) (stdout w) in
  let page := text (server C (login_page_request :: sent w)) in
  let post := login_post_request username password token targetUrl in
  let body := text (server C (post :: login_page_request :: sent w)) in
  let history := probe_request :: post :: login_page_request :: sent w in
  get_token C page "ca.kijiji.xsrf.token" w1 = (Ok token, w1) ->
  get_kj_data C page w1 = (Ok kj, w1) ->
  getitem kj "config" = Ok config ->
  getitem config "targetUrl" = Ok targetUrl ->
  (contains "Sign Out" (text (server C history)) = true ->
   login C username password w =
     (Ok tt, mkWorld history (dumps w) (stdout w)))
  /\ (contains "Sign Out" (text (server C history)) = false ->
      body <> EmptyString ->
      login C username password w =
        (Raise (KijijiApiException "Could not log in." (dump_path C)),
         mkWorld history (append_file (dumps w) (dump_path C) body) (stdout w)))
  /\ (contains "Sign Out" (text (server C history)) = false ->
      body = EmptyString ->
      login C username password w =
        (Raise (KijijiApiException "Could not log in." EmptyString),
         mkWorld history (dumps w) (stdout w))).
Proof.
  intros w1 page post body history Htoken Hkj Hconfig Htarget.
  assert (Hrun : login C username password w =
                 (if negb (contains "Sign Out" (text (server C history)))
                  then raise_KijijiApiException C "Could not log in." (Some body)
                  else ret tt)
                   (mkWorld history (dumps w) (stdout w))).
  { unfold login.
    run_with (apply session_get_run).
    fold login_page_request. fold page. fold w1.
    run_with (exact Htoken). run_with (exact Hkj).
    rewrite Hconfig. run_with reflexivity.
    rewrite Htarget. run_with reflexivity.
    run_with (apply session_post_run).
    fold (login_post_request username password token targetUrl). fold post.
    cbn [sent dumps stdout]. fold body.
    unfold is_logged_in. rewrite bind_assoc.
    run_with (apply session_get_run).
    fold probe_request. cbn [sent dumps stdout]. fold history.
    run_with reflexivity. reflexivity. }
  rewrite Hrun. repeat split.
  - intros ->. reflexivity.
  - intros -> Hbody. cbn [negb].
    unfold raise_KijijiApiException, bind, KijijiApiException_init, raise.
    destruct (String.eqb_spec body EmptyString) as [E|_]; [now elim Hbody|].
    reflexivity.
  - intros -> Hbody. cbn [negb]. rewrite Hbody. reflexivity.
Qed.

(** ** The properties on the example site *)

Lemma scripted_all (P : Response -> Prop) script :
  Forall P script -> P (Mock.ok_response EmptyString) ->
  forall h, P (Mock.scripted script h).
Proof.
  intros Hs Hd h. unfold Mock.scripted.
  destruct (nth_in_or_default (List.length h - 1) script
              (Mock.ok_response EmptyString)) as [Hin | ->].
  - rewrite Forall_forall in Hs. now apply Hs.
  - exact Hd.
Qed.

(** C1, on a transport that fails twice and then succeeds for the first
    file and fails three times for the second: the call returns the URL of
    the first file alone. *)
Lemma upload_image_three_tries_witness :
  (exists urls h' out,
      uploads (Mock.collaborators flaky) "up-1" ["img-a"; "img-b"]
        (sent Mock.fresh) urls h' /\
      upload_image (Mock.collaborators flaky) "up-1" ["img-a"; "img-b"] Mock.fresh =
        (Ok (filter not_None urls), mkWorld h' (dumps Mock.fresh) out) /\
      Forall (fun u => u <> VNone) (filter not_None urls) /\
      List.length h' <= List.length (sent Mock.fresh) + 3 * 2)
  /\ fst (upload_image (Mock.collaborators flaky) "up-1" ["img-a"; "img-b"]
            Mock.fresh)
     = Ok [VStr "https://i.ebayimg.com/a.jpg"].
Proof.
  split.
  - apply (upload_image_three_tries (Mock.collaborators flaky) "up-1"
             ["img-a"; "img-b"] Mock.fresh).
    intros img h.
    change (server (Mock.collaborators flaky) (upload_request "up-1" img :: h))
      with (flaky (upload_request "up-1" img :: h)).
    apply (scripted_all
             (fun r => attempt_of (Mock.collaborators flaky) r <> None)).
    + repeat constructor; vm_compute; discriminate.
    + vm_compute. discriminate.
  - vm_compute. reflexivity.
Defined.

(** C2, on a site with no ad and on the site with three ads. *)
Lemma get_all_ads_ranks_witness :
  get_all_ads (Mock.collaborators no_ads_site) Mock.fresh =
    (Ok [], mkWorld [ads_request] [] [])
  /\ get_all_ads kijiji Mock.fresh =
       (Ok (map (with_rank listed_ranks) listed_ads),
        mkWorld [ranks_request (ids_query listed_ads); ads_request] [] []).
Proof.
  split.
  - refine (proj1 (get_all_ads_ranks (Mock.collaborators no_ads_site) Mock.fresh
                     (VDict [("ads", VDict [])]) [] _ _ _) _);
      vm_compute; reflexivity.
  - refine (proj2 (get_all_ads_ranks kijiji Mock.fresh
                     (VDict [("ads", VDict listed_ads)]) listed_ads _ _ _)
              (VDict [("ranks", VDict listed_ranks)]) listed_ranks
              _ _ _ _ _ _ _ _); try (vm_compute; reflexivity).
    + discriminate.
    + repeat constructor; simpl; intuition discriminate.
    + repeat constructor; do 2 eexists; split; reflexivity.
    + repeat constructor; simpl; intuition discriminate.
    + simpl. intuition.
Defined.

(** the steps before the check of the title succeed on the example site *)
Lemma example_prepare (C : Collaborators) (d : dict string) (fs : list string) :
  fst (post_ad_prepare C fs (d, Mock.fresh)) = Ok tt ->
  post_ad_prepare C fs (d, Mock.fresh) =
  (Ok tt, (fst (snd (post_ad_prepare C fs (d, Mock.fresh))),
           snd (snd (post_ad_prepare C fs (d, Mock.fresh))))).
Proof.
  destruct (post_ad_prepare C fs (d, Mock.fresh)) as [r [d' w']].
  simpl. now intros ->.
Qed.

(** C3, on titles of 10, 64, 9 and 65 characters and on an ad with no
    title. *)
Lemma title_length_bounds_witness :
  fst (post_ad_using_data kijiji (ad_with title10) [] Mock.fresh) = Ok "1234567"
  /\ fst (post_ad_using_data kijiji (ad_with title64) [] Mock.fresh) = Ok "1234567"
  /\ fst (post_ad_using_data kijiji (ad_with title9) [] Mock.fresh)
     = Raise (KijijiApiException title_too_short EmptyString)
  /\ fst (post_ad_using_data kijiji (ad_with title65) [] Mock.fresh)
     = Raise (KijijiApiException title_too_long EmptyString)
  /\ fst (post_ad_using_data kijiji ad_untitled [] Mock.fresh)
     = Raise (KijijiApiException title_too_short EmptyString).
Proof.
  refine (conj _ (conj _ (conj _ (conj _ _)))).
  - destruct (title_length_bounds kijiji (ad_with title10) [] Mock.fresh _ _
                (example_prepare kijiji (ad_with title10) [] eq_refl))
      as (Hpass & _).
    rewrite (proj1 (Hpass ltac:(vm_compute; lia))). vm_compute. reflexivity.
  - destruct (title_length_bounds kijiji (ad_with title64) [] Mock.fresh _ _
                (example_prepare kijiji (ad_with title64) [] eq_refl))
      as (Hpass & _).
    rewrite (proj1 (Hpass ltac:(vm_compute; lia))). vm_compute. reflexivity.
  - destruct (title_length_bounds kijiji (ad_with title9) [] Mock.fresh _ _
                (example_prepare kijiji (ad_with title9) [] eq_refl))
      as (_ & Hshort & _).
    rewrite (Hshort ltac:(vm_compute; lia)). reflexivity.
  - destruct (title_length_bounds kijiji (ad_with title65) [] Mock.fresh _ _
                (example_prepare kijiji (ad_with title65) [] eq_refl))
      as (_ & _ & Hlong & _).
    rewrite (Hlong ltac:(vm_compute; lia)). reflexivity.
  - destruct (title_length_bounds kijiji ad_untitled [] Mock.fresh _ _
                (example_prepare kijiji ad_untitled [] eq_refl))
      as (_ & _ & _ & Hnone).
    rewrite (Hnone eq_refl). reflexivity.
Defined.

(** C4 as it is stated fails: with a title of 9 characters and one image
    the call ends with the exception of the check, and by then it has
    requested the form page and uploaded the image. *)
Lemma requests_precede_title_check :
  fst (post_ad_using_data kijiji (ad_with title9) ["img-a"] Mock.fresh)
    = Raise (KijijiApiException title_too_short EmptyString)
  /\ sent (snd (snd (post_ad_using_data kijiji (ad_with title9) ["img-a"]
                       Mock.fresh)))
     = [upload_request "up-1" "img-a"; form_request].
Proof. split; vm_compute; reflexivity. Qed.

(** C4 (amended), on the same call. *)
Lemma invalid_title_never_submitted_witness :
  let out := post_ad_using_data kijiji (ad_with title9) ["img-a"] Mock.fresh in
  (exists e, fst out = Raise e)
  /\ (exists ups,
         sent (snd (snd out)) = ups ++ form_request :: sent Mock.fresh /\
         Forall is_upload ups /\
         forall r, In r (ups ++ [form_request]) -> url r <> new_ad_url)
  /\ fst out = Raise (KijijiApiException title_too_short EmptyString).
Proof.
  destruct (invalid_title_never_submitted kijiji (ad_with title9) ["img-a"]
              Mock.fresh ltac:(left; vm_compute; lia))
    as (Hraise & Hsent & Hcheck).
  refine (conj Hraise (conj Hsent _)).
  rewrite (Hcheck _ _ (example_prepare kijiji (ad_with title9) ["img-a"] eq_refl)).
  reflexivity.
Defined.

(** C9, on the same call: the dictionary comes back with the four keys
    written, and the backslash and [n] of the description have become one
    newline. *)
Lemma title_error_leaves_data_written_witness :
  exists tok urls images token fraud description written w',
    upload_image kijiji tok ["img-a"]
      (mkWorld (form_request :: sent Mock.fresh) (dumps Mock.fresh)
         (stdout Mock.fresh)) = (Ok urls, w') /\
    join "," urls = Ok images /\
    get_token kijiji (text (server kijiji (form_request :: sent Mock.fresh)))
      "ca.kijiji.xsrf.token" w' = (Ok token, w') /\
    get_token kijiji (text (server kijiji (form_request :: sent Mock.fresh)))
      "postAdForm.fraudToken" w' = (Ok fraud, w') /\
    dict_get (ad_with title9) "postAdForm.description" = Some description /\
    fst (snd (post_ad_using_data kijiji (ad_with title9) ["img-a"] Mock.fresh))
      = prepared (ad_with title9) images token fraud description /\
    dict_get (fst (snd (post_ad_using_data kijiji (ad_with title9) ["img-a"]
                          Mock.fresh))) "postAdForm.description"
      = Some written /\
    unescaped description written /\
    contains "\n" written = false /\
    description = "Line one\nLine two"%string /\
    written = ("Line one" ++ nl ++ "Line two")%string /\
    dict_get (fst (snd (post_ad_using_data kijiji (ad_with title9) ["img-a"]
                          Mock.fresh))) "images"
      = Some "https://i.ebayimg.com/a.jpg"%string.
Proof.
  destruct (title_error_leaves_data_written kijiji (ad_with title9) ["img-a"]
              Mock.fresh
              (KijijiApiException title_too_short EmptyString)
              (fst (snd (post_ad_using_data kijiji (ad_with title9) ["img-a"]
                           Mock.fresh)))
              (snd (snd (post_ad_using_data kijiji (ad_with title9) ["img-a"]
                           Mock.fresh)))
              ltac:(vm_compute; reflexivity) eq_refl)
    as (tok & urls & images & token & fraud & description & written
        & Hup & Hjoin & Ht1 & Ht2 & Hdesc & Hd & _ & _ & _ & Hw & Hun & Hno).
  exists tok, urls, images, token, fraud, description, written.
  eexists.
  refine (conj Hup (conj Hjoin (conj Ht1 (conj Ht2 (conj Hdesc (conj Hd
            (conj Hw (conj Hun (conj Hno (conj _ (conj _ _))))))))))).
  - vm_compute in Hdesc. now injection Hdesc as <-.
  - vm_compute in Hw. now injection Hw as <-.
  - vm_compute. reflexivity.
Defined.

(** C5 as it is stated fails twice: a page may hold an element with the
    name and the value while an earlier element with the same name has no
    value, and [get_token] then ends with a [KeyError]; and on the empty
    page, which holds no element, the exception is raised with no dump
    file written. *)
Lemma get_token_counterexamples :
  ((exists t, In t (BeautifulSoup kijiji two_fields_page) /\
              dict_get (attrs t) "name" = Some "q" /\
              dict_get (attrs t) "value" = Some "Y")
   /\ get_token kijiji two_fields_page "q" Mock.fresh
      = (Raise (KeyError "value"), Mock.fresh))
  /\ (BeautifulSoup kijiji EmptyString = []
      /\ get_token kijiji EmptyString "q" Mock.fresh
         = (Raise (KijijiApiException (token_not_found "q") EmptyString),
            mkWorld [] [] [])).
Proof.
  split; split.
  - exists (mkTag "input" [("name", "q"); ("value", "Y")] None).
    split; [vm_compute; tauto | split; reflexivity].
  - vm_compute. reflexivity.
  - reflexivity.
  - vm_compute. reflexivity.
Qed.

(** C5 (amended), on the login page, on a page with no hidden field, and
    on the empty page. *)
Lemma get_token_first_named_witness :
  get_token kijiji login_page "ca.kijiji.xsrf.token" Mock.fresh
    = (Ok "x-1", Mock.fresh)
  /\ get_token kijiji signed_out_page "ca.kijiji.xsrf.token" Mock.fresh
     = (Raise (KijijiApiException (token_not_found "ca.kijiji.xsrf.token")
                 (dump_path kijiji)),
        mkWorld [] [(dump_path kijiji, signed_out_page)] [])
  /\ get_token kijiji EmptyString "ca.kijiji.xsrf.token" Mock.fresh
     = (Raise (KijijiApiException (token_not_found "ca.kijiji.xsrf.token")
                 EmptyString),
        Mock.fresh).
Proof.
  refine (conj _ (conj _ _)).
  - refine (proj1 (get_token_first_named kijiji login_page
                     "ca.kijiji.xsrf.token" Mock.fresh eq_refl)
              (firstn 3 (BeautifulSoup kijiji login_page))
              (mkTag "input" [("type", "hidden"); ("name", "ca.kijiji.xsrf.token");
                              ("value", "x-1")] None)
              (skipn 4 (BeautifulSoup kijiji login_page)) "x-1" _ _ _ _);
      try (vm_compute; reflexivity).
    vm_compute. repeat constructor; discriminate.
  - refine (proj1 (proj2 (get_token_first_named kijiji signed_out_page
                            "ca.kijiji.xsrf.token" Mock.fresh eq_refl)) _ _).
    + vm_compute. repeat constructor; discriminate.
    + discriminate.
  - refine (proj2 (proj2 (get_token_first_named kijiji EmptyString
                            "ca.kijiji.xsrf.token" Mock.fresh eq_refl)) _ _).
    + vm_compute. constructor.
    + reflexivity.
Defined.

(** C6 as it is stated fails: the page holds the text of the claim in an
    inline script, followed on the same line by another statement; the
    group then runs to the last semicolon, [json.loads] refuses it and the
    call ends with a [ValueError]. *)
Lemma get_kj_data_second_statement :
  (exists t txt,
      In t (find_inline_scripts (BeautifulSoup kijiji a1_page_two_statements)) /\
      tag_string t = Some txt /\
      contains ("window.__data=" ++ a1_json ++ ";")%string txt = true)
  /\ json_loads kijiji a1_json = Some a1
  /\ get_kj_data kijiji a1_page_two_statements Mock.fresh
     = (Raise ValueError, Mock.fresh).
Proof.
  refine (conj _ (conj _ _)).
  - exists (mkTag "script" []
              (Some ("window.__data=" ++ a1_json ++ ";window.ready=true;")%string)).
    eexists. split; [vm_compute; tauto | split; [reflexivity | vm_compute; reflexivity]].
  - vm_compute. reflexivity.
  - vm_compute. reflexivity.
Qed.

(** An inline script with no text ends the call with a [TypeError],
    whatever the scripts after it hold: the test [if script:] holds for
    every element. *)
Example get_kj_data_empty_script :
  get_kj_data kijiji
    ("<script></script><script>window.__data=" ++ a1_json ++ ";</script>")%string
    Mock.fresh
  = (Raise TypeError, Mock.fresh).
Proof. vm_compute. reflexivity. Qed.

(** C6 (amended), on the login page, on the page of the claim and on a page
    with no script. *)
Lemma get_kj_data_first_match_witness :
  get_kj_data kijiji login_page Mock.fresh
    = (Ok (VDict [("config", VDict [("targetUrl", VStr "/my/ads")])]), Mock.fresh)
  /\ get_kj_data kijiji a1_page Mock.fresh = (Ok a1, Mock.fresh)
  /\ exists path files,
       get_kj_data kijiji signed_out_page Mock.fresh
       = (Raise (KijijiApiException kj_data_not_found path),
          mkWorld (sent Mock.fresh) files (stdout Mock.fresh)).
Proof.
  refine (conj _ (conj _ _)).
  - refine (proj1 (get_kj_data_first_match kijiji login_page Mock.fresh)
              [] _ [] _ _ _ _ _ _ _ _);
      try (vm_compute; reflexivity). constructor.
  - refine (proj1 (proj2 (get_kj_data_first_match kijiji a1_page Mock.fresh))
              [] _ [] EmptyString EmptyString _ _ _ _ _ _);
      try (vm_compute; reflexivity). constructor.
  - refine (proj2 (proj2 (get_kj_data_first_match kijiji signed_out_page
                            Mock.fresh)) _).
    vm_compute. constructor.
Defined.

(** C7, on the site with the ads Foo, Foo followed by a space, and Bar: the
    two first are deleted, in that order. *)
Lemma delete_ad_using_title_all_matches_witness :
  (exists w2,
      delete_ad_using_title kijiji " Foo" Mock.fresh = (Ok tt, w2) /\
      deleted (sent w2)
      = rev (deletions " Foo" (map (with_rank listed_ranks) listed_ads))
        ++ deleted (sent (snd (get_all_ads kijiji Mock.fresh))))
  /\ deleted (sent (snd (delete_ad_using_title kijiji " Foo" Mock.fresh)))
     = [VStr (delete_ads_field (VInt 12)); VStr (delete_ads_field (VInt 11))].
Proof.
  split.
  - apply (delete_ad_using_title_all_matches kijiji " Foo" Mock.fresh
             (snd (get_all_ads kijiji Mock.fresh))
             (map (with_rank listed_ranks) listed_ads)).
    + vm_compute. reflexivity.
    + cbn [map listed_ads].
      apply Forall_cons; [|apply Forall_cons; [|apply Forall_cons; [|apply Forall_nil]]];
        do 3 eexists; (split; [reflexivity | split; reflexivity]).
    + intros ad w' [<-|[<-|[<-|[]]]] Hmatch;
        try discriminate Hmatch; eexists; vm_compute; reflexivity.
  - vm_compute. reflexivity.
Defined.

(** C8 as it is stated fails: when the site answers the post with an empty
    body and the ads page has no sign-out marker, the exception [login]
    raises carries no dump, and no dump file is written. *)
Lemma login_empty_body_no_dump :
  text (server (Mock.collaborators refusing_empty)
          [login_post_request "user" "secret" "x-1" (VStr "/my/ads");
           login_page_request]) = EmptyString
  /\ fst (login (Mock.collaborators refusing_empty) "user" "secret" Mock.fresh)
     = Raise (KijijiApiException "Could not log in." EmptyString)
  /\ dumps (snd (login (Mock.collaborators refusing_empty) "user" "secret"
                   Mock.fresh)) = [].
Proof. refine (conj _ (conj _ _)); vm_compute; reflexivity. Qed.

(** C8 (amended), on the site that signs the user in, on a site that
    answers the post with the login page again, and on one that answers it
    with an empty body. *)
Lemma login_verifies_witness :
  login kijiji "user" "secret" Mock.fresh
    = (Ok tt,
       mkWorld [probe_request;
                login_post_request "user" "secret" "x-1" (VStr "/my/ads");
                login_page_request] [] [])
  /\ login (Mock.collaborators refusing) "user" "secret" Mock.fresh
     = (Raise (KijijiApiException "Could not log in."
                 (dump_path (Mock.collaborators refusing))),
        mkWorld [probe_request;
                 login_post_request "user" "secret" "x-1" (VStr "/my/ads");
                 login_page_request]
          [(dump_path (Mock.collaborators refusing), login_page)] [])
  /\ login (Mock.collaborators refusing_empty) "user" "secret" Mock.fresh
     = (Raise (KijijiApiException "Could not log in." EmptyString),
        mkWorld [probe_request;
                 login_post_request "user" "secret" "x-1" (VStr "/my/ads");
                 login_page_request] [] []).
Proof.
  refine (conj _ (conj _ _)).
  - refine (proj1 (login_verifies kijiji "user" "secret" Mock.fresh "x-1"
                     (VDict [("config", VDict [("targetUrl", VStr "/my/ads")])])
                     (VDict [("targetUrl", VStr "/my/ads")]) (VStr "/my/ads")
                     _ _ _ _) _); vm_compute; reflexivity.
  - refine (proj1 (proj2 (login_verifies (Mock.collaborators refusing)
                            "user" "secret" Mock.fresh "x-1"
                            (VDict [("config", VDict [("targetUrl", VStr "/my/ads")])])
                            (VDict [("targetUrl", VStr "/my/ads")]) (VStr "/my/ads")
                            _ _ _ _)) _ _);
      try (vm_compute; reflexivity). vm_compute. discriminate.
  - refine (proj2 (proj2 (login_verifies (Mock.collaborators refusing_empty)
                            "user" "secret" Mock.fresh "x-1"
                            (VDict [("config", VDict [("targetUrl", VStr "/my/ads")])])
                            (VDict [("targetUrl", VStr "/my/ads")]) (VStr "/my/ads")
                            _ _ _ _)) _ _);
      vm_compute; reflexivity.
Defined.

(** C10, on answers that carry the marker of success with the cookie of the
    ad, with a cookie that does not name the ad, and with no cookie. *)
Lemma ad_id_from_cookie_witness :
  fst (post_ad_using_data kijiji (ad_with title10) [] Mock.fresh) = Ok "1234567"
  /\ fst (post_ad_using_data
            (Mock.collaborators (site_answering posted_other_cookie))
            (ad_with title10) [] Mock.fresh)
     = Raise AttributeError
  /\ fst (post_ad_using_data
            (Mock.collaborators (site_answering posted_no_cookie))
            (ad_with title10) [] Mock.fresh)
     = Raise (KeyError "set-cookie").
Proof.
  refine (conj _ (conj _ _)).
  - destruct (ad_id_from_cookie kijiji (ad_with title10) [] Mock.fresh _ _
                (example_prepare kijiji (ad_with title10) [] eq_refl)
                ltac:(vm_compute; lia) eq_refl eq_refl) as (Hid & _).
    rewrite (proj1 (Hid "up=1; kjrva=1234567; Path=/" "1234567"
                      ltac:(vm_compute; reflexivity) ltac:(vm_compute; reflexivity))).
    reflexivity.
  - destruct (ad_id_from_cookie
                (Mock.collaborators (site_answering posted_other_cookie))
                (ad_with title10) [] Mock.fresh _ _
                (example_prepare
                   (Mock.collaborators (site_answering posted_other_cookie))
                   (ad_with title10) [] eq_refl)
                ltac:(vm_compute; lia) eq_refl eq_refl) as (_ & Hnone & _).
    rewrite (Hnone "up=1; Path=/"
               ltac:(vm_compute; reflexivity) ltac:(vm_compute; reflexivity)).
    reflexivity.
  - destruct (ad_id_from_cookie
                (Mock.collaborators (site_answering posted_no_cookie))
                (ad_with title10) [] Mock.fresh _ _
                (example_prepare
                   (Mock.collaborators (site_answering posted_no_cookie))
                   (ad_with title10) [] eq_refl)
                ltac:(vm_compute; lia) eq_refl eq_refl) as (_ & _ & Habsent).
    rewrite Habsent; [reflexivity|].
    intros k v Hin. vm_compute in Hin. destruct Hin as [[= <- <-]|[]].
    vm_compute. discriminate.
Defined.

(** * Further properties of the module *)

(** ** The exception class *)

(** X1.  Building a [KijijiApiException] with a non-empty dump appends the
    dump to the file named after the clock: what the file held stays in
    front, so two exceptions built within the same second share one file;
    no other file, no request and no printed line is touched. *)
Theorem dump_is_appended (C : Collaborators) (msg d : string) (w : World) :
  d <> EmptyString ->
  let w' := snd (KijijiApiException_init C msg (Some d) w) in
  fst (KijijiApiException_init C msg (Some d) w)
    = Ok (KijijiApiException msg (dump_path C)) /\
  file_content (dumps w') (dump_path C)
    = (file_content (dumps w) (dump_path C) ++ d)%string /\
  (forall p, p <> dump_path C -> dict_get (dumps w') p = dict_get (dumps w) p) /\
  sent w' = sent w /\ stdout w' = stdout w.
Proof.
  intros Hd. unfold KijijiApiException_init.
  destruct (String.eqb_spec d EmptyString) as [E|_]; [now elim Hd|].
  cbn [negb fst snd dumps sent stdout]. fold (dump_path C).
  split; [reflexivity|]. split; [|split; [|split; reflexivity]].
  - unfold file_content, append_file.
    destruct (dict_get (dumps w) (dump_path C)); now rewrite dict_get_set_same.
  - intros p Hp. unfold append_file.
    destruct (dict_get (dumps w) (dump_path C));
      now rewrite dict_get_set_other.
Qed.

Lemma dump_is_appended_witness :
  let C := Mock.collaborators refusing in
  let w1 := snd (KijijiApiException_init C "first" (Some "abc") Mock.fresh) in
  let w2 := snd (KijijiApiException_init C "second" (Some "def") w1) in
  file_content (dumps w2) (dump_path C) = "abcdef".
Proof.
  intros C w1 w2.
  destruct (dump_is_appended C "second" "def" w1 ltac:(discriminate))
    as (_ & H2 & _).
  destruct (dump_is_appended C "first" "abc" Mock.fresh ltac:(discriminate))
    as (_ & H1 & _).
  fold w1 in H1. fold w2 in H2. rewrite H2, H1. reflexivity.
Defined.

Lemma append_not_self (a b : string) : b <> EmptyString -> (a ++ b)%string <> a.
Proof.
  intros Hb E. apply (f_equal String.length) in E.
  rewrite length_append in E. destruct b; [now elim Hb | simpl in E; lia].
Qed.

(** X2.  The text of an exception names a dump file exactly when the
    exception was built with a non-empty dump: with no dump or an empty
    one the text is the message alone, and otherwise it is the message, a
    new line and a sentence that gives the path of a file that holds the
    dump at its end. *)
Theorem exception_text_names_dump (C : Collaborators) (msg : string)
  (dump : option string) (w : World) :
  exists path w',
    KijijiApiException_init C msg dump w = (Ok (KijijiApiException msg path), w') /\
    ((dump = None \/ dump = Some EmptyString) ->
       KijijiApiException_str msg path = msg /\ w' = w) /\
    (forall d, dump = Some d -> d <> EmptyString ->
       KijijiApiException_str msg path
         = (msg ++ nl ++ "See " ++ dump_path C
            ++ " in current directory for latest dumpfile.")%string /\
       KijijiApiException_str msg path <> msg /\
       exists old, dict_get (dumps w') (dump_path C) = Some (old ++ d)%string).
Proof.
  unfold KijijiApiException_init. destruct dump as [d|].
  - destruct (String.eqb_spec d EmptyString) as [->|Hd]; cbn [negb].
    + exists EmptyString, w. split; [reflexivity|]. split; [intros _; now split|].
      intros d' [= <-] Hne. now elim Hne.
    + exists (dump_path C). eexists. split; [reflexivity|]. split.
      * intros [E|[= E]]; [discriminate | now elim Hd].
      * intros d' [= <-] _. cbn [dumps].
        assert (Hstr : KijijiApiException_str msg (dump_path C)
                       = (msg ++ nl ++ "See " ++ dump_path C
                          ++ " in current directory for latest dumpfile.")%string)
          by reflexivity.
        split; [exact Hstr|]. split.
        -- rewrite Hstr. apply append_not_self. discriminate.
        -- fold (dump_path C). unfold append_file.
           destruct (dict_get (dumps w) (dump_path C)) as [old|].
           ++ exists old. apply dict_get_set_same.
           ++ exists EmptyString. apply dict_get_set_same.
  - exists EmptyString, w. split; [reflexivity|].
    split; [intros _; now split | discriminate].
Qed.

Lemma exception_text_names_dump_witness :
  exists path w',
    KijijiApiException_init kijiji "Could not log in." (Some "<html></html>")
      Mock.fresh = (Ok (KijijiApiException "Could not log in." path), w') /\
    KijijiApiException_str "Could not log in." path
      = ("Could not log in." ++ nl
         ++ "See kijijiapi_dump_20240101T120000.txt in current directory for latest dumpfile.")%string /\
    dict_get (dumps w') "kijijiapi_dump_20240101T120000.txt" = Some "<html></html>".
Proof.
  destruct (exception_text_names_dump kijiji "Could not log in."
              (Some "<html></html>") Mock.fresh)
    as (path & w' & Hinit & _ & Hdump).
  destruct (Hdump _ eq_refl ltac:(discriminate)) as (Hstr & _ & _).
  exists path, w'. split; [exact Hinit|]. split; [exact Hstr|].
  vm_compute in Hinit. injection Hinit as _ <-. reflexivity.
Defined.

(** ** upload_image, whatever the answers *)

Lemma upload_tries_any (C : Collaborators) token img tries :
  forall acc w,
  let out := upload_tries C token img tries acc w in
  exists k,
    k <= List.length tries /\
    sent (snd out) = repeat (upload_request token img) k ++ sent w /\
    dumps (snd out) = dumps w /\
    (forall acc', fst out = Ok acc' -> acc' = acc \/ exists u, acc' = acc ++ [u]).
Proof.
  induction tries as [|i tries IH]; intros acc w out; subst out.
  - exists 0. simpl. repeat split; try lia.
    intros acc' [= <-]. now left.
  - cbn [upload_tries].
    run_with (apply session_post_run).
    fold (upload_request token img).
    set (r := server C (upload_request token img :: sent w)).
    assert (Hnext : forall out',
      let run := upload_tries C token img tries acc
                   (mkWorld (upload_request token img :: sent w) (dumps w) out') in
      exists k,
        k <= S (List.length tries) /\
        sent (snd run) = repeat (upload_request token img) k ++ sent w /\
        dumps (snd run) = dumps w /\
        (forall acc', fst run = Ok acc' -> acc' = acc \/ exists u, acc' = acc ++ [u])).
    { intros out' run. subst run.
      destruct (IH acc (mkWorld (upload_request token img :: sent w) (dumps w) out'))
        as (k & Hk & Hs & Hd & Hok).
      exists (S k). cbn [sent dumps] in Hs, Hd.
      rewrite Hs, repeat_shift. repeat split; [lia | exact Hd | exact Hok]. }
    assert (Hone : forall res out',
      (forall acc', res = Ok acc' -> acc' = acc \/ exists u, acc' = acc ++ [u]) ->
      exists k,
        k <= S (List.length tries) /\
        sent (snd (res, mkWorld (upload_request token img :: sent w) (dumps w) out'))
          = repeat (upload_request token img) k ++ sent w /\
        dumps (snd (res, mkWorld (upload_request token img :: sent w) (dumps w) out'))
          = dumps w /\
        (forall acc', fst (res, mkWorld (upload_request token img :: sent w)
                                  (dumps w) out') = Ok acc' ->
                      acc' = acc \/ exists u, acc' = acc ++ [u])).
    { intros res out' Hok. exists 1. repeat split; [lia | exact Hok]. }
    unfold raise_for_status.
    destruct ((400 <=? status_code r) && (status_code r <? 600))%nat.
    { erewrite bind_Raise by reflexivity. apply Hone. discriminate. }
    run_with reflexivity.
    destruct (json_loads C (text r)) as [tree|].
    + destruct (getitem tree "thumbnailUrl") as [u|e] eqn:Eget.
      * run_with reflexivity. apply Hone.
        intros acc' [= <-]. right. eauto.
      * assert (He : e = TypeError \/ exists k, e = KeyError k).
        { destruct tree; simpl in Eget; try (injection Eget as <-; now left).
          destruct (dict_get d "thumbnailUrl"); [discriminate|].
          injection Eget as <-. right. eauto. }
        destruct He as [->|[k ->]].
        -- apply Hone. discriminate.
        -- run_with reflexivity. apply Hnext.
    + run_with reflexivity. apply Hnext.
Qed.

Lemma upload_files_any (C : Collaborators) token image_files :
  forall acc w,
  let out := upload_files C token image_files acc w in
  exists ups,
    sent (snd out) = ups ++ sent w /\
    Forall (fun r => exists img, In img image_files /\ r = upload_request token img) ups /\
    List.length ups <= 3 * List.length image_files /\
    dumps (snd out) = dumps w /\
    (forall urls, fst out = Ok urls ->
                  exists new, urls = acc ++ new /\
                              List.length new <= List.length image_files).
Proof.
  induction image_files as [|img rest IH]; intros acc w out; subst out.
  - exists []. simpl. repeat split; try lia; try constructor.
    intros urls [= <-]. exists []. now rewrite app_nil_r.
  - cbn [upload_files].
    destruct (upload_tries_any C token img (seq 0 3) acc w)
      as (k & Hk & Hs & Hd & Hok).
    assert (Hrep : Forall (fun r => exists i, In i (img :: rest) /\
                                              r = upload_request token i)
                     (repeat (upload_request token img) k)).
    { apply Forall_forall. intros r Hr. apply repeat_spec in Hr.
      exists img. split; [now left | exact Hr]. }
    destruct (upload_tries C token img (seq 0 3) acc w) as [[urls|e] w1] eqn:E.
    + rewrite (bind_Ok _ _ _ _ _ E).
      destruct (IH urls w1) as (ups & Hs' & Hf' & Hl' & Hd' & Hok').
      cbn [fst snd] in *.
      exists (ups ++ repeat (upload_request token img) k).
      rewrite Hs', Hs, app_assoc. repeat split.
      * apply Forall_app. split; [|exact Hrep].
        eapply Forall_impl; [|exact Hf'].
        intros r (i & Hi & ->). exists i. split; [now right | reflexivity].
      * rewrite length_app, repeat_length. simpl in Hk. simpl List.length. lia.
      * now rewrite Hd'.
      * intros urls' Hurls. destruct (Hok' _ Hurls) as (new & -> & Hnew).
        destruct (Hok urls eq_refl) as [->|[u ->]].
        -- exists new. split; [reflexivity | simpl; lia].
        -- exists (u :: new). rewrite <- app_assoc. split; [reflexivity | simpl; lia].
    + rewrite (bind_Raise _ _ _ _ _ E). cbn [fst snd] in *.
      exists (repeat (upload_request token img) k). repeat split.
      * exact Hs.
      * exact Hrep.
      * rewrite repeat_length. simpl in Hk. simpl List.length. lia.
      * exact Hd.
      * discriminate.
Qed.

(** X3.  Whatever the answers to its requests are, [upload_image] sends
    only upload requests, each carrying the token and one of the files
    given, at most three per file, and writes no dump; when it returns, the
    list has at most one URL per file and no [None]. *)
Theorem upload_image_bounded (C : Collaborators) (token : string)
  (image_files : list string) (w : World) :
  let out := upload_image C token image_files w in
  exists ups,
    sent (snd out) = ups ++ sent w /\
    Forall (fun r => exists img, In img image_files /\ r = upload_request token img) ups /\
    List.length ups <= 3 * List.length image_files /\
    dumps (snd out) = dumps w /\
    (forall urls, fst out = Ok urls ->
                  List.length urls <= List.length image_files /\
                  Forall (fun u => u <> VNone) urls).
Proof.
  intros out. subst out. unfold upload_image.
  destruct (upload_files_any C token image_files [] w)
    as (ups & Hs & Hf & Hl & Hd & Hok).
  exists ups.
  destruct (upload_files C token image_files [] w) as [[urls|e] w1] eqn:E.
  - rewrite (bind_Ok _ _ _ _ _ E). cbn [fst snd ret] in *.
    refine (conj Hs (conj Hf (conj Hl (conj Hd _)))).
    intros urls' [= <-]. destruct (Hok urls eq_refl) as (new & -> & Hnew).
    split.
    + simpl. pose proof (filter_length_le (fun image => negb (is_None image)) new).
      lia.
    + apply Forall_forall. intros u Hu.
      apply filter_In in Hu as [_ Hu]. intros ->. discriminate Hu.
  - rewrite (bind_Raise _ _ _ _ _ E). cbn [fst snd] in *.
    refine (conj Hs (conj Hf (conj Hl (conj Hd _)))).
    discriminate.
Qed.

(** X4.  An error status is not retried: when the answer to the first try
    for the first file has a status from 400 to 599, [upload_image] ends
    with the [HTTPError] of that status after this one request, and the
    files after it are not sent. *)
Theorem upload_error_status_not_retried (C : Collaborators) (token img : string)
  (rest : list string) (w : World) :
  let r := server C (upload_request token img :: sent w) in
  ok_status r = false ->
  upload_image C token (img :: rest) w =
    (Raise (HTTPError (status_code r)),
     mkWorld (upload_request token img :: sent w) (dumps w) (stdout w)).
Proof.
  intros r Hstatus. unfold ok_status in Hstatus.
  apply negb_false_iff in Hstatus.
  unfold upload_image. cbn [upload_files seq upload_tries].
  erewrite bind_Raise; [reflexivity|].
  erewrite bind_Raise; [reflexivity|].
  run_with (apply session_post_run). fold (upload_request token img). fold r.
  erewrite bind_Raise; [reflexivity|].
  unfold raise_for_status. now rewrite Hstatus.
Qed.

(** X5.  An answer that is JSON but not an object is not retried either:
    reading [thumbnailUrl] from it is a [TypeError], which the loop does
    not catch, so the call ends after this one request. *)
Theorem upload_json_not_object (C : Collaborators) (token img : string)
  (rest : list string) (w : World) (tree : value) :
  let r := server C (upload_request token img :: sent w) in
  ok_status r = true ->
  json_loads C (text r) = Some tree ->
  is_dict tree = false ->
  upload_image C token (img :: rest) w =
    (Raise TypeError,
     mkWorld (upload_request token img :: sent w) (dumps w) (stdout w)).
Proof.
  intros r Hstatus Hjson Htree.
  unfold upload_image. cbn [upload_files seq upload_tries].
  erewrite bind_Raise; [reflexivity|].
  erewrite bind_Raise; [reflexivity|].
  run_with (apply session_post_run). fold (upload_request token img). fold r.
  run_with (apply raise_for_status_ok, Hstatus).
  rewrite Hjson. destruct tree; try reflexivity. discriminate Htree.
Qed.

Lemma upload_error_status_not_retried_witness :
  upload_image (Mock.collaborators unavailable) "up-1" ["img-a"; "img-b"] Mock.fresh
  = (Raise (HTTPError 503), mkWorld [upload_request "up-1" "img-a"] [] []).
Proof.
  apply (upload_error_status_not_retried (Mock.collaborators unavailable)
           "up-1" "img-a" ["img-b"] Mock.fresh).
  reflexivity.
Defined.

Lemma upload_json_not_object_witness :
  upload_image (Mock.collaborators (answering "[1, 2]")) "up-1"
    ["img-a"; "img-b"] Mock.fresh
  = (Raise TypeError, mkWorld [upload_request "up-1" "img-a"] [] []).
Proof.
  apply (upload_json_not_object (Mock.collaborators (answering "[1, 2]"))
           "up-1" "img-a" ["img-b"] Mock.fresh (VList [VInt 1; VInt 2]));
    vm_compute; reflexivity.
Defined.

(** ** get_all_ads: what goes wrong *)

(** X6.  When the answer to the ads request cannot be used, [get_all_ads]
    stops there: an error status gives the [HTTPError] of that status,
    a body that is not JSON a [ValueError], JSON with no [ads] key a
    [KeyError]; in each case the ads request is the only request made. *)
Theorem get_all_ads_bad_answer (C : Collaborators) (w : World) :
  let r := server C (ads_request :: sent w) in
  let w1 := mkWorld (ads_request :: sent w) (dumps w) (stdout w) in
  (ok_status r = false ->
   get_all_ads C w = (Raise (HTTPError (status_code r)), w1))
  /\ (ok_status r = true -> json_loads C (text r) = None ->
      get_all_ads C w = (Raise ValueError, w1))
  /\ (forall d, ok_status r = true -> json_loads C (text r) = Some (VDict d) ->
                dict_get d "ads" = None ->
                get_all_ads C w = (Raise (KeyError "ads"), w1)).
Proof.
  intros r w1. refine (conj _ (conj _ _)).
  - intros Hstatus. unfold ok_status in Hstatus. apply negb_false_iff in Hstatus.
    unfold get_all_ads. run_with (apply session_get_run).
    fold ads_request. fold r. fold w1.
    erewrite bind_Raise; [reflexivity|].
    unfold raise_for_status. now rewrite Hstatus.
  - intros Hstatus Hjson. unfold get_all_ads. run_with (apply session_get_run).
    fold ads_request. fold r. fold w1.
    run_with (apply raise_for_status_ok, Hstatus).
    rewrite Hjson. reflexivity.
  - intros d Hstatus Hjson Hads. unfold get_all_ads.
    run_with (apply session_get_run).
    fold ads_request. fold r. fold w1.
    run_with (apply raise_for_status_ok, Hstatus).
    rewrite Hjson. run_with reflexivity.
    cbn [getitem]. rewrite Hads. reflexivity.
Qed.

Lemma get_all_ads_bad_answer_witness :
  get_all_ads (Mock.collaborators unavailable) Mock.fresh
    = (Raise (HTTPError 503), mkWorld [ads_request] [] [])
  /\ get_all_ads (Mock.collaborators (answering "<html>Sign in</html>")) Mock.fresh
     = (Raise ValueError, mkWorld [ads_request] [] [])
  /\ get_all_ads (Mock.collaborators (answering "{}")) Mock.fresh
     = (Raise (KeyError "ads"), mkWorld [ads_request] [] []).
Proof.
  refine (conj _ (conj _ _)).
  - apply (proj1 (get_all_ads_bad_answer (Mock.collaborators unavailable)
                    Mock.fresh)).
    reflexivity.
  - apply (proj1 (proj2 (get_all_ads_bad_answer
                           (Mock.collaborators (answering "<html>Sign in</html>"))
                           Mock.fresh))); vm_compute; reflexivity.
  - apply (proj2 (proj2 (get_all_ads_bad_answer
                           (Mock.collaborators (answering "{}")) Mock.fresh))
             []); vm_compute; reflexivity.
Defined.

Lemma add_ranks_unknown (pre post : dict value) k r :
  forall ads,
  (forall k', In k' (dict_keys pre) -> In k' (dict_keys ads)) ->
  ~ In k (dict_keys ads) ->
  Forall has_id (dict_values ads) ->
  add_ranks (pre ++ (k, r) :: post) (VDict ads) = Raise (KeyError k).
Proof.
  induction pre as [|[k0 r0] pre IH]; intros ads Hsub Hk Hid.
  - cbn [app add_ranks getitem]. now rewrite (dict_get_not_key _ _ Hk).
  - destruct (dict_get_In_key ads k0) as [ad Hget]; [apply Hsub; now left|].
    pose proof (dict_get_In_value _ _ _ Hget) as Hin.
    assert (Hk0 : In k0 (dict_keys ads)) by (apply Hsub; now left).
    pose proof Hid as Hid'. rewrite Forall_forall in Hid'.
    destruct (Hid' _ Hin) as (record & i & -> & Hi).
    cbn [app add_ranks getitem setitem]. rewrite Hget. cbn [add_ranks setitem].
    apply IH.
    + intros k' Hk'. rewrite dict_set_keys by exact Hk0. apply Hsub. now right.
    + now rewrite dict_set_keys.
    + apply dict_set_values; [exact Hid|].
      exists (dict_set record "rank" r0), i. split; [reflexivity|].
      rewrite dict_get_set_other; [exact Hi | discriminate].
Qed.

(** X7.  A rank for an id that is not a key of the ad map ends
    [get_all_ads] with a [KeyError] on that id, after the ranks request has
    been made: no list of ads is returned, though the ads answer was good. *)
Theorem get_all_ads_unknown_rank (C : Collaborators) (w : World)
  (ads_json ranks_json : value) (ads pre post : dict value) (k : string) (r : value) :
  let history := ranks_request (ids_query ads) :: ads_request :: sent w in
  ok_status (server C (ads_request :: sent w)) = true ->
  json_loads C (text (server C (ads_request :: sent w))) = Some ads_json ->
  getitem ads_json "ads" = Ok (VDict ads) ->
  ads <> [] ->
  Forall has_id (dict_values ads) ->
  ok_status (server C history) = true ->
  json_loads C (text (server C history)) = Some ranks_json ->
  getitem ranks_json "ranks" = Ok (VDict (pre ++ (k, r) :: post)) ->
  (forall k', In k' (dict_keys pre) -> In k' (dict_keys ads)) ->
  ~ In k (dict_keys ads) ->
  get_all_ads C w = (Raise (KeyError k), mkWorld history (dumps w) (stdout w)).
Proof.
  intros history Hstatus Hjson Hads Hne Hid Hstatus2 Hjson2 Hranks Hsub Hk.
  unfold get_all_ads.
  run_with (apply session_get_run). fold ads_request.
  run_with (apply raise_for_status_ok; exact Hstatus).
  rewrite Hjson. run_with reflexivity.
  rewrite Hads. run_with reflexivity.
  assert (Htrue : truthy (VDict ads) = true) by (now destruct ads).
  rewrite Htrue. cbn [values_of].
  erewrite bind_Raise; [reflexivity|].
  rewrite ?bind_assoc. run_with reflexivity.
  rewrite (ids_params_spec _ Hid). fold (ids_query ads).
  rewrite ?bind_assoc. run_with reflexivity.
  rewrite ?bind_assoc. run_with (apply session_get_run).
  fold (ranks_request (ids_query ads)). cbn [sent dumps stdout]. fold history.
  rewrite ?bind_assoc. run_with (apply raise_for_status_ok; exact Hstatus2).
  rewrite Hjson2. rewrite ?bind_assoc. run_with reflexivity.
  rewrite Hranks. rewrite ?bind_assoc. run_with reflexivity.
  cbn [items_of]. rewrite ?bind_assoc. run_with reflexivity.
  rewrite (add_ranks_unknown _ _ _ _ _ Hsub Hk Hid).
  reflexivity.
Qed.

Lemma get_all_ads_unknown_rank_witness :
  get_all_ads (Mock.collaborators stale_ranks_site) Mock.fresh
  = (Raise (KeyError "99"),
     mkWorld [ranks_request (ids_query listed_ads); ads_request] [] []).
Proof.
  apply (get_all_ads_unknown_rank (Mock.collaborators stale_ranks_site) Mock.fresh
           (VDict [("ads", VDict listed_ads)])
           (VDict [("ranks", VDict [("11", VInt 1); ("99", VInt 4); ("12", VInt 2)])])
           listed_ads [("11", VInt 1)] [("12", VInt 2)] "99" (VInt 4));
    try (vm_compute; reflexivity).
  - discriminate.
  - repeat constructor; do 2 eexists; split; reflexivity.
  - simpl. intuition.
  - simpl. intuition discriminate.
Defined.

(** ** login, delete_ad and get_xsrf_token *)

Lemma get_kj_data_loop_sent (C : Collaborators) html scripts w :
  sent (snd (get_kj_data_loop C html scripts w)) = sent w.
Proof.
  induction scripts as [|s scripts IH]; simpl.
  - destruct (@raise_KijijiApiException_run C value
                "'__data' JSON object not found in html text." (Some html) w)
      as (path & fs & ->). reflexivity.
  - destruct (tag_string s) as [txt|]; [|reflexivity].
    destruct (Re.search _ _); [|exact IH].
    destruct (json_loads C _); reflexivity.
Qed.

(** X8.  [login] sends the credentials only after both scrapes of the
    login page have succeeded: when the hidden token, the data of the
    page, its [config] or the [targetUrl] is missing, the exception of that
    step leaves [login] and the request for the login page is the only
    request made. *)
Theorem login_posts_after_scraping (C : Collaborators) (username password : string)
  (w : World) :
  let w1 := mkWorld (login_page_request :: sent w) (dumps w) (stdout w) in
  let page := text (server C (login_page_request :: sent w)) in
  (forall e w', get_token C page "ca.kijiji.xsrf.token" w1 = (Raise e, w') ->
     login C username password w = (Raise e, w') /\
     sent w' = login_page_request :: sent w)
  /\ (forall token e w',
        get_token C page "ca.kijiji.xsrf.token" w1 = (Ok token, w1) ->
        get_kj_data C page w1 = (Raise e, w') ->
        login C username password w = (Raise e, w') /\
        sent w' = login_page_request :: sent w)
  /\ (forall token kj e,
        get_token C page "ca.kijiji.xsrf.token" w1 = (Ok token, w1) ->
        get_kj_data C page w1 = (Ok kj, w1) ->
        getitem kj "config" = Raise e ->
        login C username password w = (Raise e, w1))
  /\ (forall token kj config e,
        get_token C page "ca.kijiji.xsrf.token" w1 = (Ok token, w1) ->
        get_kj_data C page w1 = (Ok kj, w1) ->
        getitem kj "config" = Ok config ->
        getitem config "targetUrl" = Raise e ->
        login C username password w = (Raise e, w1)).
Proof.
  intros w1 page. refine (conj _ (conj _ (conj _ _))).
  - intros e w' Htoken. split.
    + unfold login. run_with (apply session_get_run).
      fold login_page_request. fold page. fold w1.
      now rewrite (bind_Raise _ _ _ _ _ Htoken).
    + now destruct (get_token_Raise _ _ _ _ _ _ Htoken eq_refl) as [-> _].
  - intros token e w' Htoken Hkj. split.
    + unfold login. run_with (apply session_get_run).
      fold login_page_request. fold page. fold w1.
      run_with (exact Htoken).
      now rewrite (bind_Raise _ _ _ _ _ Hkj).
    + pose proof (get_kj_data_loop_sent C page
                    (find_inline_scripts (BeautifulSoup C page)) w1) as Hs.
      fold (get_kj_data C page w1) in Hs. now rewrite Hkj in Hs.
  - intros token kj e Htoken Hkj Hconfig.
    unfold login. run_with (apply session_get_run).
    fold login_page_request. fold page. fold w1.
    run_with (exact Htoken). run_with (exact Hkj).
    rewrite Hconfig. reflexivity.
  - intros token kj config e Htoken Hkj Hconfig Htarget.
    unfold login. run_with (apply session_get_run).
    fold login_page_request. fold page. fold w1.
    run_with (exact Htoken). run_with (exact Hkj).
    rewrite Hconfig. run_with reflexivity.
    rewrite Htarget. reflexivity.
Qed.

Lemma login_posts_after_scraping_witness :
  fst (login (Mock.collaborators (answering login_page_no_token))
         "user" "secret" Mock.fresh)
    = Raise (KijijiApiException (token_not_found "ca.kijiji.xsrf.token")
               "kijijiapi_dump_20240101T120000.txt")
  /\ sent (snd (login (Mock.collaborators (answering login_page_no_token))
                  "user" "secret" Mock.fresh))
     = [login_page_request]
  /\ login (Mock.collaborators
              (answering (hidden_input "ca.kijiji.xsrf.token" "x-1"
                          ++ "<script>window.__data={};</script>")%string))
       "user" "secret" Mock.fresh
     = (Raise (KeyError "config"), mkWorld [login_page_request] [] []).
Proof.
  refine (conj _ (conj _ _)).
  - destruct (proj1 (login_posts_after_scraping
                       (Mock.collaborators (answering login_page_no_token))
                       "user" "secret" Mock.fresh)
                _ _ ltac:(vm_compute; reflexivity)) as [-> _].
    reflexivity.
  - destruct (proj1 (login_posts_after_scraping
                       (Mock.collaborators (answering login_page_no_token))
                       "user" "secret" Mock.fresh)
                _ _ ltac:(vm_compute; reflexivity)) as [-> _].
    reflexivity.
  - apply (proj1 (proj2 (proj2 (login_posts_after_scraping _ "user" "secret"
                                  Mock.fresh)))
             "x-1" (VDict [])); vm_compute; reflexivity.
Defined.

Lemma get_xsrf_token_loop_Ok (C : Collaborators) html scripts w v w' :
  get_xsrf_token_loop C html scripts w = (Ok v, w') -> w' = w.
Proof.
  induction scripts as [|s scripts IH]; simpl.
  - destruct (@raise_KijijiApiException_run C value
                "XSRF token not found in html text." (Some html) w)
      as (path & fs & ->). discriminate.
  - destruct (tag_string s) as [txt|]; [|discriminate].
    destruct (Re.search _ _); [|exact IH].
    destruct (yaml_load C _) as [y|]; [|discriminate].
    unfold of_result. now intros [= _ <-].
Qed.

(** X9.  [delete_ad] loads the ads page, and only when a token is scraped
    from it does it post the delete, with the id of the ad and that token:
    when the scrape fails its exception leaves [delete_ad] and no delete is
    sent.  After the post, the call returns when the body of the answer
    holds OK and otherwise raises [KijijiApiException] with the delete
    message; either way the two requests have been made. *)
Theorem delete_ad_steps (C : Collaborators) (ad_id : value) (w : World) :
  let w1 := mkWorld (my_ads_request :: sent w) (dumps w) (stdout w) in
  let page := text (server C (my_ads_request :: sent w)) in
  (forall e w', get_xsrf_token C page w1 = (Raise e, w') ->
     delete_ad C ad_id w = (Raise e, w') /\ sent w' = my_ads_request :: sent w)
  /\ (forall token w', get_xsrf_token C page w1 = (Ok token, w') ->
        let history := delete_request ad_id token :: my_ads_request :: sent w in
        let body := text (server C history) in
        (contains "OK" body = true ->
           delete_ad C ad_id w = (Ok tt, mkWorld history (dumps w) (stdout w)))
        /\ (contains "OK" body = false ->
              exists path files,
                delete_ad C ad_id w =
                (Raise (KijijiApiException "Could not delete ad." path),
                 mkWorld history files (stdout w)))).
Proof.
  intros w1 page. split.
  - intros e w' Htoken. split.
    + unfold delete_ad. run_with (apply session_get_run).
      fold my_ads_request. fold page. fold w1.
      now rewrite (bind_Raise _ _ _ _ _ Htoken).
    + pose proof (get_xsrf_token_loop_sent C page
                    (find_inline_scripts (BeautifulSoup C page)) w1) as Hs.
      fold (get_xsrf_token C page w1) in Hs. now rewrite Htoken in Hs.
  - intros token w' Htoken history body.
    pose proof (get_xsrf_token_loop_Ok _ _ _ _ _ _ Htoken) as ->.
    assert (Hrun : delete_ad C ad_id w =
                   (if negb (contains "OK" body)
                    then raise_KijijiApiException C "Could not delete ad." (Some body)
                    else ret tt) (mkWorld history (dumps w) (stdout w))).
    { unfold delete_ad. run_with (apply session_get_run).
      fold my_ads_request. fold page. fold w1.
      run_with (exact Htoken). run_with (apply session_post_run).
      reflexivity. }
    rewrite Hrun. split; intros ->; cbn [negb].
    + reflexivity.
    + apply (raise_KijijiApiException_run C (A := unit)
               "Could not delete ad." (Some body)
               (mkWorld history (dumps w) (stdout w))).
Qed.

Lemma delete_ad_steps_witness :
  delete_ad kijiji (VInt 11) Mock.fresh
    = (Ok tt, mkWorld [delete_request (VInt 11) (VStr "d-1"); my_ads_request] [] [])
  /\ (exists path files,
        delete_ad (Mock.collaborators site_refusing_delete) (VInt 11) Mock.fresh
        = (Raise (KijijiApiException "Could not delete ad." path),
           mkWorld [delete_request (VInt 11) (VStr "d-1"); my_ads_request]
             files []))
  /\ sent (snd (delete_ad (Mock.collaborators (answering signed_out_page))
                  (VInt 11) Mock.fresh))
     = [my_ads_request].
Proof.
  refine (conj _ (conj _ _)).
  - apply (proj1 (proj2 (delete_ad_steps kijiji (VInt 11) Mock.fresh)
                    (VStr "d-1") _ ltac:(vm_compute; reflexivity))).
    vm_compute. reflexivity.
  - apply (proj2 (proj2 (delete_ad_steps (Mock.collaborators site_refusing_delete)
                           (VInt 11) Mock.fresh)
                    (VStr "d-1") _ ltac:(vm_compute; reflexivity))).
    vm_compute. reflexivity.
  - destruct (proj1 (delete_ad_steps (Mock.collaborators (answering signed_out_page))
                       (VInt 11) Mock.fresh)
                _ _ ltac:(vm_compute; reflexivity)) as [-> _].
    reflexivity.
Defined.

Lemma delete_matching_skip (C : Collaborators) title pre rest w :
  Forall titled pre ->
  Forall (fun ad => title_matches title ad = false) pre ->
  delete_matching C title (pre ++ rest) w = delete_matching C title rest w.
Proof.
  intros Ht. revert w.
  induction Ht as [|ad pre (d & t & i & -> & Htitle & Hi) _ IH]; intros w Hno.
  - reflexivity.
  - inversion Hno as [|? ? Hm Hno']; subst.
    unfold title_matches in Hm. cbn [getitem] in Hm. rewrite Htitle in Hm.
    cbn [app delete_matching getitem]. rewrite Htitle.
    run_with reflexivity. cbn [strip_of]. run_with reflexivity.
    rewrite Hm. run_with reflexivity. now apply IH.
Qed.

(** X10.  A delete that fails ends [delete_ad_using_title]: when the first
    ad whose title matches cannot be deleted, the exception of [delete_ad]
    leaves the call in the state that delete left, and the ads listed after
    it are neither examined nor deleted. *)
Theorem delete_stops_at_first_failure (C : Collaborators) (title : string)
  (w w1 w' : World) (pre rest : list value) (ad : value) (e : exn) :
  get_all_ads C w = (Ok (pre ++ ad :: rest), w1) ->
  Forall titled pre ->
  Forall (fun a => title_matches title a = false) pre ->
  titled ad ->
  title_matches title ad = true ->
  delete_ad C (id_of ad) w1 = (Raise e, w') ->
  delete_ad_using_title C title w = (Raise e, w').
Proof.
  intros Hget Hpre Hno (d & t & i & -> & Htitle & Hi) Hm Hdel.
  unfold delete_ad_using_title. run_with (exact Hget).
  rewrite (delete_matching_skip _ _ _ _ _ Hpre Hno).
  unfold title_matches in Hm. cbn [getitem] in Hm. rewrite Htitle in Hm.
  unfold id_of in Hdel. cbn [getitem] in Hdel. rewrite Hi in Hdel.
  cbn [delete_matching getitem]. rewrite Htitle.
  run_with reflexivity. cbn [strip_of]. run_with reflexivity.
  rewrite Hm, Hi. erewrite bind_Raise; [reflexivity|].
  run_with reflexivity. exact Hdel.
Qed.

Lemma delete_stops_at_first_failure_witness :
  fst (delete_ad_using_title (Mock.collaborators site_refusing_delete) "Foo"
         Mock.fresh)
    = Raise (KijijiApiException "Could not delete ad."
               "kijijiapi_dump_20240101T120000.txt")
  /\ deleted (sent (snd (delete_ad_using_title
                           (Mock.collaborators site_refusing_delete) "Foo"
                           Mock.fresh)))
     = [VStr (delete_ads_field (VInt 11))].
Proof.
  pose proof (delete_stops_at_first_failure
                (Mock.collaborators site_refusing_delete) "Foo" Mock.fresh
                (snd (get_all_ads (Mock.collaborators site_refusing_delete)
                        Mock.fresh))
                (snd (delete_ad (Mock.collaborators site_refusing_delete) (VInt 11)
                        (snd (get_all_ads (Mock.collaborators site_refusing_delete)
                                Mock.fresh))))
                []
                (skipn 1 (map (with_rank listed_ranks) listed_ads))
                (VDict [("id", VInt 11); ("title", VStr "Foo"); ("rank", VInt 1)])
                (KijijiApiException "Could not delete ad."
                   "kijijiapi_dump_20240101T120000.txt")
                ltac:(vm_compute; reflexivity)
                (Forall_nil _) (Forall_nil _)
                ltac:(do 3 eexists; split; [reflexivity | split; reflexivity])
                ltac:(vm_compute; reflexivity)
                ltac:(vm_compute; reflexivity)) as Hrun.
  rewrite Hrun. split; [reflexivity | vm_compute; reflexivity].
Defined.

(** ** get_xsrf_token *)

Lemma get_xsrf_token_loop_first (C : Collaborators) html pre s post txt w :
  Forall unmatched_config pre ->
  tag_string s = Some txt ->
  get_xsrf_token_loop C html (pre ++ s :: post) w =
  match Re.search (Re.compile xsrf_pattern) (replace nl EmptyString txt) with
  | Some g =>
      match yaml_load C g with
      | Some v => (getitem v "token", w)
      | None => (Raise YAMLError, w)
      end
  | None => get_xsrf_token_loop C html post w
  end.
Proof.
  intros Hpre Hs.
  induction Hpre as [|u pre [t [Hu Hno]] _ IH]; simpl.
  - rewrite Hs. destruct (Re.search _ _); [|reflexivity].
    destruct (yaml_load C _); reflexivity.
  - now rewrite Hu, Hno.
Qed.

(** X11.  [get_xsrf_token] reads the inline scripts in document order and
    stops at the first whose text, newlines removed, the configuration
    pattern matches: it returns the [token] of what [yaml.load] makes of
    the group, and ends with a [KeyError] when that has no [token]; later
    scripts are not read.  An inline script with no text before any match
    ends the call with an [AttributeError], and a page where no inline
    script matches with [KijijiApiException] and no request. *)
Theorem get_xsrf_token_first_match (C : Collaborators) (html : string) (w : World) :
  (forall pre s post txt g d,
      find_inline_scripts (BeautifulSoup C html) = pre ++ s :: post ->
      Forall unmatched_config pre ->
      tag_string s = Some txt ->
      Re.search (Re.compile xsrf_pattern) (replace nl EmptyString txt) = Some g ->
      yaml_load C g = Some (VDict d) ->
      get_xsrf_token C html w =
        (match dict_get d "token" with
         | Some token => Ok token
         | None => Raise (KeyError "token")
         end, w))
  /\ (forall pre s post,
      find_inline_scripts (BeautifulSoup C html) = pre ++ s :: post ->
      Forall unmatched_config pre ->
      tag_string s = None ->
      get_xsrf_token C html w = (Raise AttributeError, w))
  /\ (Forall unmatched_config (find_inline_scripts (BeautifulSoup C html)) ->
      exists path files,
        get_xsrf_token C html w =
        (Raise (KijijiApiException "XSRF token not found in html text." path),
         mkWorld (sent w) files (stdout w))).
Proof.
  refine (conj _ (conj _ _)).
  - intros pre s post txt g d Hscripts Hpre Hs Hg Hyaml.
    unfold get_xsrf_token. rewrite Hscripts.
    rewrite (get_xsrf_token_loop_first _ _ _ _ _ _ _ Hpre Hs), Hg, Hyaml.
    cbn [getitem]. now destruct (dict_get d "token").
  - intros pre s post Hscripts Hpre Hs.
    unfold get_xsrf_token. rewrite Hscripts. clear Hscripts.
    induction Hpre as [|u pre [t [Hu Hno]] _ IH]; simpl.
    + now rewrite Hs.
    + now rewrite Hu, Hno.
  - intros Hnone. unfold get_xsrf_token.
    induction Hnone as [|u scripts [t [Hu Hno]] _ IH]; simpl.
    + apply raise_KijijiApiException_run.
    + now rewrite Hu, Hno.
Qed.

Lemma get_xsrf_token_first_match_witness :
  get_xsrf_token kijiji my_ads_page Mock.fresh = (Ok (VStr "d-1"), Mock.fresh)
  /\ get_xsrf_token kijiji
       ("<script>var a = 1;</script><script></script>"
        ++ "<script>Zoop.init({config: {token: 'd-1'}});</script>")%string
       Mock.fresh
     = (Raise AttributeError, Mock.fresh)
  /\ exists path files,
       get_xsrf_token kijiji login_page Mock.fresh
       = (Raise (KijijiApiException "XSRF token not found in html text." path),
          mkWorld (sent Mock.fresh) files (stdout Mock.fresh)).
Proof.
  refine (conj _ (conj _ _)).
  - refine (proj1 (get_xsrf_token_first_match kijiji my_ads_page Mock.fresh)
              [] _ [] _ "{token: 'd-1'}" [("token", VStr "d-1")] _ _ _ _ _);
      try (vm_compute; reflexivity). constructor.
  - refine (proj1 (proj2 (get_xsrf_token_first_match kijiji _ Mock.fresh))
              [mkTag "script" [] (Some "var a = 1;")] _
              [mkTag "script" [] (Some "Zoop.init({config: {token: 'd-1'}});")]
              _ _ _); try (vm_compute; reflexivity).
    repeat constructor. eexists. split; [reflexivity | vm_compute; reflexivity].
  - refine (proj2 (proj2 (get_xsrf_token_first_match kijiji login_page Mock.fresh))
              _).
    vm_compute. repeat constructor.
    eexists. split; [reflexivity | vm_compute; reflexivity].
Defined.

(** ** post_ad_using_data: failures and what stays untouched *)

Lemma frame_set (d0 d : dict string) k v :
  written_key k = true ->
  (forall k', written_key k' = false -> dict_get d k' = dict_get d0 k') ->
  forall k', written_key k' = false -> dict_get (dict_set d k v) k' = dict_get d0 k'.
Proof.
  intros Hk Hd k' Hk'. rewrite dict_get_set_other; [now apply Hd|].
  intros ->. congruence.
Qed.

Lemma post_ad_prepare_frame (C : Collaborators) image_files data w r d' w' :
  post_ad_prepare C image_files (data, w) = (r, (d', w')) ->
  forall k, written_key k = false -> dict_get d' k = dict_get data k.
Proof.
  intros Hrun. unfold post_ad_prepare in Hrun.
  erewrite bind_Ok in Hrun by (apply lift_Ok, session_get_run).
  set (page := text (server C (mkRequest GET post_ad_page_url [] [] [] [] :: sent w)))
    in Hrun.
  set (w1 := mkWorld _ _ _) in Hrun.
  destruct (Re.search (Re.compile upload_token_pattern) page) as [tok|].
  2:{ destruct (@raise_KijijiApiException_run C string
                  "'initialXsrfToken' not found in html text." (Some page) w1)
        as (p & fs & E).
      erewrite bind_Raise in Hrun by (apply lift_Raise, E).
      now injection Hrun as _ <- _. }
  erewrite bind_Ok in Hrun by reflexivity.
  destruct (upload_image C tok image_files w1) as [[urls|e] w2] eqn:Eup.
  2:{ erewrite bind_Raise in Hrun by (apply lift_Raise, Eup).
      now injection Hrun as _ <- _. }
  erewrite bind_Ok in Hrun by (apply lift_Ok, Eup).
  destruct (join "," urls) as [images|e].
  2:{ erewrite bind_Raise in Hrun by reflexivity. now injection Hrun as _ <- _. }
  erewrite bind_Ok in Hrun by reflexivity.
  erewrite bind_Ok in Hrun by reflexivity.
  cbn [fst snd] in Hrun.
  assert (F1 : forall k, written_key k = false ->
                         dict_get (dict_set data "images" images) k = dict_get data k)
    by (apply frame_set; [reflexivity | reflexivity]).
  destruct (get_token C page "ca.kijiji.xsrf.token" w2) as [[token|e] w3] eqn:Et1.
  2:{ erewrite bind_Raise in Hrun by (apply lift_Raise, Et1).
      now injection Hrun as _ <- _. }
  erewrite bind_Ok in Hrun by (apply lift_Ok, Et1).
  erewrite bind_Ok in Hrun by reflexivity.
  cbn [fst snd] in Hrun.
  pose proof (frame_set data _ "ca.kijiji.xsrf.token" token eq_refl F1) as F2.
  destruct (get_token C page "postAdForm.fraudToken" w3) as [[fraud|e] w4] eqn:Et2.
  2:{ erewrite bind_Raise in Hrun by (apply lift_Raise, Et2).
      now injection Hrun as _ <- _. }
  erewrite bind_Ok in Hrun by (apply lift_Ok, Et2).
  erewrite bind_Ok in Hrun by reflexivity.
  cbn [fst snd] in Hrun.
  pose proof (frame_set data _ "postAdForm.fraudToken" fraud eq_refl F2) as F3.
  unfold bind at 1, data_item at 1 in Hrun. cbn [fst snd] in Hrun.
  destruct (dict_get _ "postAdForm.description") as [description|].
  2:{ now injection Hrun as _ <- _. }
  unfold data_set in Hrun. cbn [fst snd] in Hrun.
  injection Hrun as _ <- _.
  exact (frame_set data _ "postAdForm.description" _ eq_refl F3).
Qed.

(** X12.  Whatever the outcome of [post_ad_using_data], success or any
    exception, the only keys of the caller's dictionary whose value can
    have changed are [images], [ca.kijiji.xsrf.token],
    [postAdForm.fraudToken] and [postAdForm.description]: every other key,
    the title among them, is looked up as before the call. *)
Theorem post_ad_frame (C : Collaborators) (data : dict string)
  (image_files : list string) (w : World) (k : string) :
  written_key k = false ->
  dict_get (fst (snd (post_ad_using_data C data image_files w))) k
  = dict_get data k.
Proof.
  intros Hk.
  destruct (post_ad_prepare C image_files (data, w)) as [r [d1 w1]] eqn:Hprep.
  pose proof (post_ad_prepare_frame _ _ _ _ _ _ _ Hprep k Hk) as Hd1.
  destruct r as [[]|e].
  - rewrite (post_ad_after_prepare _ _ _ _ _ _ Hprep).
    destruct (String.length (title_of data) <? 10)%nat; [exact Hd1|].
    destruct (64 <? String.length (title_of data))%nat; [exact Hd1|].
    destruct (post_ad_submit_sent C d1 w1) as (_ & Hsame & _).
    etransitivity; [|exact Hd1]. f_equal. exact Hsame.
  - unfold post_ad_using_data, post_ad_body.
    rewrite (bind_Raise _ _ _ _ _ Hprep). exact Hd1.
Qed.

Lemma post_ad_frame_witness :
  dict_get (fst (snd (post_ad_using_data kijiji (ad_with title10) ["img-a"]
                        Mock.fresh))) "categoryId" = Some "15"
  /\ dict_get (fst (snd (post_ad_using_data kijiji (ad_with title10) ["img-a"]
                           Mock.fresh))) "postAdForm.title" = Some title10.
Proof.
  split.
  - rewrite (post_ad_frame kijiji (ad_with title10) ["img-a"] Mock.fresh
               "categoryId" eq_refl). reflexivity.
  - rewrite (post_ad_frame kijiji (ad_with title10) ["img-a"] Mock.fresh
               "postAdForm.title" eq_refl). reflexivity.
Defined.

(** X13.  A failure before the first assignment leaves the caller's
    dictionary as it was: when the form page has no upload token the call
    raises [KijijiApiException] after the one request for the form page,
    with nothing uploaded; and when an uploaded URL is not a text the
    [TypeError] of the join leaves the call with the dictionary
    unchanged. *)
Theorem post_ad_early_failure_keeps_data (C : Collaborators) (data : dict string)
  (image_files : list string) (w : World) :
  let page := text (server C (form_request :: sent w)) in
  let w1 := mkWorld (form_request :: sent w) (dumps w) (stdout w) in
  (Re.search (Re.compile upload_token_pattern) page = None ->
   exists path files,
     post_ad_using_data C data image_files w =
     (Raise (KijijiApiException "'initialXsrfToken' not found in html text." path),
      (data, mkWorld (form_request :: sent w) files (stdout w))))
  /\ (forall tok urls w2,
        Re.search (Re.compile upload_token_pattern) page = Some tok ->
        upload_image C tok image_files w1 = (Ok urls, w2) ->
        join "," urls = Raise TypeError ->
        post_ad_using_data C data image_files w = (Raise TypeError, (data, w2))).
Proof.
  intros page w1. split.
  - intros Hnone.
    destruct (@raise_KijijiApiException_run C string
                "'initialXsrfToken' not found in html text." (Some page) w1)
      as (p & fs & E).
    exists p, fs. unfold post_ad_using_data, post_ad_body, post_ad_prepare.
    erewrite bind_Raise; [reflexivity|].
    run_with (apply lift_Ok, session_get_run).
    fold form_request. fold page. fold w1. rewrite Hnone.
    erewrite bind_Raise; [reflexivity|]. apply lift_Raise, E.
  - intros tok urls w2 Htok Hup Hjoin.
    unfold post_ad_using_data, post_ad_body, post_ad_prepare.
    erewrite bind_Raise; [reflexivity|].
    run_with (apply lift_Ok, session_get_run).
    fold form_request. fold page. fold w1. rewrite Htok.
    run_with reflexivity. run_with (apply lift_Ok, Hup).
    rewrite Hjoin. reflexivity.
Qed.

(** X14.  A dictionary with no description makes the call end with a
    [KeyError] on [postAdForm.description], an exception that is not the
    module's own, once the images are uploaded and with [images] and the
    two tokens already written into the dictionary; the ad is not
    submitted. *)
Theorem post_ad_missing_description (C : Collaborators) (data : dict string)
  (image_files : list string) (w w2 : World) (tok images token fraud : string)
  (urls : list value) :
  let page := text (server C (form_request :: sent w)) in
  let w1 := mkWorld (form_request :: sent w) (dumps w) (stdout w) in
  Re.search (Re.compile upload_token_pattern) page = Some tok ->
  upload_image C tok image_files w1 = (Ok urls, w2) ->
  join "," urls = Ok images ->
  get_token C page "ca.kijiji.xsrf.token" w2 = (Ok token, w2) ->
  get_token C page "postAdForm.fraudToken" w2 = (Ok fraud, w2) ->
  dict_get data "postAdForm.description" = None ->
  post_ad_using_data C data image_files w =
    (Raise (KeyError "postAdForm.description"),
     (dict_set (dict_set (dict_set data "images" images)
                  "ca.kijiji.xsrf.token" token)
        "postAdForm.fraudToken" fraud,
      w2)).
Proof.
  intros page w1 Htok Hup Hjoin Ht1 Ht2 Hdesc.
  unfold post_ad_using_data, post_ad_body, post_ad_prepare.
  erewrite bind_Raise; [reflexivity|].
  run_with (apply lift_Ok, session_get_run).
  fold form_request. fold page. fold w1. rewrite Htok.
  run_with reflexivity. run_with (apply lift_Ok, Hup).
  rewrite Hjoin. run_with reflexivity. run_with reflexivity. cbn [fst snd].
  run_with (apply lift_Ok, Ht1). run_with reflexivity. cbn [fst snd].
  run_with (apply lift_Ok, Ht2). run_with reflexivity. cbn [fst snd].
  erewrite bind_Raise; [reflexivity|].
  unfold data_item. cbn [fst snd].
  rewrite !dict_get_set_other by discriminate. now rewrite Hdesc.
Qed.

Lemma post_ad_early_failure_keeps_data_witness :
  (exists path files,
      post_ad_using_data (Mock.collaborators (answering form_page_no_upload_token))
        (ad_with title10) ["img-a"] Mock.fresh =
      (Raise (KijijiApiException "'initialXsrfToken' not found in html text." path),
       (ad_with title10, mkWorld (form_request :: sent Mock.fresh) files
                           (stdout Mock.fresh))))
  /\ fst (snd (post_ad_using_data (Mock.collaborators site_numeric_url)
                 (ad_with title10) ["img-a"] Mock.fresh)) = ad_with title10
  /\ fst (post_ad_using_data (Mock.collaborators site_numeric_url)
            (ad_with title10) ["img-a"] Mock.fresh) = Raise TypeError.
Proof.
  refine (conj _ _).
  - apply (proj1 (post_ad_early_failure_keeps_data
                    (Mock.collaborators (answering form_page_no_upload_token))
                    (ad_with title10) ["img-a"] Mock.fresh)).
    vm_compute. reflexivity.
  - rewrite (proj2 (post_ad_early_failure_keeps_data
                      (Mock.collaborators site_numeric_url)
                      (ad_with title10) ["img-a"] Mock.fresh)
               "up-1" [VInt 5]
               (snd (upload_image (Mock.collaborators site_numeric_url) "up-1"
                       ["img-a"]
                       (mkWorld (form_request :: sent Mock.fresh)
                          (dumps Mock.fresh) (stdout Mock.fresh))))
               ltac:(vm_compute; reflexivity)
               ltac:(vm_compute; reflexivity)
               ltac:(vm_compute; reflexivity)).
    split; reflexivity.
Defined.

Lemma post_ad_missing_description_witness :
  fst (post_ad_using_data kijiji ad_without_description ["img-a"] Mock.fresh)
    = Raise (KeyError "postAdForm.description")
  /\ fst (snd (post_ad_using_data kijiji ad_without_description ["img-a"]
                 Mock.fresh))
     = [ ("postAdForm.title", "0123456789"); ("categoryId", "15");
         ("images", "https://i.ebayimg.com/a.jpg");
         ("ca.kijiji.xsrf.token", "x-2"); ("postAdForm.fraudToken", "f-1") ]
  /\ sent (snd (snd (post_ad_using_data kijiji ad_without_description ["img-a"]
                       Mock.fresh)))
     = [upload_request "up-1" "img-a"; form_request].
Proof.
  rewrite (post_ad_missing_description kijiji ad_without_description ["img-a"]
             Mock.fresh
             (snd (upload_image kijiji "up-1" ["img-a"]
                     (mkWorld (form_request :: sent Mock.fresh)
                        (dumps Mock.fresh) (stdout Mock.fresh))))
             "up-1" "https://i.ebayimg.com/a.jpg" "x-2" "f-1"
             [VStr "https://i.ebayimg.com/a.jpg"]
             ltac:(vm_compute; reflexivity) ltac:(vm_compute; reflexivity)
             ltac:(vm_compute; reflexivity) ltac:(vm_compute; reflexivity)
             ltac:(vm_compute; reflexivity) ltac:(vm_compute; reflexivity)).
  refine (conj _ (conj _ _)); vm_compute; reflexivity.
Defined.

Lemma contains_nonempty sub s :
  sub <> EmptyString -> contains sub s = true -> s <> EmptyString.
Proof.
  intros Hsub H ->. simpl in H. destruct sub; [now elim Hsub | discriminate].
Qed.

(** X15.  After the submission, an error status gives the [HTTPError] of
    that status even when the body carries the marker of success; with a
    good status and no marker of success the call raises
    [KijijiApiException]: with the banned message, the body dumped and the
    dump file named, when the body holds the sentence about Customer
    Service, and with the plain message otherwise.  In each case the
    submission was the last request and the dictionary is the one
    submitted. *)
Theorem post_ad_refused (C : Collaborators) (data : dict string)
  (image_files : list string) (w : World) (d' : dict string) (w' : World) :
  post_ad_prepare C image_files (data, w) = (Ok tt, (d', w')) ->
  10 <= String.length (title_of data) <= 64 ->
  let resp := server C (submit_request d' :: sent w') in
  let history := submit_request d' :: sent w' in
  (ok_status resp = false ->
   post_ad_using_data C data image_files w =
     (Raise (HTTPError (status_code resp)),
      (d', mkWorld history (dumps w') (stdout w'))))
  /\ (ok_status resp = true ->
      contains "Delete Ad?" (text resp) = false ->
      contains banned_marker (text resp) = true ->
      post_ad_using_data C data image_files w =
        (Raise (KijijiApiException "Could not post ad; this user is banned."
                  (dump_path C)),
         (d', mkWorld history
                (append_file (dumps w') (dump_path C) (text resp)) (stdout w'))))
  /\ (ok_status resp = true ->
      contains "Delete Ad?" (text resp) = false ->
      contains banned_marker (text resp) = false ->
      exists path files,
        post_ad_using_data C data image_files w =
          (Raise (KijijiApiException "Could not post ad." path),
           (d', mkWorld history files (stdout w')))).
Proof.
  intros Hprep Hn resp history.
  assert (Hrun : post_ad_using_data C data image_files w = post_ad_submit C (d', w')).
  { rewrite (post_ad_after_prepare _ _ _ _ _ _ Hprep).
    destruct (Nat.ltb_spec (String.length (title_of data)) 10); [lia|].
    destruct (Nat.ltb_spec 64 (String.length (title_of data))); [lia|].
    reflexivity. }
  rewrite Hrun. unfold post_ad_submit.
  refine (conj _ (conj _ _)).
  - intros Hstatus. unfold ok_status in Hstatus. apply negb_false_iff in Hstatus.
    run_with reflexivity. cbn [fst].
    run_with (apply lift_Ok, session_post_run).
    fold (submit_request d'). fold resp.
    erewrite bind_Raise; [reflexivity|].
    apply lift_Raise. unfold raise_for_status. now rewrite Hstatus.
  - intros Hstatus Hmarker Hbanned.
    run_with reflexivity. cbn [fst].
    run_with (apply lift_Ok, session_post_run).
    fold (submit_request d'). fold resp.
    run_with (apply lift_Ok, raise_for_status_ok, Hstatus).
    rewrite Hmarker, Hbanned. cbn [negb].
    erewrite bind_Raise; [reflexivity|].
    apply lift_Raise.
    unfold raise_KijijiApiException, bind, KijijiApiException_init, raise.
    assert (Hbody : text resp <> EmptyString).
    { apply (contains_nonempty banned_marker); [discriminate | exact Hbanned]. }
    destruct (String.eqb_spec (text resp) EmptyString) as [E|_]; [now elim Hbody|].
    reflexivity.
  - intros Hstatus Hmarker Hbanned.
    destruct (@raise_KijijiApiException_run C unit "Could not post ad."
                (Some (text resp)) (mkWorld history (dumps w') (stdout w')))
      as (p & fs & E).
    exists p, fs.
    run_with reflexivity. cbn [fst].
    run_with (apply lift_Ok, session_post_run).
    fold (submit_request d'). fold resp.
    run_with (apply lift_Ok, raise_for_status_ok, Hstatus).
    rewrite Hmarker, Hbanned. cbn [negb].
    erewrite bind_Raise; [reflexivity|].
    apply lift_Raise. exact E.
Qed.

Lemma post_ad_refused_witness :
  fst (post_ad_using_data (Mock.collaborators (site_answering error_answer))
         (ad_with title10) [] Mock.fresh) = Raise (HTTPError 500)
  /\ fst (post_ad_using_data (Mock.collaborators (site_answering banned_answer))
            (ad_with title10) [] Mock.fresh)
     = Raise (KijijiApiException "Could not post ad; this user is banned."
                "kijijiapi_dump_20240101T120000.txt")
  /\ exists path,
       fst (post_ad_using_data (Mock.collaborators (site_answering rejected_answer))
              (ad_with title10) [] Mock.fresh)
       = Raise (KijijiApiException "Could not post ad." path).
Proof.
  refine (conj _ (conj _ _)).
  - rewrite (proj1 (post_ad_refused
                      (Mock.collaborators (site_answering error_answer))
                      (ad_with title10) [] Mock.fresh _ _
                      (example_prepare
                         (Mock.collaborators (site_answering error_answer))
                         (ad_with title10) [] eq_refl)
                      ltac:(vm_compute; lia)) eq_refl).
    reflexivity.
  - rewrite (proj1 (proj2 (post_ad_refused
                      (Mock.collaborators (site_answering banned_answer))
                      (ad_with title10) [] Mock.fresh _ _
                      (example_prepare
                         (Mock.collaborators (site_answering banned_answer))
                         (ad_with title10) [] eq_refl)
                      ltac:(vm_compute; lia))) eq_refl eq_refl eq_refl).
    reflexivity.
  - destruct (proj2 (proj2 (post_ad_refused
                      (Mock.collaborators (site_answering rejected_answer))
                      (ad_with title10) [] Mock.fresh _ _
                      (example_prepare
                         (Mock.collaborators (site_answering rejected_answer))
                         (ad_with title10) [] eq_refl)
                      ltac:(vm_compute; lia))) eq_refl eq_refl eq_refl)
      as (path & files & ->).
    exists path. reflexivity.
Defined.

(** ** The patterns of the scrapers *)

Lemma match_here_literals L r s g g' :
  Re.match_here (literal L ++ r) s g = Some g' ->
  exists s', s = (L ++ s')%string /\ Re.match_here r s' g = Some g'.
Proof.
  revert s. induction L as [|c L IH]; intros s H.
  - exists s. split; [reflexivity | exact H].
  - change (literal (String c L) ++ r)
      with (Re.One (Ascii.eqb c) :: (literal L ++ r)) in H.
    apply match_here_literal in H as (s1 & -> & H).
    destruct (IH _ H) as (s' & -> & H'). exists s'. split; [reflexivity | exact H'].
Qed.

Lemma star_greedy_sound {R} (p : ascii -> bool) (k : string -> option R) s r :
  Re.star_greedy p k s = Some r ->
  exists D rest, s = (D ++ rest)%string /\ all_chars p D = true /\ k rest = Some r.
Proof.
  induction s as [|c s IH]; simpl; intros H.
  - exists EmptyString, EmptyString. repeat split. exact H.
  - destruct (p c) eqn:Hc.
    + destruct (Re.star_greedy p k s) as [r'|] eqn:Hs.
      * injection H as <-. destruct (IH eq_refl) as (D & rest & -> & HD & Hk).
        exists (String c D), rest. simpl. rewrite Hc, HD. repeat split. exact Hk.
      * exists EmptyString, (String c s). repeat split. exact H.
    + exists EmptyString, (String c s). repeat split. exact H.
Qed.

Lemma contains_here sub s : prefix sub s = true -> contains sub s = true.
Proof. intros H. destruct s; cbn [contains]; now rewrite H. Qed.

Lemma contains_later sub c s : contains sub s = true -> contains sub (String c s) = true.
Proof. intros H. cbn [contains]. rewrite H. apply orb_true_r. Qed.

Lemma search_sound r s g (P : string -> string -> Prop) :
  (forall s0 g0, Re.match_here r s0 (Re.mkGroups EmptyString EmptyString) = Some g0 ->
                 exists sub, prefix sub s0 = true /\ P (Re.group1 g0) sub) ->
  Re.search r s = Some g ->
  exists sub, contains sub s = true /\ P g sub.
Proof.
  intros Hhere. induction s as [|c s IH]; cbn [Re.search].
  - destruct (Re.match_here r EmptyString _) as [g0|] eqn:Hm; [|discriminate].
    intros [= <-]. destruct (Hhere _ _ Hm) as (sub & Hp & HP).
    exists sub. split; [now apply contains_here | exact HP].
  - destruct (Re.match_here r (String c s) _) as [g0|] eqn:Hm.
    + intros [= <-]. destruct (Hhere _ _ Hm) as (sub & Hp & HP).
      exists sub. split; [now apply contains_here | exact HP].
    + intros H. destruct (IH H) as (sub & Hc & HP).
      exists sub. split; [now apply contains_later | exact HP].
Qed.

(** X16.  The upload token [post_ad_using_data] takes from the form page is
    never empty and holds no whitespace, and the page holds it between
    single quotes right after [initialXsrfToken: ]. *)
Theorem upload_token_pattern_sound (page token : string) :
  Re.search (Re.compile upload_token_pattern) page = Some token ->
  token <> EmptyString /\
  all_chars Re.nonspace token = true /\
  contains ("initialXsrfToken: '" ++ token ++ "'") page = true.
Proof.
  intros H.
  enough (Hhere : forall s g,
             Re.match_here (Re.compile upload_token_pattern) s
               (Re.mkGroups EmptyString EmptyString) = Some g ->
             exists sub, prefix sub s = true /\
               (Re.group1 g <> EmptyString /\
                all_chars Re.nonspace (Re.group1 g) = true /\
                sub = ("initialXsrfToken: '" ++ Re.group1 g ++ "'")%string)).
  { destruct (search_sound _ _ _
                (fun g sub => g <> EmptyString /\ all_chars Re.nonspace g = true /\
                              sub = ("initialXsrfToken: '" ++ g ++ "'")%string)
                Hhere H) as (sub & Hc & Hne & Hall & ->).
    repeat split; assumption. }
  clear. intros s g Hm.
  change (Re.compile upload_token_pattern)
    with (literal "initialXsrfToken: '"
          ++ [Re.GroupOpen; Re.Plus true Re.nonspace; Re.GroupClose;
              Re.One (Ascii.eqb "'")]) in Hm.
  apply match_here_literals in Hm as (s1 & -> & Hm).
  cbn [Re.match_here Re.g_close] in Hm.
  destruct s1 as [|c s2]; [discriminate|].
  destruct (Re.nonspace c) eqn:Hc; [|discriminate].
  apply star_greedy_sound in Hm as (D & rest & -> & HD & Hk).
  cbn [Re.match_here Re.g_open] in Hk.
  destruct rest as [|q rest]; [discriminate|].
  destruct (Ascii.eqb_spec "'" q) as [<-|_]; [|discriminate].
  injection Hk as <-. unfold Re.group1. cbn [Re.g_open Re.g_close].
  change (String c (D ++ String "'" rest))
    with ((String c D) ++ String "'" rest)%string.
  rewrite take_app_length.
  exists ("initialXsrfToken: '" ++ String c D ++ "'")%string.
  split; [|split; [discriminate | split; [simpl; now rewrite Hc, HD | reflexivity]]].
  replace ("initialXsrfToken: '" ++ String c D ++ String "'" rest)%string
    with (("initialXsrfToken: '" ++ String c D ++ "'") ++ rest)%string.
  - apply prefix_append.
  - rewrite !append_assoc. reflexivity.
Qed.

Lemma upload_token_pattern_sound_witness :
  Re.search (Re.compile upload_token_pattern) form_page = Some "up-1"
  /\ contains "initialXsrfToken: 'up-1'" form_page = true.
Proof.
  assert (H : Re.search (Re.compile upload_token_pattern) form_page = Some "up-1")
    by (vm_compute; reflexivity).
  split; [exact H|].
  exact (proj2 (proj2 (upload_token_pattern_sound form_page "up-1" H))).
Defined.

(** X17.  What [get_kj_data] hands to [json.loads] holds no newline, and
    the script holds it between [__data=] and a semicolon; the dot of
    [window.__data] in the pattern stands for any one character but a
    newline, so the text before [__data=] is [window] and such a
    character, not only a dot. *)
Theorem kj_data_pattern_sound (txt g : string) :
  Re.search (Re.compile kj_data_pattern) txt = Some g ->
  all_chars Re.dot g = true /\
  exists c, Re.dot c = true /\
            contains ("window" ++ one_char c ++ "__data=" ++ g ++ ";") txt = true.
Proof.
  intros H.
  enough (Hhere : forall s g,
             Re.match_here (Re.compile kj_data_pattern) s
               (Re.mkGroups EmptyString EmptyString) = Some g ->
             exists sub, prefix sub s = true /\
               (all_chars Re.dot (Re.group1 g) = true /\
                exists c, Re.dot c = true /\
                  sub = ("window" ++ one_char c ++ "__data=" ++ Re.group1 g
                         ++ ";")%string)).
  { destruct (search_sound _ _ _
                (fun g sub => all_chars Re.dot g = true /\
                   exists c, Re.dot c = true /\
                     sub = ("window" ++ one_char c ++ "__data=" ++ g ++ ";")%string)
                Hhere H) as (sub & Hc & Hall & c & Hdot & ->).
    split; [exact Hall|]. exists c. split; assumption. }
  clear. intros s g Hm.
  change (Re.compile kj_data_pattern)
    with (literal "window"
          ++ (Re.One Re.dot
              :: (literal "__data="
                  ++ [Re.GroupOpen; Re.Star true Re.dot; Re.GroupClose;
                      Re.One (Ascii.eqb ";")]))) in Hm.
  apply match_here_literals in Hm as (s1 & -> & Hm).
  cbn [Re.match_here] in Hm.
  destruct s1 as [|c s2]; [discriminate|].
  destruct (Re.dot c) eqn:Hc; [|discriminate].
  apply match_here_literals in Hm as (s3 & -> & Hm).
  cbn [Re.match_here Re.g_close] in Hm.
  apply star_greedy_sound in Hm as (D & rest & -> & HD & Hk).
  cbn [Re.match_here Re.g_open] in Hk.
  destruct rest as [|q rest]; [discriminate|].
  destruct (Ascii.eqb_spec ";" q) as [<-|_]; [|discriminate].
  injection Hk as <-. unfold Re.group1. cbn [Re.g_open Re.g_close].
  rewrite take_app_length.
  exists ("window" ++ one_char c ++ "__data=" ++ D ++ ";")%string.
  split; [|split; [exact HD | exists c; split; [exact Hc | reflexivity]]].
  replace ("window" ++ String c ("__data=" ++ D ++ String ";" rest))%string
    with (("window" ++ one_char c ++ "__data=" ++ D ++ ";") ++ rest)%string.
  - apply prefix_append.
  - unfold one_char. rewrite !append_assoc. reflexivity.
Qed.

Lemma kj_data_pattern_sound_witness :
  Re.search (Re.compile kj_data_pattern) ("var windowX__data=1;" ++ nl ++ "x;")%string
    = Some "1"
  /\ exists c, Re.dot c = true /\
       contains ("window" ++ one_char c ++ "__data=" ++ "1" ++ ";")
         ("var windowX__data=1;" ++ nl ++ "x;")%string = true.
Proof.
  assert (H : Re.search (Re.compile kj_data_pattern)
                ("var windowX__data=1;" ++ nl ++ "x;")%string = Some "1")
    by (vm_compute; reflexivity).
  split; [exact H|].
  exact (proj2 (kj_data_pattern_sound _ "1" H)).
Defined.

(** ** The description and the title *)

(** X18.  Once [post_ad_using_data] has rewritten the description, the
    dictionary holds under [postAdForm.description] the caller's
    description with every backslash followed by [n] replaced by a newline:
    no such pair is left in it, and a description that had none is kept as
    it was. *)
Theorem description_is_normalised (C : Collaborators) (data : dict string)
  (image_files : list string) (w : World) (d' : dict string) (w' : World) :
  post_ad_prepare C image_files (data, w) = (Ok tt, (d', w')) ->
  exists original description,
    dict_get data "postAdForm.description" = Some original /\
    dict_get d' "postAdForm.description" = Some description /\
    contains "\n" description = false /\
    (contains "\n" original = false -> description = original).
Proof.
  intros Hprep.
  destruct (post_ad_prepare_inv _ _ _ _ _ _ _ Hprep)
    as (_ & tok & urls & images & token & fraud & original
        & _ & _ & _ & _ & _ & Hdesc & ->).
  exists original, (replace "\n" nl original).
  destruct (prepared_lookup data images token fraud original) as (_ & _ & _ & L).
  split; [exact Hdesc|]. split; [exact L|]. split.
  - apply (replace_no_escape_bounded (String.length original)). lia.
  - apply replace_identity.
Qed.

Lemma description_is_normalised_witness :
  exists original description,
    dict_get (ad_with title10) "postAdForm.description" = Some original /\
    dict_get (fst (snd (post_ad_prepare kijiji [] (ad_with title10, Mock.fresh))))
      "postAdForm.description" = Some description /\
    contains "\n" description = false /\
    (contains "\n" original = false -> description = original).
Proof.
  exact (description_is_normalised kijiji (ad_with title10) [] Mock.fresh _ _
           (example_prepare kijiji (ad_with title10) [] eq_refl)).
Defined.

Lemma lstrip_head (s : string) :
  lstrip s = EmptyString \/
  exists c t, lstrip s = String c t /\ isspace c = false.
Proof.
  induction s as [|c s IH]; simpl; [now left|].
  destruct (isspace c) eqn:Hc; [exact IH|]. right. eauto.
Qed.

Lemma rstrip_idempotent (s : string) : rstrip (rstrip s) = rstrip s.
Proof.
  induction s as [|c s IH]; [reflexivity|].
  cbn [rstrip]. destruct (rstrip s) as [|d r] eqn:Hr.
  - destruct (isspace c) eqn:Hc; [reflexivity|].
    cbn [rstrip]. now rewrite Hc.
  - cbn [rstrip] in *. rewrite IH. reflexivity.
Qed.

Lemma rstrip_head (c : ascii) (t : string) :
  isspace c = false -> exists r, rstrip (String c t) = String c r.
Proof.
  intros Hc. cbn [rstrip]. destruct (rstrip t); [rewrite Hc|]; eauto.
Qed.

Lemma strip_idempotent (s : string) : strip (strip s) = strip s.
Proof.
  unfold strip. destruct (lstrip_head s) as [->|(c & t & -> & Hc)].
  - reflexivity.
  - destruct (rstrip_head c t Hc) as [r Hr].
    rewrite Hr. cbn [lstrip]. rewrite Hc, <- Hr. apply rstrip_idempotent.
Qed.

Lemma delete_matching_strip (C : Collaborators) title all_ads :
  forall w, delete_matching C (strip title) all_ads w
            = delete_matching C title all_ads w.
Proof.
  induction all_ads as [|ad rest IH]; intros w; [reflexivity|].
  cbn [delete_matching]. rewrite strip_idempotent.
  unfold bind at 1 5. destruct (of_result (getitem ad "title") w) as [[t|e] w1];
    [|reflexivity].
  unfold bind at 1 4. destruct (of_result (strip_of t) w1) as [[t'|e] w2];
    [|reflexivity].
  unfold bind at 1 3.
  destruct ((if String.eqb t' (strip title)
             then i <- of_result (getitem ad "id");; delete_ad C i
             else ret tt) w2) as [[[]|e] w3]; [apply IH | reflexivity].
Qed.

(** X19.  Whitespace around the title given to [delete_ad_using_title] is
    of no consequence: the call does the same, request for request and
    exception for exception, as the call with the title stripped. *)
Theorem delete_ad_using_title_strips (C : Collaborators) (title : string)
  (w : World) :
  delete_ad_using_title C (strip title) w = delete_ad_using_title C title w.
Proof.
  unfold delete_ad_using_title, bind.
  destruct (get_all_ads C w) as [[all_ads|e] w1]; [|reflexivity].
  apply delete_matching_strip.
Qed.

(** X20.  With no image file, [post_ad_using_data] uploads nothing and
    writes the empty text under [images]: when the steps before the check
    of the title succeed, the request for the form page is the only request
    made so far. *)
Theorem post_ad_without_images (C : Collaborators) (data : dict string)
  (w : World) (d' : dict string) (w' : World) :
  post_ad_prepare C [] (data, w) = (Ok tt, (d', w')) ->
  dict_get d' "images" = Some EmptyString /\
  w' = mkWorld (form_request :: sent w) (dumps w) (stdout w).
Proof.
  intros Hprep.
  destruct (post_ad_prepare_inv _ _ _ _ _ _ _ Hprep)
    as (_ & tok & urls & images & token & fraud & description
        & _ & Hup & Hjoin & _ & _ & _ & ->).
  injection Hup as <- <-. injection Hjoin as <-.
  split; [|reflexivity].
  now destruct (prepared_lookup data EmptyString token fraud description) as (L & _).
Qed.

Lemma post_ad_without_images_witness :
  dict_get (fst (snd (post_ad_prepare kijiji [] (ad_with title10, Mock.fresh))))
    "images" = Some EmptyString
  /\ snd (snd (post_ad_prepare kijiji [] (ad_with title10, Mock.fresh)))
     = mkWorld (form_request :: sent Mock.fresh) (dumps Mock.fresh)
         (stdout Mock.fresh).
Proof.
  exact (post_ad_without_images kijiji (ad_with title10) Mock.fresh _ _
           (example_prepare kijiji (ad_with title10) [] eq_refl)).
Defined.
